(** * Calendify: availability resolution, schedule validation and booking

    A shallow embedding of the scheduling core of the Calendify application
    (src/server/actions/schedule.ts, src/server/google/googleCalendar.ts,
    src/schema/schedule.ts, src/lib/utils.ts) together with the parts of the
    JavaScript [Date] object, of date-fns and of date-fns-tz that this code
    calls, followed by the properties of the specification; then the
    event actions (src/server/actions/events.ts, src/schema/events.ts),
    [saveSchedule], the times offered by the meeting form
    (src/components/forms/MeetingForm.tsx) and [formatEventDescription],
    over tables that are lists of rows.

    Conventions.
    - A JavaScript [Date] is its time value: [Some ms] (milliseconds since
      the epoch, UTC) or [None] for an Invalid Date (time value NaN).  The
      range limit of time values (8.64e15 ms) is not modelled.
    - A JavaScript number that the code obtains from a string with [Number]
      is [Some n] or [None] for NaN, except in [timeToFloat], which computes
      on IEEE 754 doubles (Rocq's primitive floats).
    - Asynchronous server actions are computations in a monad that threads
      the log of calls made to external services and can throw. *)

From Stdlib Require Import ZArith Ascii String PrimFloat Uint63 DecimalString.
From stdpp Require Import base option list strings gmap sorting.

Open Scope Z_scope.

(** ** ECMAScript time values (ECMA-262, section "Date Objects") *)

Module JsTime.

Definition msPerDay : Z := 86400000.
Definition msPerHour : Z := 3600000.
Definition msPerMinute : Z := 60000.
Definition msPerSecond : Z := 1000.

(** The largest time value of a valid Date (ECMA-262, "Time Values and
    Time Range"). *)
Definition maxTime : Z := 8640000000000000.

Definition Day (t : Z) : Z := t / msPerDay.

(** 0 is Sunday, 1 is Monday, ..., 6 is Saturday; day 0 was a Thursday. *)
Definition WeekDay (t : Z) : Z := (Day t + 4) mod 7.

Definition HourFromTime (t : Z) : Z := (t / msPerHour) mod 24.
Definition MinFromTime (t : Z) : Z := (t / msPerMinute) mod 60.
Definition SecFromTime (t : Z) : Z := (t / msPerSecond) mod 60.
Definition msFromTime (t : Z) : Z := t mod msPerSecond.

Definition MakeTime (hour min sec ms : Z) : Z :=
  hour * msPerHour + min * msPerMinute + sec * msPerSecond + ms.
Definition MakeDate (day time : Z) : Z := day * msPerDay + time.

(** A time zone, as ECMAScript sees one: [LocalTZA t true] is the offset
    (ms) in force at the UTC instant [t]; [LocalTZA t false] is the offset
    chosen for the wall-clock time value [t]. *)
Record Zone := { LocalTZA : Z -> bool -> Z }.

Definition LocalTime (z : Zone) (t : Z) : Z := t + LocalTZA z t true.
Definition UTC (z : Zone) (t : Z) : Z := t - LocalTZA z t false.

(** A zone without transitions: the same offset at every instant. *)
Definition fixedZone (offset : Z) : Zone := {| LocalTZA := fun _ _ => offset |}.

(** A Date object; [None] is Invalid Date. *)
Definition JsDate : Type := option Z.

(** [Date.prototype.getDay], in the zone of the running process. *)
Definition getDay (sys : Zone) (d : JsDate) : option Z :=
  match d with
  | Some t => Some (WeekDay (LocalTime sys t))
  | None => None
  end.

(** [Date.prototype.setHours(hour)]: the other fields of the local time
    are kept.  A NaN argument makes the date invalid. *)
Definition Date_setHours (sys : Zone) (d : JsDate) (hour : option Z) : JsDate :=
  match d, hour with
  | Some t, Some h =>
      let t := LocalTime sys t in
      Some (UTC sys (MakeDate (Day t)
              (MakeTime h (MinFromTime t) (SecFromTime t) (msFromTime t))))
  | _, _ => None
  end.

(** [Date.prototype.setHours(hour, min, sec, ms)]. *)
Definition Date_setHours4 (sys : Zone) (d : JsDate) (h m s ms : Z) : JsDate :=
  match d with
  | Some t =>
      let t := LocalTime sys t in
      Some (UTC sys (MakeDate (Day t) (MakeTime h m s ms)))
  | None => None
  end.

(** [Date.prototype.setMinutes(min)]. *)
Definition Date_setMinutes (sys : Zone) (d : JsDate) (min : option Z) : JsDate :=
  match d, min with
  | Some t, Some m =>
      let t := LocalTime sys t in
      Some (UTC sys (MakeDate (Day t)
              (MakeTime (HourFromTime t) m (SecFromTime t) (msFromTime t))))
  | _, _ => None
  end.

(** Days from the epoch to a date of the proleptic Gregorian calendar
    (month 1..12), and [Date.UTC]; used to write instants readably. *)
Definition daysFromCivil (y m d : Z) : Z :=
  let y' := if m <=? 2 then y - 1 else y in
  let era := y' / 400 in
  let yoe := y' - era * 400 in
  let mp := (m + 9) mod 12 in
  let doy := (153 * mp + 2) / 5 + d - 1 in
  let doe := yoe * 365 + yoe / 4 - yoe / 100 + doy in
  era * 146097 + doe - 719468.

Definition Date_UTC (y m d hh mm : Z) : Z :=
  MakeDate (daysFromCivil y m d) (MakeTime hh mm 0 0).

End JsTime.

(** ** The host: what the JavaScript runtime and its libraries look up *)

(** [sys_zone] is the time zone of the server process, the one every
    local-time method of [Date] (and so every date-fns function) uses;
    [tz_lookup] resolves a time-zone string the way date-fns-tz does
    ([None]: not a time zone); [Date_parse] is [new Date(string)];
    [is_email] is zod's e-mail check and [schema_loaded_at] the value of
    [new Date()] when the meeting schema was built. *)
Record Host := {
  sys_zone : JsTime.Zone;
  tz_lookup : string -> option JsTime.Zone;
  Date_parse : string -> JsTime.JsDate;
  is_email : string -> bool;
  schema_loaded_at : Z;
}.

(** ** date-fns (version 3 and later) and date-fns-tz *)

Module DateFns.
Import JsTime.

Record Interval := { start : JsDate; end_ : JsDate }.

Section WithHost.
Variable h : Host.

Definition isSunday (d : JsDate) : bool := bool_decide (getDay (sys_zone h) d = Some 0).
Definition isMonday (d : JsDate) : bool := bool_decide (getDay (sys_zone h) d = Some 1).
Definition isTuesday (d : JsDate) : bool := bool_decide (getDay (sys_zone h) d = Some 2).
Definition isWednesday (d : JsDate) : bool := bool_decide (getDay (sys_zone h) d = Some 3).
Definition isThursday (d : JsDate) : bool := bool_decide (getDay (sys_zone h) d = Some 4).
Definition isFriday (d : JsDate) : bool := bool_decide (getDay (sys_zone h) d = Some 5).
Definition isSaturday (d : JsDate) : bool := bool_decide (getDay (sys_zone h) d = Some 6).

Definition setHours (d : JsDate) (hours : option Z) : JsDate :=
  Date_setHours (sys_zone h) d hours.
Definition setMinutes (d : JsDate) (minutes : option Z) : JsDate :=
  Date_setMinutes (sys_zone h) d minutes.

(** [date.setHours(0, 0, 0, 0)] and [date.setHours(23, 59, 59, 999)]. *)
Definition startOfDay (d : JsDate) : JsDate := Date_setHours4 (sys_zone h) d 0 0 0 0.
Definition endOfDay (d : JsDate) : JsDate := Date_setHours4 (sys_zone h) d 23 59 59 999.

(** The wall-clock fields that [date] shows in the process's zone are
    read as a time in [timeZone]; the result is that instant. *)
Definition fromZonedTime (date : JsDate) (timeZone : string) : JsDate :=
  match date, tz_lookup h timeZone with
  | Some t, Some z => Some (UTC z (LocalTime (sys_zone h) t))
  | _, _ => None
  end.
End WithHost.

Definition addMinutes (d : JsDate) (amount : Z) : JsDate :=
  match d with
  | Some t => Some (t + amount * msPerMinute)
  | None => None
  end.

(** Comparison of time values as JavaScript numbers: false on NaN. *)
Definition num_lt (a b : option Z) : bool :=
  match a, b with Some x, Some y => x <? y | _, _ => false end.
Definition num_le (a b : option Z) : bool :=
  match a, b with Some x, Some y => x <=? y | _, _ => false end.

(** [[a, b].sort((a, b) => a - b)]: ascending; a NaN difference leaves
    the two in place. *)
Definition sort2 (a b : option Z) : option Z * option Z :=
  match a, b with
  | Some x, Some y => if y <? x then (b, a) else (a, b)
  | _, _ => (a, b)
  end.

(** Both ends inclusive, the interval's ends put in order first. *)
Definition isWithinInterval (date : JsDate) (interval : Interval) : bool :=
  let '(startTime, endTime) := sort2 (start interval) (end_ interval) in
  num_le startTime date && num_le date endTime.

(** Without the [inclusive] option: strict comparisons. *)
Definition areIntervalsOverlapping (intervalLeft intervalRight : Interval) : bool :=
  let '(leftStartTime, leftEndTime) := sort2 (start intervalLeft) (end_ intervalLeft) in
  let '(rightStartTime, rightEndTime) := sort2 (start intervalRight) (end_ intervalRight) in
  num_lt leftStartTime rightEndTime && num_lt rightStartTime leftEndTime.

End DateFns.

(** ** Regular expressions, as far as the schema uses them *)

Module Regex.

Inductive regex :=
| Void                          (* matches nothing *)
| Eps                           (* the empty string *)
| Chr (c : ascii)               (* a literal character *)
| Range (lo hi : ascii)         (* a class [lo-hi] *)
| Seq (r1 r2 : regex)
| Alt (r1 r2 : regex).

Definition in_range (lo hi c : ascii) : bool :=
  (N_of_ascii lo <=? N_of_ascii c)%N && (N_of_ascii c <=? N_of_ascii hi)%N.

Fixpoint nullable (r : regex) : bool :=
  match r with
  | Void => false
  | Eps => true
  | Chr _ => false
  | Range _ _ => false
  | Seq r1 r2 => nullable r1 && nullable r2
  | Alt r1 r2 => nullable r1 || nullable r2
  end.

(** What is left of [r] after reading [c]. *)
Fixpoint deriv (c : ascii) (r : regex) : regex :=
  match r with
  | Void => Void
  | Eps => Void
  | Chr c' => if Ascii.eqb c c' then Eps else Void
  | Range lo hi => if in_range lo hi c then Eps else Void
  | Seq r1 r2 =>
      Alt (Seq (deriv c r1) r2) (if nullable r1 then deriv c r2 else Void)
  | Alt r1 r2 => Alt (deriv c r1) (deriv c r2)
  end.

(** [/^r$/.test(s)]: the whole of [s] is matched by [r]. *)
Fixpoint test (r : regex) (s : string) : bool :=
  match s with
  | EmptyString => nullable r
  | String c s' => test (deriv c r) s'
  end.

(** The strings a regular expression denotes. *)
Inductive lang : regex -> string -> Prop :=
| lang_eps : lang Eps EmptyString
| lang_chr c : lang (Chr c) (String c EmptyString)
| lang_range lo hi c :
    in_range lo hi c = true -> lang (Range lo hi) (String c EmptyString)
| lang_seq r1 r2 s1 s2 :
    lang r1 s1 -> lang r2 s2 -> lang (Seq r1 r2) (s1 +:+ s2)
| lang_alt_l r1 r2 s : lang r1 s -> lang (Alt r1 r2) s
| lang_alt_r r1 r2 s : lang r2 s -> lang (Alt r1 r2) s.

End Regex.

(** ** JavaScript strings and numbers used by the time parsing *)

Module Js.

(** [s.split(sep)] for a one-character separator. *)
Fixpoint split (sep : ascii) (s : string) : list string :=
  match s with
  | EmptyString => [EmptyString]
  | String c s' =>
      if Ascii.eqb c sep then EmptyString :: split sep s'
      else match split sep s' with
           | x :: xs => String c x :: xs
           | [] => [String c EmptyString]
           end
  end.

Definition digit (c : ascii) : option Z :=
  let n := Z.of_N (N_of_ascii c) in
  if (48 <=? n) && (n <=? 57) then Some (n - 48) else None.

Fixpoint digits (acc : Z) (s : string) : option Z :=
  match s with
  | EmptyString => Some acc
  | String c s' =>
      match digit c with
      | Some d => digits (10 * acc + d) s'
      | None => None
      end
  end.

(** [Number(s)] on a string of decimal digits ([Number("")] is 0);
    [None] is NaN.  The other notations [Number] reads (blanks, a sign,
    a fraction, an exponent, a radix prefix, "Infinity") are taken as NaN
    here: no time string that the schedule schema accepts is of that
    kind (lemma [accepted_time_parses]). *)
Definition Number (s : string) : option Z := digits 0 s.

(** The double of an integer below 2^63, or NaN. *)
Definition toDouble (n : option Z) : float :=
  match n with
  | Some z => PrimFloat.of_uint63 (Uint63.of_Z z)
  | None => PrimFloat.nan
  end.

(** [`${error.message || error}`] for an [Error] with message [m]. *)
Definition messageOf (m : string) : string :=
  if String.eqb m "" then "Error"%string else m.

End Js.

(** ** src/constants: the days of the week *)

Inductive DayOfWeek :=
  monday | tuesday | wednesday | thursday | friday | saturday | sunday.

Definition DAYS_OF_WEEK_IN_ORDER : list DayOfWeek :=
  [monday; tuesday; wednesday; thursday; friday; saturday; sunday].

Global Instance DayOfWeek_eq_dec : EqDecision DayOfWeek.
Proof. solve_decision. Defined.

Definition DayOfWeek_index (d : DayOfWeek) : nat :=
  match d with
  | monday => 0 | tuesday => 1 | wednesday => 2 | thursday => 3
  | friday => 4 | saturday => 5 | sunday => 6
  end%nat.

Global Instance DayOfWeek_countable : Countable DayOfWeek.
Proof.
  refine (inj_countable' DayOfWeek_index
            (fun n => nth n DAYS_OF_WEEK_IN_ORDER sunday) _).
  intros []; reflexivity.
Defined.

(** ** src/lib/utils.ts *)

(** [const [hours, minutes] = time.split(":").map(Number)]; a missing
    second part is [undefined], and [undefined / 60] is NaN. *)
Definition timeToFloat (time : string) : float :=
  let parts := map Js.Number (Js.split ":" time) in
  let hours := Js.toDouble (default None (parts !! 0%nat)) in
  let minutes := Js.toDouble (default None (parts !! 1%nat)) in
  (hours + minutes / 60)%float.

(** ** src/schema/schedule.ts *)

Module ScheduleSchema.
Import Regex.

(** [/^([0-9]|0[0-9]|1[0-9]|2[0-3]):[0-5][0-9]$/] without its anchors. *)
Definition timeRegex : regex :=
  Seq (Alt (Range "0" "9")
      (Alt (Seq (Chr "0") (Range "0" "9"))
      (Alt (Seq (Chr "1") (Range "0" "9"))
           (Seq (Chr "2") (Range "0" "3")))))
  (Seq (Chr ":") (Seq (Range "0" "5") (Range "0" "9"))).

Definition timeFormatOk (s : string) : bool := test timeRegex s.

Record Availability := {
  dayOfWeek : DayOfWeek;
  startTime : string;
  endTime : string;
}.

Record Issue := {
  code : string;
  message : string;
  path : nat * string;
}.

Definition overlapIssue (index : nat) : Issue :=
  {| code := "custom"; message := "Availability overlaps with another";
     path := (index, "startTime"%string) |}.

Definition orderIssue (index : nat) : Issue :=
  {| code := "custom"; message := "End time must be after start time";
     path := (index, "endTime"%string) |}.

(** The callback of [availabilities.some((a, i) => ...)] for the rule
    [availability] at [index]. *)
Definition overlapsWith (index : nat) (availability : Availability)
    (i : nat) (a : Availability) : bool :=
  negb (i =? index)%nat
  && bool_decide (dayOfWeek a = dayOfWeek availability)
  && PrimFloat.ltb (timeToFloat (startTime a)) (timeToFloat (endTime availability))
  && PrimFloat.ltb (timeToFloat (startTime availability)) (timeToFloat (endTime a)).

(** The issues that one round of the [forEach] adds. *)
Definition checkAvailability (availabilities : list Availability)
    (index : nat) (availability : Availability) : list Issue :=
  let overlaps := existsb id (imap (overlapsWith index availability) availabilities) in
  (if overlaps then [overlapIssue index] else [])
  ++ (if PrimFloat.leb (timeToFloat (endTime availability))
                       (timeToFloat (startTime availability))
      then [orderIssue index] else []).

(** The [superRefine] of the [availabilities] array: the issues added
    to the context, in the order they are added. *)
Definition superRefine (availabilities : list Availability) : list Issue :=
  concat (imap (checkAvailability availabilities) availabilities).

Definition isOverlapIssue (i : Issue) : bool :=
  String.eqb (message i) "Availability overlaps with another".

End ScheduleSchema.

(** ** src/drizzle/schema.ts: the rows the actions read
    (the [createdAt] and [updatedAt] columns are never read and left out) *)

Module AvailabilityRow.
Record t := {
  id : string;
  scheduleId : string;
  startTime : string;
  endTime : string;
  dayOfWeek : DayOfWeek;
}.
End AvailabilityRow.

(** [FullSchedule]: a row of [ScheduleTable] with its availabilities. *)
Module FullSchedule.
Record t := {
  id : string;
  timezone : string;
  clerkUserId : string;
  availabilities : list AvailabilityRow.t;
}.
End FullSchedule.

Module EventRow.
Record t := {
  id : string;
  name : string;
  description : option string;
  durationInMinutes : Z;
  clerkUserId : string;
  isActive : bool;
}.
End EventRow.

(** ** The Google Calendar and Clerk data the code reads and writes *)

Module Gcal.
(** [calendar_v3.Schema$EventDateTime]. *)
Record EventDateTime := {
  date : option string;
  dateTime : option string;
}.

(** [calendar_v3.Schema$Event], the fields read. *)
Record Event := {
  start : option EventDateTime;
  end_ : option EventDateTime;
}.

Record Attendee := {
  email : string;
  displayName : string;
  responseStatus : option string;
}.

(** The request body of [events.insert]; the two date-times are kept
    as the instants their ISO strings denote. *)
Record InsertBody := {
  attendees : list Attendee;
  description : string;
  startDateTime : Z;
  endDateTime : Z;
  summary : string;
}.
End Gcal.

Module Clerk.
Record OauthAccessToken := { token : string }.
Record EmailAddress := { id : string; emailAddress : string }.
Record User := {
  emailAddresses : list EmailAddress;
  primaryEmailAddressId : option string;
  firstName : option string;
  lastName : option string;
}.
End Clerk.

(** ** Server actions as computations with a call log *)

Module Effects.

(** How an asynchronous call ends: a value, or a thrown [Error] with its
    message. *)
Inductive outcome (A : Type) :=
| Ok (a : A)
| Throw (message : string).
Arguments Ok {A} a.
Arguments Throw {A} message.

(** The calls to the outside that the actions make. *)
Inductive Call :=
| DbFindSchedule (clerkUserId : string)
| DbFindEvent (clerkUserId eventId : string)
| ClerkGetOauthToken (clerkUserId : string)
| ClerkGetUser (clerkUserId : string)
| GcalEventsList (token : string) (timeMin timeMax : Z)
| GcalEventsInsert (token : string) (body : Gcal.InsertBody)
| ConsoleError (text : string).

(** The only call that writes. *)
Definition isWrite (c : Call) : bool :=
  match c with GcalEventsInsert _ _ => true | _ => false end.

Definition noWrite (calls : list Call) : Prop := Forall (fun c => isWrite c = false) calls.

(** The services behind the calls: the two tables, and what Clerk and
    the Google Calendar API answer (an answer can be a failure).  The [id]
    column of the events is a uuid: a query that compares it with a text
    that the database does not read as a uuid fails, and [uuid_error] is
    the message of that failure ([None] for a text that is a uuid). *)
Record Services := {
  ScheduleTable : list FullSchedule.t;
  EventTable : list EventRow.t;
  uuid_error : string -> option string;
  getUserOauthAccessToken : string -> outcome (list Clerk.OauthAccessToken);
  getUser : string -> outcome Clerk.User;
  events_list : string -> Z -> Z -> outcome (option (list Gcal.Event));
  events_insert : string -> Gcal.InsertBody -> outcome Gcal.Event;
}.

(** A computation extends the log of calls and ends in an outcome. *)
Definition M (A : Type) : Type := list Call -> outcome A * list Call.

Definition ret {A} (a : A) : M A := fun log => (Ok a, log).
Definition throw {A} (message : string) : M A := fun log => (Throw message, log).
Definition bind {A B} (m : M A) (k : A -> M B) : M B :=
  fun log =>
    match m log with
    | (Ok a, log') => k a log'
    | (Throw e, log') => (Throw e, log')
    end.

(** [try { m } catch (error) { handler }]. *)
Definition try_catch {A} (m : M A) (handler : string -> M A) : M A :=
  fun log =>
    match m log with
    | (Ok a, log') => (Ok a, log')
    | (Throw e, log') => handler e log'
    end.

(** Make the call [c], whose answer is [answer]. *)
Definition call {A} (c : Call) (answer : outcome A) : M A :=
  fun log => (answer, log ++ [c]).

(** [date.toISOString()] throws a RangeError on an Invalid Date. *)
Definition toISOString (d : JsTime.JsDate) : M Z :=
  match d with
  | Some t => ret t
  | None => throw "Invalid time value"
  end.

End Effects.

Notation "'let*' x ':=' m 'in' k" := (Effects.bind m (fun x => k))
  (at level 10, x name, m at level 100, k at level 200).

(** ** src/server/google/googleCalendar.ts *)

Module GoogleCalendar.
Import JsTime DateFns Effects.

(** JavaScript truthiness of an optional string field. *)
Definition truthy (s : option string) : bool :=
  match s with
  | Some v => negb (String.eqb v "")
  | None => false
  end.

(** [event.start?.date] and the like. *)
Definition startDate (e : Gcal.Event) : option string := Gcal.start e ≫= Gcal.date.
Definition endDate (e : Gcal.Event) : option string := Gcal.end_ e ≫= Gcal.date.
Definition startDateTime (e : Gcal.Event) : option string := Gcal.start e ≫= Gcal.dateTime.
Definition endDateTime (e : Gcal.Event) : option string := Gcal.end_ e ≫= Gcal.dateTime.

(** The client is represented by the access token it carries; being an
    object, it is never falsy, so the callers' [if (!oAuthClient)] never
    throws and is left out. *)
Definition getOAuthClient (sv : Services) (clerkUserId : string) : M string :=
  try_catch
    (let* data := call (ClerkGetOauthToken clerkUserId)
                       (getUserOauthAccessToken sv clerkUserId) in
     match data with
     | [] => throw "No OAuth data or token found for the user."
     | d :: _ =>
         if String.eqb (Clerk.token d) ""
         then throw "No OAuth data or token found for the user."
         else ret (Clerk.token d)
     end)
    (fun err => throw ("Failed to get OAuth client: " +:+ err)).

(** The callback of [items.map]: [None] is [undefined]. *)
Definition eventTime (h : Host) (event : Gcal.Event) : option Interval :=
  if truthy (startDate event) && truthy (endDate event) then
    Some {| start := startOfDay h (Date_parse h (default "" (startDate event)));
            end_ := endOfDay h (Date_parse h (default "" (endDate event))) |}
  else if truthy (startDateTime event) && truthy (endDateTime event) then
    Some {| start := Date_parse h (default "" (startDateTime event));
            end_ := Date_parse h (default "" (endDateTime event)) |}
  else None.

(** [.filter((date): date is {...} => date !== undefined)]. *)
Fixpoint definedOnly {A} (l : list (option A)) : list A :=
  match l with
  | [] => []
  | Some x :: l' => x :: definedOnly l'
  | None :: l' => definedOnly l'
  end.

Definition getCalendarEventTimes (h : Host) (sv : Services)
    (clerkUserId : string) (start end_ : JsDate) : M (list Interval) :=
  try_catch
    (let* oAuthClient := getOAuthClient sv clerkUserId in
     let* timeMin := toISOString start in
     let* timeMax := toISOString end_ in
     let* items := call (GcalEventsList oAuthClient timeMin timeMax)
                        (events_list sv oAuthClient timeMin timeMax) in
     ret (match items with
          | Some items => definedOnly (map (eventTime h) items)
          | None => []
          end))
    (fun err => throw ("Failed to fetch calendar events: " +:+ Js.messageOf err)).

Record CreateArgs := {
  clerkUserId : string;
  guestName : string;
  guestEmail : string;
  startTime : JsDate;
  guestNotes : option string;
  durationInMinutes : Z;
  eventName : string;
}.

(** A nullable string inside a template literal. *)
Definition shown (s : option string) : string := default "null"%string s.

Definition createCalendarEvent (sv : Services) (a : CreateArgs) : M Gcal.Event :=
  try_catch
    (let* oAuthClient := getOAuthClient sv (clerkUserId a) in
     let* calendarUser := call (ClerkGetUser (clerkUserId a)) (getUser sv (clerkUserId a)) in
     let primaryEmail :=
       find (fun e => bool_decide (Some (Clerk.id e) = Clerk.primaryEmailAddressId calendarUser))
            (Clerk.emailAddresses calendarUser) in
     match primaryEmail with
     | None => throw "Clerk user has no email"
     | Some primaryEmail =>
         let fullName :=
           (shown (Clerk.firstName calendarUser) +:+ " "
            +:+ shown (Clerk.lastName calendarUser))%string in
         let* startISO := toISOString (startTime a) in
         let* endISO := toISOString (addMinutes (startTime a) (durationInMinutes a)) in
         let body :=
           {| Gcal.attendees :=
                [ {| Gcal.email := guestEmail a; Gcal.displayName := guestName a;
                     Gcal.responseStatus := None |};
                  {| Gcal.email := Clerk.emailAddress primaryEmail;
                     Gcal.displayName := fullName;
                     Gcal.responseStatus := Some "accepted"%string |} ];
              Gcal.description :=
                (if truthy (guestNotes a)
                 then "Additional Details: " +:+ default "" (guestNotes a)
                 else "No additional details.")%string;
              Gcal.startDateTime := startISO;
              Gcal.endDateTime := endISO;
              Gcal.summary :=
                (guestName a +:+ " + " +:+ fullName +:+ ": " +:+ eventName a)%string |} in
         call (GcalEventsInsert oAuthClient body) (events_insert sv oAuthClient body)
     end)
    (fun error =>
       let* _ := call (ConsoleError ("Error creating calendar event: " +:+ Js.messageOf error))
                      (Ok tt) in
       throw ("Failed to create calendar event: " +:+ Js.messageOf error)).

End GoogleCalendar.

(** ** src/server/actions/schedule.ts *)

Module Schedule.
Import JsTime DateFns Effects.

(** [Object.groupBy(items, key)]: for every key, the items with that
    key in their order; a key without items is absent. *)
Definition groupBy {A K : Type} `{Countable K}
    (items : list A) (key : A -> K) : gmap K (list A) :=
  foldl (fun m a => <[key a := default [] (m !! key a) ++ [a]]> m) ∅ items.

Definition getSchedule (sv : Services) (userId : string) : M (option FullSchedule.t) :=
  call (DbFindSchedule userId)
       (Ok (find (fun s => String.eqb (FullSchedule.clerkUserId s) userId)
                 (ScheduleTable sv))).

(** [const [hour, minute] = time.split(":").map(Number)]; a missing
    part is [undefined], which the setters turn into NaN. *)
Definition hourAndMinute (time : string) : option Z * option Z :=
  let parts := map Js.Number (Js.split ":" time) in
  (default None (parts !! 0%nat), default None (parts !! 1%nat)).

Definition dayOfWeekOf (h : Host) (date : JsDate) : option DayOfWeek :=
  if isMonday h date then Some monday
  else if isTuesday h date then Some tuesday
  else if isWednesday h date then Some wednesday
  else if isThursday h date then Some thursday
  else if isFriday h date then Some friday
  else if isSaturday h date then Some saturday
  else if isSunday h date then Some sunday
  else None.

(** The window of one availability row on the day of [date]. *)
Definition availabilityWindow (h : Host) (date : JsDate) (timezone : string)
    (row : AvailabilityRow.t) : Interval :=
  let '(startHour, startMinute) := hourAndMinute (AvailabilityRow.startTime row) in
  let '(endHour, endMinute) := hourAndMinute (AvailabilityRow.endTime row) in
  {| start := fromZonedTime h (setMinutes h (setHours h date startHour) startMinute) timezone;
     end_ := fromZonedTime h (setMinutes h (setHours h date endHour) endMinute) timezone |}.

Definition getAvailabilities (h : Host)
    (groupedAvailabilities : gmap DayOfWeek (list AvailabilityRow.t))
    (date : JsDate) (timezone : string) : list Interval :=
  match dayOfWeekOf h date with
  | None => []
  | Some dayOfWeek =>
      match groupedAvailabilities !! dayOfWeek with
      | None => []
      | Some dayAvailabilities => map (availabilityWindow h date timezone) dayAvailabilities
      end
  end.

(** The callback of [timesInOrder.filter]. *)
Definition validTime (h : Host)
    (groupedAvailabilities : gmap DayOfWeek (list AvailabilityRow.t))
    (timezone : string) (eventTimes : list Interval) (durationInMinutes : Z)
    (intervalDate : JsDate) : bool :=
  let availabilities := getAvailabilities h groupedAvailabilities intervalDate timezone in
  let eventInterval :=
    {| start := intervalDate; end_ := addMinutes intervalDate durationInMinutes |} in
  forallb (fun eventTime => negb (areIntervalsOverlapping eventTime eventInterval)) eventTimes
  && existsb (fun availability =>
                isWithinInterval (start eventInterval) availability
                && isWithinInterval (end_ eventInterval) availability)
             availabilities.

Definition getValidTimesFromSchedule (h : Host) (sv : Services)
    (timesInOrder : list JsDate) (event : EventRow.t) : M (list JsDate) :=
  let userId := EventRow.clerkUserId event in
  let durationInMinutes := EventRow.durationInMinutes event in
  match head timesInOrder, last timesInOrder with
  | Some start, Some end_ =>
      let* schedule := getSchedule sv userId in
      match schedule with
      | None => ret []
      | Some schedule =>
          let groupedAvailabilities :=
            groupBy (FullSchedule.availabilities schedule) AvailabilityRow.dayOfWeek in
          let* eventTimes := GoogleCalendar.getCalendarEventTimes h sv userId start end_ in
          ret (List.filter
                 (validTime h groupedAvailabilities (FullSchedule.timezone schedule)
                    eventTimes durationInMinutes)
                 timesInOrder)
      end
  | _, _ => ret []
  end.

End Schedule.

(** ** src/schema/meetings and the [createMeeting] server action *)

Module Meetings.
Import JsTime DateFns Effects.

Record MeetingData := {
  eventId : string;
  clerkUserId : string;
  startTime : JsDate;
  guestEmail : string;
  guestName : string;
  guestNotes : option string;
  timezone : string;
}.

Definition nonEmpty (s : string) : bool := negb (String.eqb s "").

(** [meetingActionSchema.safeParse]: [Some data] on success. *)
Definition safeParse (h : Host) (unsafeData : MeetingData) : option MeetingData :=
  if nonEmpty (eventId unsafeData)
     && nonEmpty (clerkUserId unsafeData)
     && num_le (Some (schema_loaded_at h)) (startTime unsafeData)
     && is_email h (guestEmail unsafeData) && nonEmpty (guestEmail unsafeData)
     && nonEmpty (guestName unsafeData)
     && nonEmpty (timezone unsafeData)
  then Some unsafeData else None.

Record Created := {
  created_clerkUserId : string;
  created_eventId : string;
  created_startTime : JsDate;
}.

(** [db.query.EventTable.findFirst]: the stored ids are uuids, so a
    text that is not one matches no row, and then the query fails with the
    driver's error instead of answering [undefined]. *)
Definition findEvent (sv : Services) (data : MeetingData) : M (option EventRow.t) :=
  call (DbFindEvent (clerkUserId data) (eventId data))
       (match find (fun e => EventRow.isActive e
                             && String.eqb (EventRow.clerkUserId e) (clerkUserId data)
                             && String.eqb (EventRow.id e) (eventId data))
                   (EventTable sv) with
        | Some event => Ok (Some event)
        | None =>
            match uuid_error sv (eventId data) with
            | Some message => Throw message
            | None => Ok None
            end
        end).

Definition createMeeting (h : Host) (sv : Services) (unsafeData : MeetingData) : M Created :=
  try_catch
    (match safeParse h unsafeData with
     | None => throw "Invalid data."
     | Some data =>
         let* event := findEvent sv data in
         match event with
         | None => throw "Event not found."
         | Some event =>
             let startInTimezone := fromZonedTime h (startTime data) (timezone data) in
             let* validTimes :=
               Schedule.getValidTimesFromSchedule h sv [startInTimezone] event in
             if (length validTimes =? 0)%nat
             then throw "Selected time is not valid."
             else
               let* _ := GoogleCalendar.createCalendarEvent sv
                 {| GoogleCalendar.clerkUserId := clerkUserId data;
                    GoogleCalendar.guestName := guestName data;
                    GoogleCalendar.guestEmail := guestEmail data;
                    GoogleCalendar.startTime := startInTimezone;
                    GoogleCalendar.guestNotes := guestNotes data;
                    GoogleCalendar.durationInMinutes := EventRow.durationInMinutes event;
                    GoogleCalendar.eventName := EventRow.name event |} in
               ret {| created_clerkUserId := clerkUserId data;
                      created_eventId := eventId data;
                      created_startTime := startTime data |}
         end
     end)
    (fun error =>
       let* _ := call (ConsoleError ("Error creating meeting: " +:+ Js.messageOf error))
                      (Ok tt) in
       throw ("Failed to create meeting: " +:+ Js.messageOf error)).

End Meetings.

(** ** The time strings of the specification

    Written from the specification's words, to be compared with what
    [ScheduleSchema.timeRegex] accepts: an hour in one or two digits, a
    colon, a minute in two digits. *)

Module TimeFormat.

Definition digitChar (n : nat) : ascii := ascii_of_N (48 + N.of_nat n).

Definition oneDigit (n : nat) : string := String (digitChar n) EmptyString.

Definition twoDigits (n : nat) : string :=
  String (digitChar (n / 10)) (String (digitChar (n mod 10)) EmptyString).

(** "H:MM" and "HH:MM". *)
Definition shortTime (h m : nat) : string := oneDigit h +:+ ":" +:+ twoDigits m.
Definition longTime (h m : nat) : string := twoDigits h +:+ ":" +:+ twoDigits m.

Definition isTimeString (s : string) : Prop :=
  exists h m : nat,
    (h <= 23)%nat /\ (m <= 59)%nat /\
    (s = longTime h m \/ ((h <= 9)%nat /\ s = shortTime h m)).

(** Every time string of the specification, as a finite check. *)
Definition allTimes (f : nat -> nat -> bool) : bool :=
  forallb (fun h => forallb (f h) (seq 0 60)) (seq 0 24).

(** The times of the day as (hour, minute), their minute of the day, and
    the doubles that [timeToFloat] gives to their spellings; [orderAgrees]
    checks, pair by pair, that "end after start" on these doubles (the
    test of the schedule form) implies the same order of the minutes. *)
Definition timesTable : list (nat * nat) :=
  flat_map (fun h => map (pair h) (seq 0 60)) (seq 0 24).

Definition minuteOfDay (hm : nat * nat) : Z := Z.of_nat (fst hm) * 60 + Z.of_nat (snd hm).

Definition spellings (hm : nat * nat) : list string :=
  longTime (fst hm) (snd hm)
  :: (if (fst hm <=? 9)%nat then [shortTime (fst hm) (snd hm)] else []).

Definition floatsOfDay : list (Z * float) :=
  flat_map (fun hm => map (fun s => (minuteOfDay hm, timeToFloat s)) (spellings hm))
           timesTable.

Definition orderAgrees : bool :=
  let table := floatsOfDay in
  forallb (fun p => forallb (fun q => PrimFloat.leb (snd q) (snd p) || (fst p <? fst q)) table)
          table.

End TimeFormat.

(** ** Concrete inputs used by the examples and counterexamples *)

Module Scenarios.
Import JsTime.

(** Scenario C of the specification: two rules on Monday,
    09:00-11:00 and 10:00-12:00. *)
Definition overlappingRules : list ScheduleSchema.Availability :=
  [ {| ScheduleSchema.dayOfWeek := monday;
       ScheduleSchema.startTime := "09:00"; ScheduleSchema.endTime := "11:00" |};
    {| ScheduleSchema.dayOfWeek := monday;
       ScheduleSchema.startTime := "10:00"; ScheduleSchema.endTime := "12:00" |} ].

(** Time zones without transitions: UTC, and the offsets in force in
    New York and in Los Angeles during June 2025 (daylight time). *)
Definition utc : Zone := fixedZone 0.
Definition newYorkSummer : Zone := fixedZone (-4 * msPerHour).
Definition losAngelesSummer : Zone := fixedZone (-7 * msPerHour).

Definition zones (name : string) : option Zone :=
  if String.eqb name "UTC" then Some utc
  else if String.eqb name "America/New_York" then Some newYorkSummer
  else None.

(** The two date-time strings that occur in the scenarios. *)
Definition parseIso (s : string) : JsDate :=
  if String.eqb s "2025-06-09T10:00:00Z" then Some (Date_UTC 2025 6 9 10 0)
  else if String.eqb s "2025-06-09T10:30:00Z" then Some (Date_UTC 2025 6 9 10 30)
  else None.

Definition hasAt (s : string) : bool :=
  match String.index 0 "@" s with Some _ => true | None => false end.

Definition hostIn (zone : Zone) : Host :=
  {| sys_zone := zone; tz_lookup := zones; Date_parse := parseIso;
     is_email := hasAt; schema_loaded_at := Date_UTC 2025 6 1 0 0 |}.

(** A server whose process runs in UTC, and one that runs in Los Angeles. *)
Definition serverUTC : Host := hostIn utc.
Definition serverLosAngeles : Host := hostIn losAngelesSummer.

Definition owner : string := "user_owner".

(** The ids of the rows are uuids in the usual spelling; the database of
    the scenarios reads that spelling (8-4-4-4-12 hexadecimal digits) as a
    uuid and fails on any other text. *)
Definition uuid (tail : string) : string := "00000000-0000-4000-8000-0000000000" +:+ tail.

Definition isHex (c : ascii) : bool :=
  let n := nat_of_ascii c in
  ((48 <=? n) && (n <=? 57) || (97 <=? n) && (n <=? 102) || (65 <=? n) && (n <=? 70))%nat.

Fixpoint hexGroups (sizes : list nat) (text : list ascii) : bool :=
  match sizes with
  | [] => match text with [] => true | _ => false end
  | size :: rest =>
      forallb isHex (take size text)
      && (length (take size text) =? size)%nat
      && match rest, drop size text with
         | [], [] => true
         | _ :: _, c :: text' => Ascii.eqb c "-" && hexGroups rest text'
         | _, _ => false
         end
  end.

Definition hyphenatedHex (text : string) : bool :=
  hexGroups [8; 4; 4; 4; 12]%nat (list_ascii_of_string text).

Definition uuidError (text : string) : option string :=
  if hyphenatedHex text then None
  else Some ("Failed query: invalid input syntax for type uuid: " +:+ text).

Definition rule (day : DayOfWeek) (startTime endTime : string) : AvailabilityRow.t :=
  {| AvailabilityRow.id := uuid "a1"; AvailabilityRow.scheduleId := uuid "51";
     AvailabilityRow.startTime := startTime; AvailabilityRow.endTime := endTime;
     AvailabilityRow.dayOfWeek := day |}.

Definition scheduleOf (timezone : string) (rules : list AvailabilityRow.t) : FullSchedule.t :=
  {| FullSchedule.id := uuid "51"; FullSchedule.timezone := timezone;
     FullSchedule.clerkUserId := owner; FullSchedule.availabilities := rules |}.

Definition eventOf (durationInMinutes : Z) : EventRow.t :=
  {| EventRow.id := uuid "e1"; EventRow.name := "Intro call"; EventRow.description := None;
     EventRow.durationInMinutes := durationInMinutes;
     EventRow.clerkUserId := owner; EventRow.isActive := true |}.

(** A calendar entry on Monday 9 June 2025 from 10:00 to 10:30 UTC. *)
Definition busyMeeting : Gcal.Event :=
  {| Gcal.start := Some {| Gcal.date := None;
                           Gcal.dateTime := Some "2025-06-09T10:00:00Z"%string |};
     Gcal.end_ := Some {| Gcal.date := None;
                          Gcal.dateTime := Some "2025-06-09T10:30:00Z"%string |} |}.

Definition ownerUser : Clerk.User :=
  {| Clerk.emailAddresses :=
       [ {| Clerk.id := "m1"; Clerk.emailAddress := "owner@example.com" |} ];
     Clerk.primaryEmailAddressId := Some "m1"%string;
     Clerk.firstName := Some "Ada"%string; Clerk.lastName := Some "Owner"%string |}.

Definition servicesWith (schedules : list FullSchedule.t)
    (tokens : list Clerk.OauthAccessToken) (items : list Gcal.Event) : Effects.Services :=
  {| Effects.ScheduleTable := schedules;
     Effects.EventTable := [eventOf 30];
     Effects.uuid_error := uuidError;
     Effects.getUserOauthAccessToken := fun _ => Effects.Ok tokens;
     Effects.getUser := fun _ => Effects.Ok ownerUser;
     Effects.events_list := fun _ _ _ => Effects.Ok (Some items);
     Effects.events_insert := fun _ _ => Effects.Ok {| Gcal.start := None; Gcal.end_ := None |} |}.

Definition googleToken : list Clerk.OauthAccessToken := [ {| Clerk.token := "ya29" |} ].

(** Scenarios A and B: Monday 09:00-17:00 in UTC, with and without the
    busy entry. *)
Definition officeHours : FullSchedule.t := scheduleOf "UTC" [rule monday "09:00" "17:00"].
Definition officeFree : Effects.Services := servicesWith [officeHours] googleToken [].
Definition officeBusy : Effects.Services := servicesWith [officeHours] googleToken [busyMeeting].

(** New York schedules for the time-zone scenarios. *)
Definition sundayEvening : Effects.Services :=
  servicesWith [scheduleOf "America/New_York" [rule sunday "21:00" "23:00"]] googleToken [].
Definition mondayAfterMidnight : Effects.Services :=
  servicesWith [scheduleOf "America/New_York" [rule monday "00:00" "02:00"]] googleToken [].

(** A schedule without rules, owned by a user who has not connected a
    Google account. *)
Definition noRulesNoGoogle : Effects.Services := servicesWith [scheduleOf "UTC" []] [] [].
Definition noRules : Effects.Services := servicesWith [scheduleOf "UTC" []] googleToken [].
Definition noSchedule : Effects.Services := servicesWith [] googleToken [].

(** The name of a day number of [Date.prototype.getDay]. *)
Definition dayNamed (n : Z) : option DayOfWeek :=
  match n with
  | 0 => Some sunday | 1 => Some monday | 2 => Some tuesday | 3 => Some wednesday
  | 4 => Some thursday | 5 => Some friday | 6 => Some saturday
  | _ => None
  end.

(** Instants of Monday 9 June 2025, UTC. *)
Definition mondayAt (hh mm : Z) : JsDate := Some (Date_UTC 2025 6 9 hh mm).

Definition booking (startTime : JsDate) : Meetings.MeetingData :=
  {| Meetings.eventId := uuid "e1"; Meetings.clerkUserId := owner;
     Meetings.startTime := startTime;
     Meetings.guestEmail := "guest@example.com"; Meetings.guestName := "Grace";
     Meetings.guestNotes := None; Meetings.timezone := "UTC" |}.






End Scenarios.

(** ** src/lib/formatters.ts *)

Module Formatters.

(** [`${n}`] for an integer [n]. *)
Definition showZ (n : Z) : string := NilZero.string_of_int (Z.to_int n).

(** [Math.floor(d / 60)] is the floored quotient and [d % 60] the
    remainder with the sign of [d]. *)
Definition formatEventDescription (durationInMinutes : Z) : string :=
  let hours := durationInMinutes / 60 in
  let minutes := Z.rem durationInMinutes 60 in
  let minutesString := showZ minutes +:+ " " +:+ (if (1 <? minutes)%Z then "mins" else "min") in
  let hoursString := showZ hours +:+ " " +:+ (if (1 <? hours)%Z then "hrs" else "hr") in
  if hours =? 0 then minutesString
  else if minutes =? 0 then hoursString
  else hoursString +:+ " " +:+ minutesString.

(** The durations that the event form admits, with their descriptions. *)
Definition describedDurations : list (Z * string) :=
  map (fun n => (Z.of_nat n, formatEventDescription (Z.of_nat n))) (seq 1 720).

End Formatters.

(** ** date-fns-tz [toZonedTime] and the times offered by
    src/components/forms/MeetingForm.tsx *)

Module MeetingForm.
Import JsTime DateFns.

(** The date whose wall-clock fields, in the zone of the running process,
    are those that [date] shows in [timeZone]. *)
Definition toZonedTime (h : Host) (date : JsDate) (timeZone : string) : JsDate :=
  match date, tz_lookup h timeZone with
  | Some t, Some z => Some (UTC (sys_zone h) (LocalTime z t))
  | _, _ => None
  end.

(** [validTimes.map(date => toZonedTime(date, timezone))], computed in
    the browser. *)
Definition validTimesInTimezone (browser : Host) (validTimes : list JsDate)
    (timezone : string) : list JsDate :=
  map (fun date => toZonedTime browser date timezone) validTimes.

End MeetingForm.

(** ** The database behind the server actions that write

    The three tables as lists of rows in insertion order.  Identifiers
    with a random default come from a supply ([uuids], read at position
    [generated]); a collision of a generated identifier with a stored one
    is not modelled, and properties that depend on it assume the supply
    gives new identifiers.  The [id] columns are uuids: a statement that
    compares one with a text that the database does not read as a uuid
    fails, with the message [uuid_failure] gives for that text ([None]
    for a text that is a uuid).  Other failures of the database are not
    modelled. *)

Module Store.
Import Effects.

Module ScheduleRow.
Record t := {
  id : string;
  timezone : string;
  clerkUserId : string;
}.
End ScheduleRow.

Record Db := {
  scheduleRows : list ScheduleRow.t;
  availabilityRows : list AvailabilityRow.t;
  eventRows : list EventRow.t;
}.

Record World := {
  db : Db;
  uuid_failure : string -> option string;
  uuids : nat -> string;
  generated : nat;
  revalidated : list string;
}.

Definition Action (A : Type) : Type := World -> outcome A * World.

Definition ret {A} (a : A) : Action A := fun w => (Ok a, w).
Definition throw {A} (message : string) : Action A := fun w => (Throw message, w).
Definition bind {A B} (m : Action A) (k : A -> Action B) : Action B :=
  fun w =>
    match m w with
    | (Ok a, w') => k a w'
    | (Throw e, w') => (Throw e, w')
    end.

(** [try { m } catch (error) { handler } finally { last }]; [last]
    cannot throw. *)
Definition try_catch_finally {A} (m : Action A) (handler : string -> Action A)
    (last : World -> World) : Action A :=
  fun w =>
    match m w with
    | (Ok a, w') => (Ok a, last w')
    | (Throw e, w') => let '(r, w'') := handler e w' in (r, last w'')
    end.

Definition revalidatePath (path : string) (w : World) : World :=
  {| db := db w; uuid_failure := uuid_failure w; uuids := uuids w;
     generated := generated w; revalidated := revalidated w ++ [path] |}.

Definition withDb (w : World) (d : Db) : World :=
  {| db := d; uuid_failure := uuid_failure w; uuids := uuids w;
     generated := generated w; revalidated := revalidated w |}.

(** A value of a [defaultRandom()] column. *)
Definition randomUuid : Action string :=
  fun w => (Ok (uuids w (generated w)),
            {| db := db w; uuid_failure := uuid_failure w; uuids := uuids w;
               generated := S (generated w); revalidated := revalidated w |}).

(** The row count of a statement whose condition compares the [id]
    column with [text].  The stored ids are uuids, so a text that is not
    one matches no row; the statement then fails with the driver's error
    instead of reporting zero rows. *)
Definition rowCountFor (text : string) (matched : nat) : Action nat :=
  fun w =>
    match matched, uuid_failure w text with
    | O, Some message => (Throw message, w)
    | _, _ => (Ok matched, w)
    end.

Definition readDb : Action Db := fun w => (Ok (db w), w).
Definition writeDb (d : Db) : Action unit := fun w => (Ok tt, withDb w d).

(** [const { userId } = await auth()]: the user of the session, if any;
    an empty id is falsy like [null]. *)
Definition signedIn (session : option string) : option string :=
  match session with
  | Some userId => if String.eqb userId "" then None else Some userId
  | None => None
  end.

End Store.

Notation "'let+' x ':=' m 'in' k" := (Store.bind m (fun x => k))
  (at level 10, x name, m at level 100, k at level 200).

(** ** src/schema/events.ts and src/server/actions/events.ts *)

Module Events.
Import Effects Store.

(** [z.infer<typeof eventFormSchema>]. *)
Record EventFormData := {
  name : string;
  description : option string;
  isActive : bool;
  durationInMinutes : Z;
}.

(** [eventFormSchema.safeParse]: a name, and a duration that is positive
    and at most 60 * 12. *)
Definition safeParse (unsafeData : EventFormData) : option EventFormData :=
  if negb (String.eqb (name unsafeData) "")
     && (0 <? durationInMinutes unsafeData)
     && (durationInMinutes unsafeData <=? 60 * 12)
  then Some unsafeData else None.

Definition ownedBy (id userId : string) (e : EventRow.t) : bool :=
  String.eqb (EventRow.id e) id && String.eqb (EventRow.clerkUserId e) userId.

Definition withEvents (d : Db) (events : list EventRow.t) : Db :=
  {| scheduleRows := scheduleRows d; availabilityRows := availabilityRows d;
     eventRows := events |}.

(** [db.insert(EventTable).values({ ...data, clerkUserId: userId })]. *)
Definition insertEvent (data : EventFormData) (userId : string) : Action unit :=
  let+ id := randomUuid in
  let+ d := readDb in
  writeDb (withEvents d
             (eventRows d ++
              [ {| EventRow.id := id; EventRow.name := name data;
                   EventRow.description := description data;
                   EventRow.durationInMinutes := durationInMinutes data;
                   EventRow.clerkUserId := userId;
                   EventRow.isActive := isActive data |} ])).

(** [.set({ ...data })]: a field that is [undefined] is left as it is. *)
Definition setData (data : EventFormData) (e : EventRow.t) : EventRow.t :=
  {| EventRow.id := EventRow.id e; EventRow.name := name data;
     EventRow.description :=
       match description data with
       | Some text => Some text
       | None => EventRow.description e
       end;
     EventRow.durationInMinutes := durationInMinutes data;
     EventRow.clerkUserId := EventRow.clerkUserId e;
     EventRow.isActive := isActive data |}.

(** [db.update(EventTable).set(...).where(and(eq(id), eq(clerkUserId)))],
    answering the number of rows it changed. *)
Definition updateOwned (id userId : string) (data : EventFormData) : Action nat :=
  let+ d := readDb in
  let+ _ := writeDb (withEvents d
                       (map (fun e => if ownedBy id userId e then setData data e else e)
                            (eventRows d))) in
  rowCountFor id (length (List.filter (ownedBy id userId) (eventRows d))).

(** [db.delete(EventTable).where(and(eq(id), eq(clerkUserId)))]. *)
Definition deleteOwned (id userId : string) : Action nat :=
  let+ d := readDb in
  let+ _ := writeDb (withEvents d
                       (List.filter (fun e => negb (ownedBy id userId e)) (eventRows d))) in
  rowCountFor id (length (List.filter (ownedBy id userId) (eventRows d))).

Definition createEvent (session : option string) (unsafeData : EventFormData) : Action unit :=
  try_catch_finally
    (match safeParse unsafeData, signedIn session with
     | Some data, Some userId => insertEvent data userId
     | _, _ => throw "Invalid event data or user not authenticated."
     end)
    (fun error => throw ("Failed to create event: " +:+ Js.messageOf error))
    (revalidatePath "/events").

Definition updateEvent (session : option string) (id : string)
    (unsafeData : EventFormData) : Action unit :=
  try_catch_finally
    (match safeParse unsafeData, signedIn session with
     | Some data, Some userId =>
         let+ rowCount := updateOwned id userId data in
         if (rowCount =? 0)%nat
         then throw "Event not found or user not authorized to update this event."
         else ret tt
     | _, _ => throw "Invalid event data or user not authenticated."
     end)
    (fun error => throw ("Failed to update event: " +:+ Js.messageOf error))
    (revalidatePath "/events").

Definition deleteEvent (session : option string) (id : string) : Action unit :=
  try_catch_finally
    (match signedIn session with
     | None => throw "User not authenticated."
     | Some userId =>
         let+ rowCount := deleteOwned id userId in
         if (rowCount =? 0)%nat
         then throw "Event not found or user not authorized to delete this event."
         else ret tt
     end)
    (fun error => throw ("Failed to delete event: " +:+ Js.messageOf error))
    (revalidatePath "/events").

(** [getEvent]: the first row of that user with that id. *)
Definition getEvent (d : Db) (userId eventId : string) : option EventRow.t :=
  find (fun e => String.eqb (EventRow.clerkUserId e) userId
                 && String.eqb (EventRow.id e) eventId)
       (eventRows d).

(** The rows that do not belong to the user of the session. *)
Definition ofOthers (user : option string) (e : EventRow.t) : bool :=
  match user with
  | Some userId => negb (String.eqb (EventRow.clerkUserId e) userId)
  | None => true
  end.

(** The other tables, and the events of the other users, are the same
    in [d'] as in [d]. *)
Definition keptForOthers (user : option string) (d d' : Db) : Prop :=
  scheduleRows d' = scheduleRows d
  /\ availabilityRows d' = availabilityRows d
  /\ List.filter (ofOthers user) (eventRows d') = List.filter (ofOthers user) (eventRows d).

(** What the event form guarantees of a row. *)
Definition wellFormed (e : EventRow.t) : Prop :=
  EventRow.name e <> ""
  /\ 0 < EventRow.durationInMinutes e <= 60 * 12.

(** The row that [createEvent] adds. *)
Definition newRow (id userId : string) (data : EventFormData) : EventRow.t :=
  {| EventRow.id := id; EventRow.name := name data;
     EventRow.description := description data;
     EventRow.durationInMinutes := durationInMinutes data;
     EventRow.clerkUserId := userId;
     EventRow.isActive := isActive data |}.

End Events.

(** ** [scheduleFormSchema.safeParse] and [saveSchedule] *)

Module SaveSchedule.
Import Effects Store.

(** [z.infer<typeof scheduleFormSchema>]. *)
Record ScheduleFormData := {
  timezone : string;
  availabilities : list ScheduleSchema.Availability;
}.

(** The parse succeeds when no check raises an issue: the time zone is
    not empty, every time matches the pattern, and the refinement adds
    nothing. *)
Definition safeParse (unsafeData : ScheduleFormData) : option ScheduleFormData :=
  if negb (String.eqb (timezone unsafeData) "")
     && forallb (fun a => ScheduleSchema.timeFormatOk (ScheduleSchema.startTime a)
                          && ScheduleSchema.timeFormatOk (ScheduleSchema.endTime a))
                (availabilities unsafeData)
     && bool_decide (ScheduleSchema.superRefine (availabilities unsafeData) = [])
  then Some unsafeData else None.

Definition ownerIs (userId : string) (s : ScheduleRow.t) : bool :=
  String.eqb (ScheduleRow.clerkUserId s) userId.

(** [db.insert(ScheduleTable).values(...).onConflictDoUpdate({ target:
    clerkUserId, set: scheduleData }).returning({ id })]: the row of the
    user gets the new time zone, or a row is added; the answer is the id
    of the user's row. *)
Definition upsertSchedule (timezone userId : string) : Action string :=
  let+ id := randomUuid in
  let+ d := readDb in
  match find (ownerIs userId) (scheduleRows d) with
  | Some row =>
      let+ _ := writeDb
        {| scheduleRows :=
             map (fun s => if ownerIs userId s
                           then {| ScheduleRow.id := ScheduleRow.id s;
                                   ScheduleRow.timezone := timezone;
                                   ScheduleRow.clerkUserId := ScheduleRow.clerkUserId s |}
                           else s)
                 (scheduleRows d);
           availabilityRows := availabilityRows d;
           eventRows := eventRows d |} in
      ret (ScheduleRow.id row)
  | None =>
      let+ _ := writeDb
        {| scheduleRows :=
             scheduleRows d ++ [ {| ScheduleRow.id := id; ScheduleRow.timezone := timezone;
                                    ScheduleRow.clerkUserId := userId |} ];
           availabilityRows := availabilityRows d;
           eventRows := eventRows d |} in
      ret id
  end.

(** [db.delete(ScheduleAvailabilityTable).where(eq(scheduleId, ...))]. *)
Definition deleteAvailabilities (scheduleId : string) : Action unit :=
  let+ d := readDb in
  writeDb {| scheduleRows := scheduleRows d;
             availabilityRows :=
               List.filter (fun a => negb (String.eqb (AvailabilityRow.scheduleId a) scheduleId))
                           (availabilityRows d);
             eventRows := eventRows d |}.

(** [db.insert(ScheduleAvailabilityTable).values(rows)], one generated
    id for each row. *)
Fixpoint insertAvailabilities (scheduleId : string)
    (rows : list ScheduleSchema.Availability) : Action unit :=
  match rows with
  | [] => ret tt
  | a :: rest =>
      let+ id := randomUuid in
      let+ d := readDb in
      let+ _ := writeDb
        {| scheduleRows := scheduleRows d;
           availabilityRows :=
             availabilityRows d ++
             [ {| AvailabilityRow.id := id; AvailabilityRow.scheduleId := scheduleId;
                  AvailabilityRow.startTime := ScheduleSchema.startTime a;
                  AvailabilityRow.endTime := ScheduleSchema.endTime a;
                  AvailabilityRow.dayOfWeek := ScheduleSchema.dayOfWeek a |} ];
           eventRows := eventRows d |} in
      insertAvailabilities scheduleId rest
  end.

Definition saveSchedule (session : option string) (unsafeData : ScheduleFormData)
    : Action unit :=
  try_catch_finally
    (match safeParse unsafeData, signedIn session with
     | Some data, Some userId =>
         let+ scheduleId := upsertSchedule (timezone data) userId in
         let+ _ := deleteAvailabilities scheduleId in
         if (0 <? length (availabilities data))%nat
         then insertAvailabilities scheduleId (availabilities data)
         else ret tt
     | _, _ => throw "Invalid schedule data or user not authenticated."
     end)
    (fun error => throw ("Failed to save schedule: " +:+ Js.messageOf error))
    (revalidatePath "/schedule").

(** Every stored schedule with its stored availabilities, in the order
    of the tables. *)
Definition fullSchedules (d : Db) : list FullSchedule.t :=
  map (fun s =>
         {| FullSchedule.id := ScheduleRow.id s;
            FullSchedule.timezone := ScheduleRow.timezone s;
            FullSchedule.clerkUserId := ScheduleRow.clerkUserId s;
            FullSchedule.availabilities :=
              List.filter (fun a => String.eqb (AvailabilityRow.scheduleId a) (ScheduleRow.id s))
                          (availabilityRows d) |})
      (scheduleRows d).

(** What the query of [getSchedule] can read from the tables: it has no
    [orderBy], so the availabilities of a schedule come in whatever order
    the database returns them. *)
Definition sameSchedule (read stored : FullSchedule.t) : Prop :=
  FullSchedule.id read = FullSchedule.id stored
  /\ FullSchedule.timezone read = FullSchedule.timezone stored
  /\ FullSchedule.clerkUserId read = FullSchedule.clerkUserId stored
  /\ FullSchedule.availabilities read ≡ₚ FullSchedule.availabilities stored.

Definition readOf (d : Db) (table : list FullSchedule.t) : Prop :=
  Forall2 sameSchedule table (fullSchedules d).

(** The form's view of a stored rule. *)
Definition asFormRule (a : AvailabilityRow.t) : ScheduleSchema.Availability :=
  {| ScheduleSchema.dayOfWeek := AvailabilityRow.dayOfWeek a;
     ScheduleSchema.startTime := AvailabilityRow.startTime a;
     ScheduleSchema.endTime := AvailabilityRow.endTime a |}.

End SaveSchedule.

(** ** Times of the day in minutes *)

Module TimeOrder.

(** The minute of the day that a time string shows (0 when it does not
    parse). *)
Definition minuteOfTime (time : string) : Z :=
  match Schedule.hourAndMinute time with
  | (Some hour, Some minute) => hour * 60 + minute
  | _ => 0
  end.

(** The rules of a list are in the accepted format. *)
Definition accepted (a : ScheduleSchema.Availability) : Prop :=
  ScheduleSchema.timeFormatOk (ScheduleSchema.startTime a) = true
  /\ ScheduleSchema.timeFormatOk (ScheduleSchema.endTime a) = true.

(** The invariants of the weekly rules, in minutes of the day: every
    rule ends after it starts, and two rules of the same day do not
    overlap (they may touch). *)
Definition wellOrdered (a : ScheduleSchema.Availability) : Prop :=
  minuteOfTime (ScheduleSchema.startTime a) < minuteOfTime (ScheduleSchema.endTime a).

Definition disjointRules (a b : ScheduleSchema.Availability) : Prop :=
  ScheduleSchema.dayOfWeek a = ScheduleSchema.dayOfWeek b ->
  minuteOfTime (ScheduleSchema.endTime a) <= minuteOfTime (ScheduleSchema.startTime b)
  \/ minuteOfTime (ScheduleSchema.endTime b) <= minuteOfTime (ScheduleSchema.startTime a).

Definition validRules (rules : list ScheduleSchema.Availability) : Prop :=
  Forall wellOrdered rules
  /\ forall i j a b, rules !! i = Some a -> rules !! j = Some b -> i <> j -> disjointRules a b.

End TimeOrder.

(** ** Further inputs for the examples *)

Module MoreScenarios.
Import JsTime.

(** Two rules on Monday that touch at 11:00. *)
Definition touchingRules : list ScheduleSchema.Availability :=
  [ {| ScheduleSchema.dayOfWeek := monday;
       ScheduleSchema.startTime := "09:00"; ScheduleSchema.endTime := "11:00" |};
    {| ScheduleSchema.dayOfWeek := monday;
       ScheduleSchema.startTime := "11:00"; ScheduleSchema.endTime := "12:00" |} ].

(** A browser in New York (summer) talking to a server in UTC. *)
Definition browserNewYork : Host := Scenarios.hostIn Scenarios.newYorkSummer.

(** The arguments with which a 30-minute meeting on Monday 09:30 UTC is
    written. *)
Definition writeArgs : GoogleCalendar.CreateArgs :=
  {| GoogleCalendar.clerkUserId := Scenarios.owner;
     GoogleCalendar.guestName := "Grace";
     GoogleCalendar.guestEmail := "guest@example.com";
     GoogleCalendar.startTime := Scenarios.mondayAt 9 30;
     GoogleCalendar.guestNotes := None;
     GoogleCalendar.durationInMinutes := 30;
     GoogleCalendar.eventName := "Intro call" |}.

(** A database with the schedules and events of two users; the ids it
    generates are the decimal numbers 0, 1, 2, ... written as uuids. *)
Definition uuidOf (n : nat) : string :=
  let decimal := Formatters.showZ (Z.of_nat n) in
  "10000000-0000-4000-8000-"
  +:+ String.substring (String.length decimal) 12 ("000000000000" +:+ decimal).

Definition otherUser : string := "user_other".

Definition otherEvent : EventRow.t :=
  {| EventRow.id := Scenarios.uuid "e2"; EventRow.name := "Review";
     EventRow.description := Some "Weekly"%string;
     EventRow.durationInMinutes := 45;
     EventRow.clerkUserId := otherUser; EventRow.isActive := true |}.

Definition twoUsers : Store.World :=
  {| Store.db :=
       {| Store.scheduleRows :=
            [ {| Store.ScheduleRow.id := Scenarios.uuid "51";
                 Store.ScheduleRow.timezone := "UTC";
                 Store.ScheduleRow.clerkUserId := Scenarios.owner |};
              {| Store.ScheduleRow.id := Scenarios.uuid "52";
                 Store.ScheduleRow.timezone := "America/New_York";
                 Store.ScheduleRow.clerkUserId := otherUser |} ];
          Store.availabilityRows :=
            [ Scenarios.rule monday "09:00" "17:00";
              {| AvailabilityRow.id := Scenarios.uuid "a2";
                 AvailabilityRow.scheduleId := Scenarios.uuid "52";
                 AvailabilityRow.startTime := "10:00"; AvailabilityRow.endTime := "12:00";
                 AvailabilityRow.dayOfWeek := friday |} ];
          Store.eventRows := [ Scenarios.eventOf 30; otherEvent ] |};
     Store.uuid_failure := Scenarios.uuidError;
     Store.uuids := uuidOf; Store.generated := 0; Store.revalidated := [] |}.

Definition eventForm : Events.EventFormData :=
  {| Events.name := "Deep dive"; Events.description := None; Events.isActive := true;
     Events.durationInMinutes := 90 |}.

Definition scheduleForm : SaveSchedule.ScheduleFormData :=
  {| SaveSchedule.timezone := "America/New_York";
     SaveSchedule.availabilities := touchingRules |}.

(** A reading of the tables in which the availabilities of every
    schedule come last first. *)
Definition readBackwards (d : Store.Db) : list FullSchedule.t :=
  map (fun s =>
         {| FullSchedule.id := FullSchedule.id s;
            FullSchedule.timezone := FullSchedule.timezone s;
            FullSchedule.clerkUserId := FullSchedule.clerkUserId s;
            FullSchedule.availabilities := reverse (FullSchedule.availabilities s) |})
      (SaveSchedule.fullSchedules d).



End MoreScenarios.

(** * Properties *)

(** ** Regular expressions: the matcher decides the language *)

Module RegexFacts.
Import Regex.

(** Inversions, used below and to read a concrete expression. *)
Lemma lang_chr_inv c s : lang (Chr c) s -> s = String c EmptyString.
Proof. intros H; inversion H; reflexivity. Qed.

Lemma lang_range_inv lo hi s :
  lang (Range lo hi) s -> exists c, s = String c EmptyString /\ in_range lo hi c = true.
Proof. intros H; inversion H; subst; eauto. Qed.

Lemma lang_seq_inv r1 r2 s :
  lang (Seq r1 r2) s -> exists s1 s2, s = s1 +:+ s2 /\ lang r1 s1 /\ lang r2 s2.
Proof. intros H; inversion H; subst; eauto. Qed.

Lemma lang_alt_inv r1 r2 s : lang (Alt r1 r2) s -> lang r1 s \/ lang r2 s.
Proof. intros H; inversion H; subst; auto. Qed.

Lemma nullable_lang r : nullable r = true <-> lang r EmptyString.
Proof.
  induction r; simpl.
  - split; [discriminate | intros H; inversion H].
  - split; [constructor | reflexivity].
  - split; [discriminate | intros H; inversion H].
  - split; [discriminate | intros H; inversion H].
  - rewrite andb_true_iff, IHr1, IHr2. split.
    + intros [H1 H2]. change EmptyString with (EmptyString +:+ EmptyString).
      constructor; assumption.
    + intros (s1 & s2 & Hs & H1 & H2)%lang_seq_inv.
      destruct s1; [|discriminate]. destruct s2; [|discriminate]. auto.
  - rewrite orb_true_iff, IHr1, IHr2. split.
    + intros [H|H]; [apply lang_alt_l | apply lang_alt_r]; assumption.
    + intros H%lang_alt_inv. assumption.
Qed.

Lemma lang_seq_cons r1 r2 c s :
  lang (Seq r1 r2) (String c s) <->
  (exists s1 s2, s = s1 +:+ s2 /\ lang r1 (String c s1) /\ lang r2 s2)
  \/ (lang r1 EmptyString /\ lang r2 (String c s)).
Proof.
  split.
  - intros (s1 & s2 & Hs & H1 & H2)%lang_seq_inv.
    destruct s1 as [|c1 s1].
    + right. change (String c s = s2) in Hs. subst s2. split; assumption.
    + left. change (String c s = String c1 (s1 +:+ s2)) in Hs.
      injection Hs as -> ->. exists s1, s2. auto.
  - intros [(s1 & s2 & -> & H1 & H2) | [H1 H2]].
    + change (String c (s1 +:+ s2)) with (String c s1 +:+ s2).
      constructor; assumption.
    + change (String c s) with (EmptyString +:+ String c s).
      constructor; assumption.
Qed.

Lemma deriv_lang c r : forall s, lang (deriv c r) s <-> lang r (String c s).
Proof.
  induction r; intros s; simpl.
  - split; intros H; inversion H.
  - split; intros H; inversion H.
  - destruct (Ascii.eqb_spec c c0) as [->|Hne]; split; intros H; inversion H; subst;
      try constructor; congruence.
  - destruct (in_range lo hi c) eqn:E; split; intros H; inversion H; subst;
      try (constructor; assumption); congruence.
  - rewrite lang_seq_cons. split.
    + intros [H1|H1]%lang_alt_inv.
      * apply lang_seq_inv in H1 as (s1 & s2 & -> & Ha & Hb).
        left. exists s1, s2. split; [reflexivity|]. split; [apply IHr1|]; assumption.
      * destruct (nullable r1) eqn:E; [|inversion H1].
        right. split; [apply nullable_lang | apply IHr2]; assumption.
    + intros [(s1 & s2 & -> & H1 & H2) | [H1 H2]].
      * apply lang_alt_l. constructor; [apply IHr1|]; assumption.
      * apply lang_alt_r. apply nullable_lang in H1. rewrite H1.
        apply IHr2; assumption.
  - split.
    + intros [H|H]%lang_alt_inv; [apply lang_alt_l, IHr1 | apply lang_alt_r, IHr2]; assumption.
    + intros [H|H]%lang_alt_inv; [apply lang_alt_l, IHr1 | apply lang_alt_r, IHr2]; assumption.
Qed.

Lemma test_lang s : forall r, test r s = true <-> lang r s.
Proof.
  induction s as [|c s IH]; intros r; simpl.
  - apply nullable_lang.
  - rewrite IH. apply deriv_lang.
Qed.

End RegexFacts.

(** ** The time format of the schedule form *)

Module TimeFormatFacts.
Import Regex RegexFacts ScheduleSchema TimeFormat.

Lemma range_digit hi c (k : nat) :
  N_of_ascii hi = (48 + N.of_nat k)%N ->
  in_range "0" hi c = true ->
  exists n : nat, (n <= k)%nat /\ c = digitChar n.
Proof.
  intros Hhi Hc. unfold in_range in Hc. rewrite Hhi in Hc.
  apply andb_true_iff in Hc as [Hlo Hup].
  apply N.leb_le in Hlo, Hup. change (N_of_ascii "0") with 48%N in Hlo.
  exists (N.to_nat (N_of_ascii c - 48)). split; [lia|].
  unfold digitChar.
  replace (48 + N.of_nat (N.to_nat (N_of_ascii c - 48)))%N with (N_of_ascii c) by lia.
  symmetry. apply ascii_N_embedding.
Qed.

Lemma twoDigits_decimal (a b : nat) :
  (b <= 9)%nat ->
  twoDigits (10 * a + b) = String (digitChar a) (String (digitChar b) EmptyString).
Proof.
  intros Hb. unfold twoDigits.
  assert ((10 * a + b) / 10 = a)%nat as ->
    by (symmetry; apply (Nat.div_unique _ 10 a b); lia).
  assert ((10 * a + b) mod 10 = b)%nat as ->
    by (symmetry; apply (Nat.mod_unique _ 10 a b); lia).
  reflexivity.
Qed.

Lemma allTimes_spec f :
  allTimes f = true ->
  forall h m : nat, (h <= 23)%nat -> (m <= 59)%nat -> f h m = true.
Proof.
  unfold allTimes. intros Hall h m Hh Hm.
  rewrite forallb_forall in Hall.
  assert (In h (seq 0 24)) as Hin by (apply in_seq; lia).
  specialize (Hall h Hin). rewrite forallb_forall in Hall.
  apply Hall, in_seq. lia.
Qed.

Lemma timeRegex_sound s : lang timeRegex s -> isTimeString s.
Proof.
  unfold timeRegex.
  intros (hs & rest & -> & Hh & Hrest)%lang_seq_inv.
  apply lang_seq_inv in Hrest as (colon & mm & -> & Hcolon & Hmm).
  apply lang_chr_inv in Hcolon as ->.
  apply lang_seq_inv in Hmm as (m1 & m2 & -> & Hm1 & Hm2).
  apply lang_range_inv in Hm1 as (c1 & -> & Hc1).
  apply lang_range_inv in Hm2 as (c2 & -> & Hc2).
  apply (range_digit "5"%char _ 5%nat eq_refl) in Hc1 as (a & Ha & ->).
  apply (range_digit "9"%char _ 9%nat eq_refl) in Hc2 as (b & Hb & ->).
  assert (forall h, (h <= 23)%nat ->
            (hs = twoDigits h \/ ((h <= 9)%nat /\ hs = oneDigit h)) ->
            isTimeString
              (hs +:+ ":" +:+ String (digitChar a) EmptyString
                            +:+ String (digitChar b) EmptyString)) as Hbuild.
  { intros h Hh23 Hhs. exists h, (10 * a + b)%nat.
    split; [assumption|]. split; [lia|].
    unfold longTime, shortTime. rewrite (twoDigits_decimal a b Hb).
    destruct Hhs as [->|[H9 ->]]; [left | right; split; [assumption|]]; reflexivity. }
  apply lang_alt_inv in Hh as [Hh|Hh].
  { apply lang_range_inv in Hh as (c & -> & Hc).
    apply (range_digit "9"%char _ 9%nat eq_refl) in Hc as (n & Hn & ->).
    apply (Hbuild n); [lia|]. right. split; [assumption|reflexivity]. }
  apply lang_alt_inv in Hh as [Hh|Hh].
  { apply lang_seq_inv in Hh as (x & y & -> & Hx & Hy).
    apply lang_chr_inv in Hx as ->.
    apply lang_range_inv in Hy as (c & -> & Hc).
    apply (range_digit "9"%char _ 9%nat eq_refl) in Hc as (n & Hn & ->).
    apply (Hbuild (10 * 0 + n)%nat); [lia|]. left.
    rewrite (twoDigits_decimal 0 n Hn). reflexivity. }
  apply lang_alt_inv in Hh as [Hh|Hh].
  { apply lang_seq_inv in Hh as (x & y & -> & Hx & Hy).
    apply lang_chr_inv in Hx as ->.
    apply lang_range_inv in Hy as (c & -> & Hc).
    apply (range_digit "9"%char _ 9%nat eq_refl) in Hc as (n & Hn & ->).
    apply (Hbuild (10 * 1 + n)%nat); [lia|]. left.
    rewrite (twoDigits_decimal 1 n Hn). reflexivity. }
  { apply lang_seq_inv in Hh as (x & y & -> & Hx & Hy).
    apply lang_chr_inv in Hx as ->.
    apply lang_range_inv in Hy as (c & -> & Hc).
    apply (range_digit "3"%char _ 3%nat eq_refl) in Hc as (n & Hn & ->).
    apply (Hbuild (10 * 2 + n)%nat); [lia|]. left.
    rewrite (twoDigits_decimal 2 n); [reflexivity | lia]. }
Qed.

Lemma timeRegex_complete s : isTimeString s -> timeFormatOk s = true.
Proof.
  intros (h & m & Hh & Hm & Hs).
  assert (allTimes (fun h m =>
            timeFormatOk (longTime h m)
            && ((9 <? h)%nat || timeFormatOk (shortTime h m))) = true) as Hall
    by (vm_compute; reflexivity).
  pose proof (allTimes_spec _ Hall h m Hh Hm) as Hhm. simpl in Hhm.
  apply andb_true_iff in Hhm as [Hlong Hshort].
  destruct Hs as [->|[H9 ->]]; [assumption|].
  apply orb_true_iff in Hshort as [Hbig|Hok]; [|assumption].
  apply Nat.ltb_lt in Hbig. lia.
Qed.

(** An accepted time string is a spelling of a time of the day, and
    both of its parts are read by [Js.Number] as the hour and the minute
    it shows. *)
Lemma accepted_time s :
  timeFormatOk s = true ->
  exists hm : nat * nat,
    In hm timesTable /\ In s (spellings hm)
    /\ Schedule.hourAndMinute s = (Some (Z.of_nat (fst hm)), Some (Z.of_nat (snd hm)))
    /\ (fst hm <= 23)%nat /\ (snd hm <= 59)%nat.
Proof.
  intros Hok. apply test_lang, timeRegex_sound in Hok as (h & m & Hh & Hm & Hs).
  exists (h, m). cbn [fst snd].
  assert (In (h, m) timesTable) as Hin.
  { unfold timesTable. apply in_flat_map. exists h. split; [apply in_seq; lia|].
    apply in_map, in_seq. lia. }
  assert (allTimes (fun h m =>
            bool_decide (Schedule.hourAndMinute (longTime h m)
                         = (Some (Z.of_nat h), Some (Z.of_nat m)))
            && ((9 <? h)%nat
                || bool_decide (Schedule.hourAndMinute (shortTime h m)
                                = (Some (Z.of_nat h), Some (Z.of_nat m))))) = true) as Hall
    by (vm_compute; reflexivity).
  pose proof (allTimes_spec _ Hall h m Hh Hm) as Hhm. simpl in Hhm.
  apply andb_true_iff in Hhm as [Hlong Hshort].
  apply bool_decide_eq_true in Hlong.
  unfold spellings. cbn [fst snd].
  destruct Hs as [->|[H9 ->]].
  - repeat split; try assumption. left. reflexivity.
  - apply orb_true_iff in Hshort as [Hbig|Hok]; [apply Nat.ltb_lt in Hbig; lia|].
    apply bool_decide_eq_true in Hok. repeat split; try assumption.
    right. apply Nat.leb_le in H9. rewrite H9. left. reflexivity.
Qed.

Lemma accepted_time_parses s :
  timeFormatOk s = true ->
  exists hh mm : Z,
    Schedule.hourAndMinute s = (Some hh, Some mm) /\ 0 <= hh <= 23 /\ 0 <= mm <= 59.
Proof.
  intros (hm & _ & _ & Hparse & Hh & Hm)%accepted_time.
  exists (Z.of_nat (fst hm)), (Z.of_nat (snd hm)). split; [assumption|lia].
Qed.

Lemma orderAgrees_true : orderAgrees = true.
Proof. vm_compute. reflexivity. Qed.

(** A rule that the schedule form accepts without an ordering issue
    ends, in minutes of the day, after it starts. *)
Lemma accepted_rule_order s e :
  timeFormatOk s = true -> timeFormatOk e = true ->
  PrimFloat.leb (timeToFloat e) (timeToFloat s) = false ->
  exists sh sm eh em : Z,
    Schedule.hourAndMinute s = (Some sh, Some sm)
    /\ Schedule.hourAndMinute e = (Some eh, Some em)
    /\ 0 <= sh <= 23 /\ 0 <= sm <= 59 /\ 0 <= eh <= 23 /\ 0 <= em <= 59
    /\ sh * 60 + sm < eh * 60 + em.
Proof.
  intros (p & Hp & Hsp & Hparse_s & Hph & Hpm)%accepted_time
         (q & Hq & Hsq & Hparse_e & Hqh & Hqm)%accepted_time Hleb.
  assert (forall hm x, In hm timesTable -> In x (spellings hm) ->
            In (minuteOfDay hm, timeToFloat x) floatsOfDay) as Htable.
  { intros hm x Hhm Hx. unfold floatsOfDay. apply in_flat_map. exists hm.
    split; [assumption|].
    apply (in_map (fun s0 => (minuteOfDay hm, timeToFloat s0))). assumption. }
  pose proof orderAgrees_true as Hall. unfold orderAgrees in Hall.
  rewrite forallb_forall in Hall.
  specialize (Hall _ (Htable p s Hp Hsp)). rewrite forallb_forall in Hall.
  specialize (Hall _ (Htable q e Hq Hsq)). cbn [fst snd] in Hall.
  rewrite Hleb in Hall. cbn [orb] in Hall. apply Z.ltb_lt in Hall.
  unfold minuteOfDay in Hall.
  exists (Z.of_nat (fst p)), (Z.of_nat (snd p)), (Z.of_nat (fst q)), (Z.of_nat (snd q)).
  repeat split; try assumption; lia.
Qed.

End TimeFormatFacts.

(** C9. The time pattern of the schedule form accepts hours written
    with a single digit: it matches "9:15", and the strings it accepts are
    exactly those of the form H:MM or HH:MM with an hour from 0 to 23
    and a minute from 00 to 59. *)
Theorem timeRegex_accepts_one_digit_hours :
  ScheduleSchema.timeFormatOk "9:15" = true
  /\ forall s : string,
       ScheduleSchema.timeFormatOk s = true <-> TimeFormat.isTimeString s.
Proof.
  split; [reflexivity|].
  intros s. split.
  - intros H. apply TimeFormatFacts.timeRegex_sound, RegexFacts.test_lang, H.
  - apply TimeFormatFacts.timeRegex_complete.
Qed.

(** ** Validation of the weekly rules *)

Module ValidationFacts.
Import ScheduleSchema.

Lemma elem_of_concat_imap {A B} (l : list A) :
  forall (f : nat -> A -> list B) (x : B),
    x ∈ concat (imap f l) <-> exists i a, l !! i = Some a /\ x ∈ f i a.
Proof.
  induction l as [|a0 l IH]; intros f x; simpl.
  - split; [intros H; inversion H | intros (i & a & H & _); discriminate].
  - rewrite elem_of_app, IH. split.
    + intros [H | (i & a & Hi & Hx)].
      * exists 0%nat, a0. auto.
      * exists (S i), a. auto.
    + intros ([|i] & a & Hi & Hx); simpl in Hi.
      * injection Hi as ->. auto.
      * right. exists i, a. auto.
Qed.

Lemma existsb_imap {A} (l : list A) :
  forall g : nat -> A -> bool,
    existsb id (imap g l) = true <-> exists j a, l !! j = Some a /\ g j a = true.
Proof.
  induction l as [|a0 l IH]; intros g; simpl.
  - split; [discriminate | intros (j & a & H & _); discriminate].
  - rewrite orb_true_iff, IH. split.
    + intros [H | (j & a & Hj & Hg)].
      * exists 0%nat, a0. auto.
      * exists (S j), a. auto.
    + intros ([|j] & a & Hj & Hg); simpl in Hj.
      * injection Hj as ->. auto.
      * right. exists j, a. auto.
Qed.

(** Every issue of the round for [index] carries [index] in its path. *)
Lemma checkAvailability_index avs index av x :
  x ∈ checkAvailability avs index av -> fst (path x) = index.
Proof.
  unfold checkAvailability. rewrite elem_of_app.
  intros [H|H].
  - destruct (existsb _ _); [|inversion H].
    apply list_elem_of_singleton in H as ->. reflexivity.
  - destruct (PrimFloat.leb _ _); [|inversion H].
    apply list_elem_of_singleton in H as ->. reflexivity.
Qed.

Lemma concat_imap_sorted {A} (idx : Issue -> nat) (l : list A) :
  forall (f : nat -> A -> list Issue) (k : nat),
    (forall i a x, x ∈ f i a -> idx x = (k + i)%nat) ->
    StronglySorted le (map idx (concat (imap f l)))
    /\ Forall (le k) (map idx (concat (imap f l))).
Proof.
  induction l as [|a0 l IH]; intros f k Hf; simpl.
  - split; constructor.
  - destruct (IH (f ∘ S) (S k)) as [Hs Hk].
    { intros i a x Hx. rewrite (Hf (S i) a x Hx). lia. }
    assert (Forall (eq k) (map idx (f 0%nat a0))) as H0.
    { apply Forall_forall. intros n (x & -> & Hx)%list_elem_of_fmap.
      rewrite (Hf 0%nat a0 x Hx). lia. }
    rewrite map_app. split.
    + apply sorting.StronglySorted_app_2; [| |assumption].
      * intros x1 x2 H1 H2.
        rewrite Forall_forall in H0, Hk.
        rewrite <- (H0 x1 H1). specialize (Hk x2 H2). lia.
      * clear -H0. induction H0 as [|n ns Hn Hns IHn]; constructor; [assumption|].
        subst n. eapply Forall_impl; [exact Hns|]. intros ? <-. lia.
    + apply Forall_app. split.
      * eapply Forall_impl; [exact H0|]. intros ? <-. lia.
      * eapply Forall_impl; [exact Hk|]. intros; lia.
Qed.

End ValidationFacts.

(** C2, as the claim states it, fails: for the rules Monday 09:00-11:00
    and Monday 10:00-12:00 the validation reports two overlap issues, one
    on each rule, and not the single issue on the second rule. *)
Lemma overlap_reported_on_both_rules :
  ScheduleSchema.superRefine Scenarios.overlappingRules
    = [ScheduleSchema.overlapIssue 0; ScheduleSchema.overlapIssue 1]
  /\ List.filter ScheduleSchema.isOverlapIssue
       (ScheduleSchema.superRefine Scenarios.overlappingRules)
     <> [ScheduleSchema.overlapIssue 1].
Proof.
  split; [vm_compute; reflexivity|].
  vm_compute. discriminate.
Qed.

(** C2, amended. For the rules Monday 09:00-11:00 and Monday 10:00-12:00
    the validation reports exactly two overlap issues, on the start-time
    of the first and of the second rule, in that order.  In general the
    rule at [index] gets an overlap issue on its start-time exactly when
    some rule at another position is on the same day and overlaps it
    (strictly, on the fractional hours), and the issues come out in the
    order of the rules in the list. *)
Theorem superRefine_flags_each_overlapping_rule :
  List.filter ScheduleSchema.isOverlapIssue
    (ScheduleSchema.superRefine Scenarios.overlappingRules)
    = [ScheduleSchema.overlapIssue 0; ScheduleSchema.overlapIssue 1]
  /\ (forall (availabilities : list ScheduleSchema.Availability) (index : nat),
        ScheduleSchema.overlapIssue index ∈ ScheduleSchema.superRefine availabilities
        <-> exists availability i a,
              availabilities !! index = Some availability
              /\ availabilities !! i = Some a
              /\ i <> index
              /\ ScheduleSchema.dayOfWeek a = ScheduleSchema.dayOfWeek availability
              /\ PrimFloat.ltb (timeToFloat (ScheduleSchema.startTime a))
                               (timeToFloat (ScheduleSchema.endTime availability)) = true
              /\ PrimFloat.ltb (timeToFloat (ScheduleSchema.startTime availability))
                               (timeToFloat (ScheduleSchema.endTime a)) = true)
  /\ (forall availabilities : list ScheduleSchema.Availability,
        StronglySorted le
          (map (fun issue => fst (ScheduleSchema.path issue))
               (ScheduleSchema.superRefine availabilities))).
Proof.
  split; [vm_compute; reflexivity|]. split.
  - intros avs index. unfold ScheduleSchema.superRefine.
    rewrite ValidationFacts.elem_of_concat_imap. split.
    + intros (k & av & Hk & Hx).
      pose proof (ValidationFacts.checkAvailability_index _ _ _ _ Hx) as Hidx.
      simpl in Hidx. subst k.
      unfold ScheduleSchema.checkAvailability in Hx.
      apply elem_of_app in Hx as [Hx|Hx].
      * destruct (existsb _ _) eqn:E; [|inversion Hx].
        apply ValidationFacts.existsb_imap in E as (i & a & Hi & Hg).
        unfold ScheduleSchema.overlapsWith in Hg.
        repeat (apply andb_true_iff in Hg as [Hg ?]).
        apply negb_true_iff, Nat.eqb_neq in Hg.
        exists av, i, a. repeat split; try assumption.
        eapply bool_decide_eq_true_1; eassumption.
      * destruct (PrimFloat.leb _ _); [|inversion Hx].
        apply list_elem_of_singleton in Hx. discriminate.
    + intros (av & i & a & Hav & Hi & Hne & Hday & H1 & H2).
      exists index, av. split; [assumption|].
      unfold ScheduleSchema.checkAvailability. apply elem_of_app. left.
      assert (existsb id (imap (ScheduleSchema.overlapsWith index av) avs) = true) as ->.
      { apply ValidationFacts.existsb_imap. exists i, a. split; [assumption|].
        unfold ScheduleSchema.overlapsWith.
        rewrite H1, H2, (bool_decide_eq_true_2 _ Hday).
        apply Nat.eqb_neq in Hne. rewrite Hne. reflexivity. }
      apply list_elem_of_singleton. reflexivity.
  - intros avs. unfold ScheduleSchema.superRefine.
    apply (ValidationFacts.concat_imap_sorted
             (fun issue => fst (ScheduleSchema.path issue)) avs
             (ScheduleSchema.checkAvailability avs) 0%nat).
    intros i a x Hx. apply ValidationFacts.checkAvailability_index in Hx. assumption.
Qed.

(** ** Intervals of date-fns *)

Module DateFacts.
Import JsTime DateFns.

Lemma sort2_Some x y :
  sort2 (Some x) (Some y) = (Some (Z.min x y), Some (Z.max x y)).
Proof.
  unfold sort2. destruct (Z.ltb_spec y x).
  - rewrite Z.min_r, Z.max_l by lia. reflexivity.
  - rewrite Z.min_l, Z.max_r by lia. reflexivity.
Qed.

Lemma sort2_None_l b : sort2 None b = (None, b).
Proof. reflexivity. Qed.

Lemma sort2_None_r a : sort2 a None = (a, None).
Proof. destruct a; reflexivity. Qed.

Lemma isWithinInterval_spec d w :
  isWithinInterval d w = true <->
  exists x ws we,
    d = Some x /\ start w = Some ws /\ end_ w = Some we
    /\ Z.min ws we <= x <= Z.max ws we.
Proof.
  unfold isWithinInterval. destruct w as [[ws|] [we|]]; cbn [start end_].
  - rewrite sort2_Some. destruct d as [x|]; cbn [num_le].
    + rewrite andb_true_iff, !Z.leb_le. split.
      * intros [H1 H2]. exists x, ws, we. auto.
      * intros (x' & ws' & we' & [= <-] & [= <-] & [= <-] & H). assumption.
    + split; [discriminate | intros (? & ? & ? & [=] & _)].
  - rewrite sort2_None_r. split; [|intros (? & ? & ? & _ & _ & [=] & _)].
    destruct d; cbn; rewrite ?andb_false_r; discriminate.
  - rewrite sort2_None_l. split; [discriminate | intros (? & ? & ? & _ & [=] & _)].
  - rewrite sort2_None_l. split; [discriminate | intros (? & ? & ? & _ & [=] & _)].
Qed.

Lemma areIntervalsOverlapping_spec a b :
  areIntervalsOverlapping a b = true <->
  exists a1 a2 b1 b2,
    start a = Some a1 /\ end_ a = Some a2 /\ start b = Some b1 /\ end_ b = Some b2
    /\ Z.min a1 a2 < Z.max b1 b2 /\ Z.min b1 b2 < Z.max a1 a2.
Proof.
  unfold areIntervalsOverlapping.
  destruct a as [[a1|] [a2|]], b as [[b1|] [b2|]]; cbn [start end_];
    rewrite ?sort2_Some, ?sort2_None_l, ?sort2_None_r; cbn [num_lt];
    rewrite ?andb_false_r; cbn [andb];
    try (split; [discriminate | intros (? & ? & ? & ? & H1 & H2 & H3 & H4 & _);
                                 discriminate]).
  rewrite andb_true_iff, !Z.ltb_lt. split.
  - intros [H1 H2]. exists a1, a2, b1, b2. auto 10.
  - intros (? & ? & ? & ? & [= <-] & [= <-] & [= <-] & [= <-] & H). assumption.
Qed.

End DateFacts.

(** ** The resolver *)

Module ResolverFacts.
Import JsTime DateFns Effects Schedule.

Lemma groupBy_step_lookup {A K : Type} `{Countable K}
    (key : A -> K) (items : list A) :
  forall (m : gmap K (list A)) (k : K),
    foldl (fun m a => <[key a := default [] (m !! key a) ++ [a]]> m) m items !! k
    = match m !! k, List.filter (fun a => bool_decide (key a = k)) items with
      | None, [] => None
      | o, l => Some (default [] o ++ l)
      end.
Proof.
  induction items as [|a items IH]; intros m k; simpl.
  - destruct (m !! k); simpl; [rewrite app_nil_r|]; reflexivity.
  - rewrite IH. destruct (decide (key a = k)) as [Heq|Hne].
    + rewrite (bool_decide_eq_true_2 _ Heq). subst k. rewrite lookup_insert_eq.
      destruct (m !! key a) as [l|]; simpl.
      * destruct (List.filter _ items); rewrite <- ?app_assoc; reflexivity.
      * destruct (List.filter _ items); reflexivity.
    + rewrite (bool_decide_eq_false_2 _ Hne). rewrite lookup_insert_ne by assumption.
      reflexivity.
Qed.

(** What [Object.groupBy] holds under a key. *)
Lemma groupBy_lookup {A K : Type} `{Countable K} (items : list A) (key : A -> K) (k : K) :
  groupBy items key !! k
  = match List.filter (fun a => bool_decide (key a = k)) items with
    | [] => None
    | l => Some l
    end.
Proof.
  unfold groupBy. rewrite groupBy_step_lookup, lookup_empty. reflexivity.
Qed.

(** The shape of a run of the resolver that returns. *)
Lemma getValidTimes_returns h sv times event log out log' :
  getValidTimesFromSchedule h sv times event log = (Ok out, log') ->
  (times = [] /\ out = [] /\ log' = log)
  \/ exists first final,
       head times = Some first /\ last times = Some final
       /\ ((find (fun s => String.eqb (FullSchedule.clerkUserId s) (EventRow.clerkUserId event))
                 (ScheduleTable sv) = None
            /\ out = [] /\ log' = log ++ [DbFindSchedule (EventRow.clerkUserId event)])
           \/ exists schedule busy,
                find (fun s => String.eqb (FullSchedule.clerkUserId s) (EventRow.clerkUserId event))
                     (ScheduleTable sv) = Some schedule
                /\ GoogleCalendar.getCalendarEventTimes h sv (EventRow.clerkUserId event)
                     first final (log ++ [DbFindSchedule (EventRow.clerkUserId event)])
                   = (Ok busy, log')
                /\ out = List.filter
                           (validTime h
                              (groupBy (FullSchedule.availabilities schedule)
                                       AvailabilityRow.dayOfWeek)
                              (FullSchedule.timezone schedule) busy
                              (EventRow.durationInMinutes event))
                           times).
Proof.
  unfold getValidTimesFromSchedule.
  destruct times as [|t0 times'] eqn:Et.
  - simpl. intros [= <- <-]. left. auto.
  - rewrite <- Et. assert (exists first, head times = Some first) as [first Hfirst]
      by (subst times; simpl; eauto).
    assert (exists final, last times = Some final) as [final Hfinal].
    { destruct (last times) eqn:E; [eauto|].
      apply last_None in E. subst times. discriminate. }
    rewrite Hfirst, Hfinal. intros Hrun. right. exists first, final.
    split; [reflexivity|]. split; [reflexivity|].
    unfold bind, getSchedule, call in Hrun.
    destruct (find _ (ScheduleTable sv)) as [schedule|] eqn:Efind.
    + right. exists schedule.
      destruct (GoogleCalendar.getCalendarEventTimes _ _ _ _ _ _) as [[busy|e] log1] eqn:Ecal.
      * injection Hrun as <- <-. exists busy. auto.
      * discriminate.
    + left. injection Hrun as <- <-. auto.
Qed.

Lemma filter_sublist {A} (f : A -> bool) (l : list A) : List.filter f l `sublist_of` l.
Proof.
  induction l as [|x l IH]; simpl; [constructor|].
  destruct (f x); [apply sublist_skip | apply sublist_cons]; assumption.
Qed.

Lemma filter_implies_sublist {A} (f g : A -> bool) (l : list A) :
  (forall x, f x = true -> g x = true) ->
  List.filter f l `sublist_of` List.filter g l.
Proof.
  intros Hfg. induction l as [|x l IH]; simpl; [constructor|].
  destruct (f x) eqn:Ef.
  - rewrite (Hfg x Ef). apply sublist_skip. assumption.
  - destruct (g x); [apply sublist_cons|]; assumption.
Qed.

Lemma elem_of_filter {A} (f : A -> bool) (l : list A) x :
  x ∈ List.filter f l <-> x ∈ l /\ f x = true.
Proof. rewrite !list_elem_of_In. apply filter_In. Qed.

(** The output is a subsequence of the candidates. *)
Lemma getValidTimes_sublist h sv times event log out log' :
  getValidTimesFromSchedule h sv times event log = (Ok out, log') ->
  out `sublist_of` times.
Proof.
  intros Hrun.
  apply getValidTimes_returns in Hrun
    as [(_ & -> & _) | (first & final & _ & _ & [(_ & -> & _) | (s & busy & _ & _ & ->)])].
  - apply sublist_nil_l.
  - apply sublist_nil_l.
  - apply filter_sublist.
Qed.

End ResolverFacts.

Example scenarioA_kept_and_rejected :
  fst (Schedule.getValidTimesFromSchedule Scenarios.serverUTC Scenarios.officeFree
         [Scenarios.mondayAt 9 0; Scenarios.mondayAt 16 30; Scenarios.mondayAt 16 31;
          Scenarios.mondayAt 16 45; Scenarios.mondayAt 17 0]
         (Scenarios.eventOf 30) [])
  = Effects.Ok [Scenarios.mondayAt 9 0; Scenarios.mondayAt 16 30].
Proof. vm_compute. reflexivity. Qed.

Module ResolverProps.
Import JsTime DateFns Effects Schedule ResolverFacts.

Lemma sublist_filter_length {A} (f : A -> bool) (l1 l2 : list A) :
  l1 `sublist_of` l2 ->
  (length (List.filter f l1) <= length (List.filter f l2))%nat.
Proof.
  induction 1 as [|x l1 l2 _ IH|x l1 l2 _ IH]; simpl; [lia| |].
  - destruct (f x); simpl; lia.
  - destruct (f x); simpl; lia.
Qed.

(** The two tests of the filter, read off a kept candidate. *)
Lemma validTime_true h grouped timezone busy d t :
  validTime h grouped timezone busy d t = true ->
  (forall b, b ∈ busy ->
     areIntervalsOverlapping b {| start := t; end_ := addMinutes t d |} = false)
  /\ exists w, w ∈ getAvailabilities h grouped t timezone
               /\ isWithinInterval t w = true
               /\ isWithinInterval (addMinutes t d) w = true.
Proof.
  unfold validTime. cbn [start end_]. intros [Hbusy Hwin]%andb_true_iff. split.
  - intros b Hb. rewrite forallb_forall in Hbusy.
    apply list_elem_of_In in Hb. apply Hbusy in Hb.
    apply negb_true_iff in Hb. assumption.
  - apply existsb_exists in Hwin as (w & Hw & Hin).
    apply andb_true_iff in Hin as [H1 H2].
    exists w. rewrite list_elem_of_In. auto.
Qed.

(** A window of [getAvailabilities] comes from a row of that day. *)
Lemma getAvailabilities_row h (rows : list AvailabilityRow.t) t timezone w :
  w ∈ getAvailabilities h (groupBy rows AvailabilityRow.dayOfWeek) t timezone ->
  exists row, row ∈ rows
              /\ dayOfWeekOf h t = Some (AvailabilityRow.dayOfWeek row)
              /\ w = availabilityWindow h t timezone row.
Proof.
  unfold getAvailabilities. destruct (dayOfWeekOf h t) as [day|]; [|intros H; inversion H].
  rewrite groupBy_lookup.
  destruct (List.filter _ rows) as [|r rs] eqn:E; [intros H; inversion H|].
  rewrite <- E. intros (row & -> & Hrow)%list_elem_of_fmap.
  apply elem_of_filter in Hrow as [Hrow Hday].
  apply bool_decide_eq_true in Hday.
  exists row. rewrite Hday. auto.
Qed.

(** A shorter meeting passes wherever a longer one does. *)
Lemma validTime_antitone h grouped timezone busy d1 d2 t :
  0 <= d1 <= d2 ->
  validTime h grouped timezone busy d2 t = true ->
  validTime h grouped timezone busy d1 t = true.
Proof.
  intros Hd Hv. pose proof Hv as [Hbusy (w & Hw & Ht & Hend)]%validTime_true.
  unfold validTime. cbn [start end_]. apply andb_true_iff. split.
  - apply forallb_forall. intros b Hb%list_elem_of_In.
    apply negb_true_iff.
    destruct (areIntervalsOverlapping b _) eqn:E; [|reflexivity].
    rewrite <- (Hbusy b Hb). symmetry.
    apply DateFacts.areIntervalsOverlapping_spec in E
      as (a1 & a2 & b1 & b2 & Ha1 & Ha2 & Hb1 & Hb2 & H1 & H2).
    cbn [start end_] in Hb1, Hb2. subst t. cbn in Hb2. injection Hb2 as <-.
    apply DateFacts.areIntervalsOverlapping_spec.
    exists a1, a2, b1, (b1 + d2 * msPerMinute). cbn [start end_ addMinutes].
    unfold msPerMinute in *. repeat split; try assumption; lia.
  - apply existsb_exists. exists w. rewrite <- list_elem_of_In. split; [assumption|].
    rewrite Ht. cbn [andb].
    apply DateFacts.isWithinInterval_spec in Ht as (x & ws & we & -> & Hws & Hwe & Hx).
    apply DateFacts.isWithinInterval_spec in Hend as (x2 & ws' & we' & Hx2 & Hws' & Hwe' & Hx').
    cbn in Hx2. injection Hx2 as <-.
    rewrite Hws in Hws'. rewrite Hwe in Hwe'. injection Hws' as <-. injection Hwe' as <-.
    apply DateFacts.isWithinInterval_spec.
    exists (x + d1 * msPerMinute), ws, we. cbn [addMinutes].
    unfold msPerMinute in *. repeat split; try assumption; lia.
Qed.

(** A busy interval that ends at or before [tv], or starts at or after
    the end of the meeting, does not overlap the meeting. *)
Lemma apart_no_overlap (b : Interval) (bs be tv d : Z) :
  start b = Some bs -> end_ b = Some be -> bs <= be -> 0 <= d ->
  be <= tv \/ tv + d * msPerMinute <= bs ->
  areIntervalsOverlapping b {| start := Some tv; end_ := addMinutes (Some tv) d |} = false.
Proof.
  intros Hbs Hbe Hord Hd Hapart.
  destruct (areIntervalsOverlapping b _) eqn:E; [|reflexivity].
  apply DateFacts.areIntervalsOverlapping_spec in E
    as (a1 & a2 & b1 & b2 & Ha1 & Ha2 & Hb1 & Hb2 & H1 & H2).
  cbn in Hb1, Hb2. unfold msPerMinute in *.
  assert (a1 = bs) by congruence. assert (a2 = be) by congruence.
  assert (b1 = tv) by congruence. assert (b2 = tv + d * 60000) by congruence.
  subst. lia.
Qed.

(** Busy intervals that only touch the meeting, or lie apart from it,
    leave the filter to the windows alone. *)
Lemma validTime_apart h grouped timezone (busy : list Interval) d tv :
  0 <= d ->
  (forall b, b ∈ busy ->
     exists bs be, start b = Some bs /\ end_ b = Some be /\ bs <= be
                   /\ (be <= tv \/ tv + d * msPerMinute <= bs)) ->
  validTime h grouped timezone busy d (Some tv) = validTime h grouped timezone [] d (Some tv).
Proof.
  intros Hd Hapart. unfold validTime.
  assert (forallb (fun eventTime =>
                     negb (areIntervalsOverlapping eventTime
                             {| start := Some tv; end_ := addMinutes (Some tv) d |}))
                  busy = true) as ->.
  { apply forallb_forall. intros b Hb%list_elem_of_In.
    destruct (Hapart b Hb) as (bs & be & Hbs & Hbe & Hord & Hside).
    apply negb_true_iff. apply (apart_no_overlap b bs be tv d); assumption. }
  reflexivity.
Qed.

End ResolverProps.

(** C8. Whatever the candidates, rules, time zone, busy intervals and
    duration, the list the resolver returns is a subsequence of the
    candidates in their order: every returned instant is a candidate, and
    no instant is returned more often than it occurs among the candidates. *)
Theorem validTimes_subsequence_of_candidates
    (h : Host) (sv : Effects.Services) (timesInOrder : list JsTime.JsDate)
    (event : EventRow.t) (log log' : list Effects.Call) (out : list JsTime.JsDate) :
  Schedule.getValidTimesFromSchedule h sv timesInOrder event log = (Effects.Ok out, log') ->
  out `sublist_of` timesInOrder
  /\ (forall t, t ∈ out -> t ∈ timesInOrder)
  /\ (forall t, (length (List.filter (fun x => bool_decide (x = t)) out)
                 <= length (List.filter (fun x => bool_decide (x = t)) timesInOrder))%nat).
Proof.
  intros Hrun.
  pose proof (ResolverFacts.getValidTimes_sublist _ _ _ _ _ _ _ Hrun) as Hsub.
  split; [assumption|]. split.
  - intros t Ht. eapply elem_of_sublist; eassumption.
  - intros t. apply ResolverProps.sublist_filter_length. assumption.
Qed.

Lemma validTimes_subsequence_of_candidates_witness :
  [Scenarios.mondayAt 9 30] `sublist_of` [Scenarios.mondayAt 9 30; Scenarios.mondayAt 10 0].
Proof.
  apply (validTimes_subsequence_of_candidates Scenarios.serverUTC Scenarios.officeBusy
           [Scenarios.mondayAt 9 30; Scenarios.mondayAt 10 0] (Scenarios.eventOf 30) []
           (snd (Schedule.getValidTimesFromSchedule Scenarios.serverUTC Scenarios.officeBusy
                   [Scenarios.mondayAt 9 30; Scenarios.mondayAt 10 0]
                   (Scenarios.eventOf 30) []))).
  vm_compute. reflexivity.
Defined.

(** C3. No busy interval overlaps the meeting of a returned instant
    under the strict test: for every fetched busy interval, not both
    (busy start < t + duration) and (busy end > t).  Touching does not
    disqualify: the overlap test is false on a busy interval that starts at
    t + duration or ends at t, and when every fetched busy interval ends
    at or before t or starts at or after t + duration, the filter decides
    on t as it does with no busy interval at all, so that t is returned
    exactly when it is a candidate whose meeting lies in a window.  With
    the busy entry 10:00-10:30 and a duration of 30 minutes, 09:30 (which
    ends when the entry starts) and 10:30 (which starts when it ends) are
    kept and 10:00 is rejected. *)
Theorem validTimes_avoid_busy_intervals :
  (forall (h : Host) (sv : Effects.Services) (timesInOrder : list JsTime.JsDate)
          (event : EventRow.t) (log log' : list Effects.Call)
          (out : list JsTime.JsDate) (t : JsTime.JsDate),
      Schedule.getValidTimesFromSchedule h sv timesInOrder event log = (Effects.Ok out, log') ->
      t ∈ out ->
      exists first final busy,
        head timesInOrder = Some first /\ last timesInOrder = Some final
        /\ GoogleCalendar.getCalendarEventTimes h sv (EventRow.clerkUserId event) first final
             (log ++ [Effects.DbFindSchedule (EventRow.clerkUserId event)])
           = (Effects.Ok busy, log')
        /\ forall b bs be tv,
             b ∈ busy -> DateFns.start b = Some bs -> DateFns.end_ b = Some be ->
             t = Some tv ->
             ~ (bs < tv + EventRow.durationInMinutes event * JsTime.msPerMinute /\ be > tv))
  /\ (forall (b : DateFns.Interval) (bs be tv d : Z),
        DateFns.start b = Some bs -> DateFns.end_ b = Some be -> bs <= be -> 0 <= d ->
        bs = tv + d * JsTime.msPerMinute \/ be = tv ->
        DateFns.areIntervalsOverlapping b
          {| DateFns.start := Some tv; DateFns.end_ := DateFns.addMinutes (Some tv) d |} = false)
  /\ (forall (h : Host) (sv : Effects.Services) (timesInOrder : list JsTime.JsDate)
             (event : EventRow.t) (log log' log1 : list Effects.Call)
             (out : list JsTime.JsDate) (schedule : FullSchedule.t)
             (first final : JsTime.JsDate) (busy : list DateFns.Interval) (tv : Z),
        Schedule.getValidTimesFromSchedule h sv timesInOrder event log = (Effects.Ok out, log') ->
        find (fun s => String.eqb (FullSchedule.clerkUserId s) (EventRow.clerkUserId event))
             (Effects.ScheduleTable sv) = Some schedule ->
        head timesInOrder = Some first -> last timesInOrder = Some final ->
        GoogleCalendar.getCalendarEventTimes h sv (EventRow.clerkUserId event) first final
          (log ++ [Effects.DbFindSchedule (EventRow.clerkUserId event)])
        = (Effects.Ok busy, log1) ->
        0 <= EventRow.durationInMinutes event ->
        (forall b, b ∈ busy ->
           exists bs be,
             DateFns.start b = Some bs /\ DateFns.end_ b = Some be /\ bs <= be
             /\ (be <= tv
                 \/ tv + EventRow.durationInMinutes event * JsTime.msPerMinute <= bs)) ->
        (Some tv ∈ out
         <-> Some tv ∈ timesInOrder
             /\ Schedule.validTime h
                  (Schedule.groupBy (FullSchedule.availabilities schedule)
                     AvailabilityRow.dayOfWeek)
                  (FullSchedule.timezone schedule) [] (EventRow.durationInMinutes event)
                  (Some tv) = true))
  /\ fst (Schedule.getValidTimesFromSchedule Scenarios.serverUTC Scenarios.officeBusy
            [Scenarios.mondayAt 9 30; Scenarios.mondayAt 10 0] (Scenarios.eventOf 30) [])
     = Effects.Ok [Scenarios.mondayAt 9 30]
  /\ fst (Schedule.getValidTimesFromSchedule Scenarios.serverUTC Scenarios.officeBusy
            [Scenarios.mondayAt 9 30; Scenarios.mondayAt 10 0; Scenarios.mondayAt 10 30]
            (Scenarios.eventOf 30) [])
     = Effects.Ok [Scenarios.mondayAt 9 30; Scenarios.mondayAt 10 30].
Proof.
  split; [|split; [|split; [|split; vm_compute; reflexivity]]].
  - intros h sv times event log log' out t Hrun Ht.
    apply ResolverFacts.getValidTimes_returns in Hrun
      as [(_ & -> & _) | (first & final & Hfirst & Hfinal
                          & [(_ & -> & _) | (s & busy & _ & Hcal & ->)])];
      [inversion Ht | inversion Ht |].
    exists first, final, busy. repeat split; try assumption.
    intros b bs be tv Hb Hbs Hbe -> [H1 H2].
    apply ResolverFacts.elem_of_filter in Ht as [_ Hv].
    apply ResolverProps.validTime_true in Hv as [Hbusy _].
    specialize (Hbusy b Hb).
    assert (DateFns.areIntervalsOverlapping b
              {| DateFns.start := Some tv;
                 DateFns.end_ := DateFns.addMinutes (Some tv)
                                   (EventRow.durationInMinutes event) |} = true) as Hov.
    { apply DateFacts.areIntervalsOverlapping_spec.
      exists bs, be, tv, (tv + EventRow.durationInMinutes event * JsTime.msPerMinute).
      cbn. repeat split; try assumption; lia. }
    congruence.
  - intros b bs be tv d Hbs Hbe Hord Hd Htouch.
    destruct (DateFns.areIntervalsOverlapping b _) eqn:E; [|reflexivity].
    apply DateFacts.areIntervalsOverlapping_spec in E
      as (a1 & a2 & b1 & b2 & Ha1 & Ha2 & Hb1 & Hb2 & H1 & H2).
    cbn in Hb1, Hb2. unfold JsTime.msPerMinute in *.
    assert (a1 = bs) by congruence. assert (a2 = be) by congruence.
    assert (b1 = tv) by congruence. assert (b2 = tv + d * 60000) by congruence.
    subst. lia.
  - intros h sv times event log log' log1 out schedule first final busy tv
           Hrun Hfind Hfirst Hfinal Hcal Hd Hapart.
    apply ResolverFacts.getValidTimes_returns in Hrun
      as [(Hnone & _) | (first' & final' & Hfirst' & Hfinal'
                         & [(Hnone & _) | (s & busy' & Hfind' & Hcal' & ->)])].
    + rewrite Hnone in Hfirst. discriminate.
    + congruence.
    + rewrite Hfirst in Hfirst'. rewrite Hfinal in Hfinal'. rewrite Hfind in Hfind'.
      injection Hfirst' as <-. injection Hfinal' as <-. injection Hfind' as <-.
      rewrite Hcal in Hcal'. injection Hcal' as <- _.
      rewrite ResolverFacts.elem_of_filter.
      rewrite (ResolverProps.validTime_apart _ _ _ busy _ tv Hd Hapart). reflexivity.
Qed.

Lemma validTimes_avoid_busy_intervals_witness :
  (exists busy : list DateFns.Interval,
     busy = [ {| DateFns.start := Scenarios.mondayAt 10 0;
                 DateFns.end_ := Scenarios.mondayAt 10 30 |} ]
     /\ forall b bs be tv,
          b ∈ busy -> DateFns.start b = Some bs -> DateFns.end_ b = Some be ->
          Scenarios.mondayAt 9 30 = Some tv ->
          ~ (bs < tv + 30 * JsTime.msPerMinute /\ be > tv))
  /\ Some (JsTime.Date_UTC 2025 6 9 10 30)
     ∈ [Scenarios.mondayAt 9 30; Scenarios.mondayAt 10 30].
Proof.
  split.
  - destruct (proj1 validTimes_avoid_busy_intervals
                Scenarios.serverUTC Scenarios.officeBusy
                [Scenarios.mondayAt 9 30; Scenarios.mondayAt 10 0] (Scenarios.eventOf 30) []
                (snd (Schedule.getValidTimesFromSchedule Scenarios.serverUTC
                        Scenarios.officeBusy
                        [Scenarios.mondayAt 9 30; Scenarios.mondayAt 10 0]
                        (Scenarios.eventOf 30) []))
                [Scenarios.mondayAt 9 30] (Scenarios.mondayAt 9 30))
      as (first & final & busy & Hfirst & Hfinal & Hcal & Hfree).
    + vm_compute. reflexivity.
    + apply list_elem_of_singleton. reflexivity.
    + exists busy. split; [|exact Hfree].
      cbn in Hfirst, Hfinal. injection Hfirst as <-. injection Hfinal as <-.
      vm_compute in Hcal. injection Hcal as <-. reflexivity.
  - apply (proj1 (proj2 (proj2 validTimes_avoid_busy_intervals))
             Scenarios.serverUTC Scenarios.officeBusy
             [Scenarios.mondayAt 9 30; Scenarios.mondayAt 10 0; Scenarios.mondayAt 10 30]
             (Scenarios.eventOf 30) []
             (snd (Schedule.getValidTimesFromSchedule Scenarios.serverUTC
                     Scenarios.officeBusy
                     [Scenarios.mondayAt 9 30; Scenarios.mondayAt 10 0;
                      Scenarios.mondayAt 10 30]
                     (Scenarios.eventOf 30) []))
             (snd (GoogleCalendar.getCalendarEventTimes Scenarios.serverUTC
                     Scenarios.officeBusy Scenarios.owner
                     (Scenarios.mondayAt 9 30) (Scenarios.mondayAt 10 30)
                     [Effects.DbFindSchedule Scenarios.owner]))
             [Scenarios.mondayAt 9 30; Scenarios.mondayAt 10 30]
             Scenarios.officeHours (Scenarios.mondayAt 9 30) (Scenarios.mondayAt 10 30)
             [ {| DateFns.start := Scenarios.mondayAt 10 0;
                  DateFns.end_ := Scenarios.mondayAt 10 30 |} ]
             (JsTime.Date_UTC 2025 6 9 10 30)).
    + vm_compute. reflexivity.
    + reflexivity.
    + reflexivity.
    + reflexivity.
    + vm_compute. reflexivity.
    + vm_compute. discriminate.
    + intros b Hb. apply list_elem_of_singleton in Hb as ->.
      exists (JsTime.Date_UTC 2025 6 9 10 0), (JsTime.Date_UTC 2025 6 9 10 30).
      split; [reflexivity|]. split; [reflexivity|].
      split; [vm_compute; discriminate|]. left. lia.
    + split; [|vm_compute; reflexivity].
      apply list_elem_of_In. right. right. left. reflexivity.
Defined.

(** ** The windows of accepted rules run forward *)

Module WindowFacts.
Import JsTime DateFns Schedule.

Lemma setHours_setMinutes_fixed h a t hh mm :
  sys_zone h = fixedZone a -> 0 <= hh <= 23 -> 0 <= mm <= 59 ->
  setMinutes h (setHours h (Some t) (Some hh)) (Some mm)
  = Some (Day (t + a) * msPerDay + hh * msPerHour + mm * msPerMinute
          + SecFromTime (t + a) * msPerSecond + msFromTime (t + a) - a).
Proof.
  intros Hz Hh Hm. unfold setMinutes, setHours, Date_setMinutes, Date_setHours.
  rewrite Hz. unfold LocalTime, UTC, fixedZone. cbn [LocalTZA].
  set (L := t + a).
  pose proof (Z.mod_pos_bound (L / msPerMinute) 60 ltac:(lia)) as Hmin.
  pose proof (Z.mod_pos_bound (L / msPerSecond) 60 ltac:(lia)) as Hsec.
  pose proof (Z.mod_pos_bound L msPerSecond ltac:(unfold msPerSecond; lia)) as Hms.
  fold (MinFromTime L) in Hmin. fold (SecFromTime L) in Hsec. fold (msFromTime L) in Hms.
  set (mi := MinFromTime L) in *. set (se := SecFromTime L) in *. set (ms := msFromTime L) in *.
  set (d := Day L).
  unfold MakeDate, MakeTime.
  set (L1 := d * msPerDay + (hh * msPerHour + mi * msPerMinute + se * msPerSecond + ms) - a + a).
  assert (Day L1 = d) as ->.
  { unfold Day, L1, msPerDay, msPerHour, msPerMinute, msPerSecond in *.
    symmetry. apply (Z.div_unique _ _ _ (hh * 3600000 + mi * 60000 + se * 1000 + ms)); lia. }
  assert (HourFromTime L1 = hh) as ->.
  { unfold HourFromTime, L1, msPerDay, msPerHour, msPerMinute, msPerSecond in *.
    assert ((d * 86400000 + (hh * 3600000 + mi * 60000 + se * 1000 + ms) - a + a) / 3600000
            = d * 24 + hh) as ->
      by (symmetry; apply (Z.div_unique _ _ _ (mi * 60000 + se * 1000 + ms)); lia).
    symmetry. apply (Z.mod_unique _ _ d); lia. }
  assert (SecFromTime L1 = se) as ->.
  { unfold SecFromTime at 1. unfold L1, msPerDay, msPerHour, msPerMinute, msPerSecond in *.
    assert ((d * 86400000 + (hh * 3600000 + mi * 60000 + se * 1000 + ms) - a + a) / 1000
            = (d * 1440 + hh * 60 + mi) * 60 + se) as ->
      by (symmetry; apply (Z.div_unique _ _ _ ms); lia).
    symmetry. apply (Z.mod_unique _ _ (d * 1440 + hh * 60 + mi)); lia. }
  assert (msFromTime L1 = ms) as ->.
  { unfold msFromTime at 1. unfold L1, msPerDay, msPerHour, msPerMinute, msPerSecond in *.
    symmetry. apply (Z.mod_unique _ _ (((d * 1440 + hh * 60 + mi) * 60 + se))); lia. }
  f_equal. unfold msPerDay, msPerHour, msPerMinute, msPerSecond. lia.
Qed.

(** In zones without transitions, a rule that passed the schedule form
    (both times in the accepted format, no ordering issue) gives a window
    whose start is before its end, on every day. *)
Lemma accepted_rule_window_forward h a b timezone t row ws we :
  sys_zone h = fixedZone a -> tz_lookup h timezone = Some (fixedZone b) ->
  ScheduleSchema.timeFormatOk (AvailabilityRow.startTime row) = true ->
  ScheduleSchema.timeFormatOk (AvailabilityRow.endTime row) = true ->
  PrimFloat.leb (timeToFloat (AvailabilityRow.endTime row))
                (timeToFloat (AvailabilityRow.startTime row)) = false ->
  start (availabilityWindow h (Some t) timezone row) = Some ws ->
  end_ (availabilityWindow h (Some t) timezone row) = Some we ->
  ws < we.
Proof.
  intros Hsys Htz Hs He Hord.
  destruct (TimeFormatFacts.accepted_rule_order _ _ Hs He Hord)
    as (sh & sm & eh & em & Hps & Hpe & Hsh & Hsm & Heh & Hem & Hlt).
  unfold availabilityWindow. rewrite Hps, Hpe. cbn [start end_].
  rewrite !(setHours_setMinutes_fixed h a) by assumption.
  unfold fromZonedTime. rewrite Htz, Hsys.
  unfold UTC, LocalTime, fixedZone. cbn [LocalTZA].
  intros [= <-] [= <-].
  unfold msPerDay, msPerHour, msPerMinute, msPerSecond. lia.
Qed.



End WindowFacts.




(** C5. With everything else fixed, a longer duration never adds
    instants: for durations 0 <= d1 <= d2 the run with d1 returns whenever
    the run with d2 does, every instant returned with d2 is returned with
    d1, and the output with d2 is no longer than the output with d1. *)
Theorem validTimes_antitone_in_duration
    (h : Host) (sv : Effects.Services) (timesInOrder : list JsTime.JsDate)
    (event1 event2 : EventRow.t) (log log2 : list Effects.Call)
    (out2 : list JsTime.JsDate) :
  EventRow.clerkUserId event1 = EventRow.clerkUserId event2 ->
  0 <= EventRow.durationInMinutes event1 <= EventRow.durationInMinutes event2 ->
  Schedule.getValidTimesFromSchedule h sv timesInOrder event2 log = (Effects.Ok out2, log2) ->
  exists out1,
    Schedule.getValidTimesFromSchedule h sv timesInOrder event1 log = (Effects.Ok out1, log2)
    /\ (forall t, t ∈ out2 -> t ∈ out1)
    /\ out2 `sublist_of` out1
    /\ (length out2 <= length out1)%nat.
Proof.
  intros Huser Hd Hrun.
  assert (exists out1,
            Schedule.getValidTimesFromSchedule h sv timesInOrder event1 log
              = (Effects.Ok out1, log2)
            /\ out2 `sublist_of` out1) as (out1 & Hrun1 & Hsub).
  { unfold Schedule.getValidTimesFromSchedule in *. rewrite Huser.
    destruct (head timesInOrder) as [first|]; [|injection Hrun as <- <-; eauto].
    destruct (last timesInOrder) as [final|]; [|injection Hrun as <- <-; eauto].
    unfold Effects.bind in *.
    destruct (Schedule.getSchedule sv _ log) as [[[schedule|]|e] log1];
      [| injection Hrun as <- <-; eauto | discriminate].
    destruct (GoogleCalendar.getCalendarEventTimes _ _ _ _ _ _) as [[busy|e] log3];
      [|discriminate].
    injection Hrun as <- <-. eexists. split; [reflexivity|].
    apply ResolverFacts.filter_implies_sublist.
    intros t. apply ResolverProps.validTime_antitone. assumption. }
  exists out1. split; [assumption|]. split; [|split; [assumption|]].
  - intros t Ht. eapply elem_of_sublist; eassumption.
  - apply sublist_length. assumption.
Qed.

Lemma validTimes_antitone_in_duration_witness :
  exists out1,
    Schedule.getValidTimesFromSchedule Scenarios.serverUTC Scenarios.officeBusy
      [Scenarios.mondayAt 9 0; Scenarios.mondayAt 9 30] (Scenarios.eventOf 30) []
    = (Effects.Ok out1,
       snd (Schedule.getValidTimesFromSchedule Scenarios.serverUTC Scenarios.officeBusy
              [Scenarios.mondayAt 9 0; Scenarios.mondayAt 9 30] (Scenarios.eventOf 60) []))
    /\ (forall t, t ∈ [Scenarios.mondayAt 9 0] -> t ∈ out1)
    /\ [Scenarios.mondayAt 9 0] `sublist_of` out1
    /\ (length [Scenarios.mondayAt 9 0] <= length out1)%nat.
Proof.
  apply (validTimes_antitone_in_duration Scenarios.serverUTC Scenarios.officeBusy
           [Scenarios.mondayAt 9 0; Scenarios.mondayAt 9 30]
           (Scenarios.eventOf 30) (Scenarios.eventOf 60) []).
  - reflexivity.
  - simpl. lia.
  - vm_compute. reflexivity.
Defined.

(** ** The busy intervals fetched from the calendar *)

Module CalendarFacts.
Import JsTime DateFns Effects GoogleCalendar.

Lemma definedOnly_omap {A B} (f : A -> option B) (l : list A) :
  definedOnly (map f l) = omap f l.
Proof.
  induction l as [|x l IH]; simpl; [reflexivity|].
  destruct (f x); simpl; rewrite IH; reflexivity.
Qed.

Lemma getOAuthClient_log sv user log :
  exists r, getOAuthClient sv user log = (r, log ++ [ClerkGetOauthToken user]).
Proof.
  unfold getOAuthClient, try_catch, bind, call, throw, ret.
  destruct (getUserOauthAccessToken sv user) as [[|d data]|e]; eauto.
  destruct (String.eqb (Clerk.token d) ""); eauto.
Qed.

(** A fetch that returns has asked the calendar API once, for the
    range between the two dates, and maps the items it got. *)
Lemma getCalendarEventTimes_returns h sv user first final log busy log' :
  getCalendarEventTimes h sv user first final log = (Ok busy, log') ->
  exists token timeMin timeMax items,
    first = Some timeMin /\ final = Some timeMax
    /\ events_list sv token timeMin timeMax = Ok items
    /\ log' = log ++ [ClerkGetOauthToken user; GcalEventsList token timeMin timeMax]
    /\ busy = omap (eventTime h) (default [] items).
Proof.
  unfold getCalendarEventTimes, try_catch, bind.
  destruct (getOAuthClient_log sv user log) as [r ->].
  destruct r as [token|e]; [|discriminate].
  destruct first as [timeMin|]; [|discriminate].
  destruct final as [timeMax|]; [|discriminate].
  cbn [toISOString ret]. unfold call.
  destruct (events_list sv token timeMin timeMax) as [items|e] eqn:Elist; [|discriminate].
  unfold ret. intros [= <- <-].
  exists token, timeMin, timeMax, items. rewrite <- app_assoc.
  repeat split; try assumption.
  destruct items as [items|]; [apply definedOnly_omap | reflexivity].
Qed.

(** A fetch, whether it returns or throws, makes no other calls than
    the token lookup and the listing. *)
Lemma getCalendarEventTimes_log h sv user first final log r log' :
  getCalendarEventTimes h sv user first final log = (r, log') ->
  (log' = log ++ [ClerkGetOauthToken user] /\ exists e, r = Throw e)
  \/ exists token timeMin timeMax,
       log' = log ++ [ClerkGetOauthToken user; GcalEventsList token timeMin timeMax].
Proof.
  unfold getCalendarEventTimes, try_catch, bind.
  destruct (getOAuthClient_log sv user log) as [r0 ->].
  destruct r0 as [token|e]; [|intros [= <- <-]; left; eauto].
  destruct first as [timeMin|]; [|intros [= <- <-]; left; eauto].
  destruct final as [timeMax|]; [|intros [= <- <-]; left; eauto].
  cbn [toISOString ret]. unfold call, ret, throw. rewrite <- app_assoc.
  destruct (events_list sv token timeMin timeMax) as [items|e];
    intros [= <- <-]; right; eauto.
Qed.

End CalendarFacts.

(** C10. The mapping of the fetched calendar items: an item with a date
    on both ends becomes the interval from the start of the day of its
    start date to the end of the day of its end date, both days taken in
    the zone of the server process; an item that is not of that kind and
    has a date-time on both ends becomes the interval of its two
    date-times; every other item is dropped; and the result lists the
    intervals of the items that are kept, one for each, in their order. *)
Theorem calendar_items_become_busy_intervals (h : Host) :
  (forall item sd ed,
     GoogleCalendar.startDate item = Some sd -> GoogleCalendar.endDate item = Some ed ->
     sd <> ""%string -> ed <> ""%string ->
     GoogleCalendar.eventTime h item
     = Some {| DateFns.start := DateFns.startOfDay h (Date_parse h sd);
               DateFns.end_ := DateFns.endOfDay h (Date_parse h ed) |})
  /\ (forall t : Z,
        DateFns.startOfDay h (Some t)
        = Some (JsTime.UTC (sys_zone h)
                  (JsTime.Day (JsTime.LocalTime (sys_zone h) t) * JsTime.msPerDay))
        /\ DateFns.endOfDay h (Some t)
           = Some (JsTime.UTC (sys_zone h)
                     (JsTime.Day (JsTime.LocalTime (sys_zone h) t) * JsTime.msPerDay
                      + (JsTime.msPerDay - 1))))
  /\ (forall item sdt edt,
        GoogleCalendar.truthy (GoogleCalendar.startDate item)
        && GoogleCalendar.truthy (GoogleCalendar.endDate item) = false ->
        GoogleCalendar.startDateTime item = Some sdt ->
        GoogleCalendar.endDateTime item = Some edt ->
        sdt <> ""%string -> edt <> ""%string ->
        GoogleCalendar.eventTime h item
        = Some {| DateFns.start := Date_parse h sdt; DateFns.end_ := Date_parse h edt |})
  /\ (forall item,
        GoogleCalendar.truthy (GoogleCalendar.startDate item)
        && GoogleCalendar.truthy (GoogleCalendar.endDate item) = false ->
        GoogleCalendar.truthy (GoogleCalendar.startDateTime item)
        && GoogleCalendar.truthy (GoogleCalendar.endDateTime item) = false ->
        GoogleCalendar.eventTime h item = None)
  /\ (forall sv user first final log busy log',
        GoogleCalendar.getCalendarEventTimes h sv user first final log
          = (Effects.Ok busy, log') ->
        exists token timeMin timeMax items,
          Effects.events_list sv token timeMin timeMax = Effects.Ok items
          /\ busy = omap (GoogleCalendar.eventTime h) (default [] items)
          /\ length busy
             = length (List.filter (fun item => bool_decide
                                      (is_Some (GoogleCalendar.eventTime h item)))
                                   (default [] items))).
Proof.
  assert (forall s : string, s <> ""%string -> GoogleCalendar.truthy (Some s) = true) as Htruthy.
  { intros s Hs. simpl. apply negb_true_iff. apply String.eqb_neq. assumption. }
  split; [|split; [|split; [|split]]].
  - intros item sd ed Hsd Hed Hs He. unfold GoogleCalendar.eventTime.
    rewrite Hsd, Hed, (Htruthy sd Hs), (Htruthy ed He). reflexivity.
  - intros t. unfold DateFns.startOfDay, DateFns.endOfDay, JsTime.Date_setHours4.
    split; do 2 f_equal; unfold JsTime.MakeDate, JsTime.MakeTime, JsTime.msPerDay,
      JsTime.msPerHour, JsTime.msPerMinute, JsTime.msPerSecond; lia.
  - intros item sdt edt Hnot Hs He Hsn Hen. unfold GoogleCalendar.eventTime.
    rewrite Hnot, Hs, He, (Htruthy sdt Hsn), (Htruthy edt Hen). reflexivity.
  - intros item H1 H2. unfold GoogleCalendar.eventTime. rewrite H1, H2. reflexivity.
  - intros sv user first final log busy log' Hrun.
    apply CalendarFacts.getCalendarEventTimes_returns in Hrun
      as (token & timeMin & timeMax & items & _ & _ & Hlist & _ & ->).
    exists token, timeMin, timeMax, items. split; [assumption|]. split; [reflexivity|].
    induction (default [] items) as [|item l IH]; simpl; [reflexivity|].
    destruct (GoogleCalendar.eventTime h item) as [iv|]; cbn; [f_equal|]; exact IH.
Qed.

Lemma calendar_items_become_busy_intervals_witness :
  GoogleCalendar.eventTime Scenarios.serverUTC Scenarios.busyMeeting
  = Some {| DateFns.start := Scenarios.mondayAt 10 0;
            DateFns.end_ := Scenarios.mondayAt 10 30 |}.
Proof.
  apply (proj1 (proj2 (proj2 (calendar_items_become_busy_intervals Scenarios.serverUTC)))
           Scenarios.busyMeeting "2025-06-09T10:00:00Z"%string "2025-06-09T10:30:00Z"%string);
    first [reflexivity | discriminate].
Defined.

(** ** Empty inputs of the resolver *)

Module EmptyFacts.
Import JsTime DateFns Effects Schedule.

Lemma filter_none {A} (f : A -> bool) (l : list A) :
  (forall x, f x = false) -> List.filter f l = [].
Proof.
  intros Hf. induction l as [|x l IH]; simpl; [reflexivity|].
  rewrite Hf. assumption.
Qed.

Lemma validTime_no_rules h timezone busy d t :
  validTime h (groupBy [] AvailabilityRow.dayOfWeek) timezone busy d t = false.
Proof.
  unfold validTime, getAvailabilities.
  destruct (dayOfWeekOf h t); [rewrite ResolverFacts.groupBy_lookup|];
    simpl; apply andb_false_r.
Qed.

End EmptyFacts.

(** C6, as the claim states it, fails: with a schedule that has no
    rules the resolver still fetches the busy intervals, and when that
    fetch fails (here: the owner has no Google token) the resolver throws. *)
Lemma empty_rules_and_failed_fetch_throw :
  FullSchedule.availabilities (Scenarios.scheduleOf "UTC" []) = []
  /\ fst (Schedule.getValidTimesFromSchedule Scenarios.serverUTC Scenarios.noRulesNoGoogle
            [Scenarios.mondayAt 9 0] (Scenarios.eventOf 30) [])
     = Effects.Throw
         ("Failed to fetch calendar events: Failed to get OAuth client: "
          +:+ "No OAuth data or token found for the user.").
Proof. split; [reflexivity | vm_compute; reflexivity]. Qed.

(** C6, amended. With no candidates the resolver returns the empty list
    at once and makes no call at all.  When the owner has no schedule it
    returns the empty list, never throws, and makes no call other than the
    look-up of the schedule.  When the schedule has no rules it fetches
    the busy intervals and returns the empty list if that fetch returns;
    if the fetch throws, the resolver throws the same error. *)
Theorem validTimes_of_empty_inputs :
  (forall h sv event log,
     Schedule.getValidTimesFromSchedule h sv [] event log = (Effects.Ok [], log))
  /\ (forall h sv timesInOrder event log,
        find (fun s => String.eqb (FullSchedule.clerkUserId s) (EventRow.clerkUserId event))
             (Effects.ScheduleTable sv) = None ->
        exists log',
          Schedule.getValidTimesFromSchedule h sv timesInOrder event log = (Effects.Ok [], log')
          /\ (log' = log
              \/ log' = log ++ [Effects.DbFindSchedule (EventRow.clerkUserId event)]))
  /\ (forall h sv timesInOrder event log schedule first final r log',
        find (fun s => String.eqb (FullSchedule.clerkUserId s) (EventRow.clerkUserId event))
             (Effects.ScheduleTable sv) = Some schedule ->
        FullSchedule.availabilities schedule = [] ->
        head timesInOrder = Some first -> last timesInOrder = Some final ->
        GoogleCalendar.getCalendarEventTimes h sv (EventRow.clerkUserId event) first final
          (log ++ [Effects.DbFindSchedule (EventRow.clerkUserId event)]) = (r, log') ->
        Schedule.getValidTimesFromSchedule h sv timesInOrder event log
        = (match r with
           | Effects.Ok _ => Effects.Ok []
           | Effects.Throw e => Effects.Throw e
           end, log')).
Proof.
  split; [reflexivity|]. split.
  - intros h sv times event log Hfind.
    unfold Schedule.getValidTimesFromSchedule.
    destruct (head times); [|eauto]. destruct (last times); [|eauto].
    unfold Effects.bind, Schedule.getSchedule, Effects.call. rewrite Hfind.
    eexists. split; [reflexivity|]. right. reflexivity.
  - intros h sv times event log schedule first final r log' Hfind Hempty Hfirst Hfinal Hcal.
    unfold Schedule.getValidTimesFromSchedule. rewrite Hfirst, Hfinal.
    unfold Effects.bind, Schedule.getSchedule, Effects.call. rewrite Hfind, Hcal, Hempty.
    destruct r as [busy|e]; [|reflexivity].
    unfold Effects.ret. rewrite EmptyFacts.filter_none; [reflexivity|].
    intros t. apply EmptyFacts.validTime_no_rules.
Qed.

Lemma validTimes_of_empty_inputs_witness :
  exists log',
    Schedule.getValidTimesFromSchedule Scenarios.serverUTC Scenarios.noSchedule
      [Scenarios.mondayAt 9 0] (Scenarios.eventOf 30) [] = (Effects.Ok [], log')
    /\ (log' = [] \/ log' = [] ++ [Effects.DbFindSchedule Scenarios.owner]).
Proof.
  apply (proj1 (proj2 validTimes_of_empty_inputs) Scenarios.serverUTC Scenarios.noSchedule
           [Scenarios.mondayAt 9 0] (Scenarios.eventOf 30) []).
  reflexivity.
Defined.

(** ** The calls of the resolver and of the booking *)

Module MeetingFacts.
Import JsTime DateFns Effects.

Lemma noWrite_no_write calls :
  noWrite calls -> ~ Exists (fun c => isWrite c = true) calls.
Proof.
  unfold noWrite. intros Hall Hex. apply Exists_exists in Hex as (c & Hc & Hw).
  rewrite Forall_forall in Hall. specialize (Hall c Hc). congruence.
Qed.

(** The resolver only reads. *)
Lemma resolver_log h sv times event log r log' :
  Schedule.getValidTimesFromSchedule h sv times event log = (r, log') ->
  exists calls, log' = log ++ calls /\ noWrite calls.
Proof.
  unfold Schedule.getValidTimesFromSchedule, noWrite.
  destruct (head times) as [first|];
    [|intros [= <- <-]; exists []; rewrite app_nil_r; split; [reflexivity|constructor]].
  destruct (last times) as [final|];
    [|intros [= <- <-]; exists []; rewrite app_nil_r; split; [reflexivity|constructor]].
  unfold bind, Schedule.getSchedule, call.
  destruct (find _ (ScheduleTable sv)) as [schedule|].
  - destruct (GoogleCalendar.getCalendarEventTimes _ _ _ _ _ _) as [r0 log0] eqn:Ecal.
    intros Hrun.
    assert (log' = log0) as -> by (destruct r0; injection Hrun as _ <-; reflexivity).
    apply CalendarFacts.getCalendarEventTimes_log in Ecal
      as [[-> _] | (token & timeMin & timeMax & ->)];
      rewrite <- app_assoc; eexists; (split; [reflexivity|]);
      repeat constructor.
  - intros [= <- <-]. eexists. split; [reflexivity|]. repeat constructor.
Qed.

(** A run of the resolver that keeps an instant has asked the calendar
    API during that run. *)
Lemma resolver_keeps_after_fetch h sv times event log out log' :
  Schedule.getValidTimesFromSchedule h sv times event log = (Ok out, log') ->
  out <> [] ->
  exists token timeMin timeMax,
    head times = Some (Some timeMin) /\ last times = Some (Some timeMax)
    /\ log' = log ++ [DbFindSchedule (EventRow.clerkUserId event);
                      ClerkGetOauthToken (EventRow.clerkUserId event);
                      GcalEventsList token timeMin timeMax].
Proof.
  intros Hrun Hne.
  apply ResolverFacts.getValidTimes_returns in Hrun
    as [(_ & -> & _) | (first & final & Hfirst & Hfinal
                        & [(_ & -> & _) | (s & busy & _ & Hcal & _)])];
    [congruence | congruence |].
  apply CalendarFacts.getCalendarEventTimes_returns in Hcal
    as (token & timeMin & timeMax & items & -> & -> & _ & -> & _).
  exists token, timeMin, timeMax. rewrite <- app_assoc. auto.
Qed.

(** [createCalendarEvent] writes at most once, after looking up the
    token and the user, and only logs to the console afterwards. *)
Lemma createCalendarEvent_log sv a log :
  exists calls,
    snd (GoogleCalendar.createCalendarEvent sv a log) = log ++ calls
    /\ (noWrite calls
        \/ exists token body tail,
             calls = [ClerkGetOauthToken (GoogleCalendar.clerkUserId a);
                      ClerkGetUser (GoogleCalendar.clerkUserId a);
                      GcalEventsInsert token body] ++ tail
             /\ noWrite tail).
Proof.
  unfold GoogleCalendar.createCalendarEvent, try_catch, bind.
  destruct (CalendarFacts.getOAuthClient_log sv (GoogleCalendar.clerkUserId a) log) as [r ->].
  unfold call, throw, ret.
  destruct r as [token|e];
    [|cbn; rewrite <- app_assoc; eexists; split; [reflexivity|]; left; repeat constructor].
  destruct (getUser sv _) as [user|e];
    [|cbn; rewrite <- !app_assoc; eexists; split; [reflexivity|]; left; repeat constructor].
  destruct (find _ _) as [primary|];
    [|cbn; rewrite <- !app_assoc; eexists; split; [reflexivity|]; left; repeat constructor].
  destruct (GoogleCalendar.startTime a) as [t|];
    [|cbn; rewrite <- !app_assoc; eexists; split; [reflexivity|]; left; repeat constructor].
  cbn [toISOString addMinutes ret]. unfold ret.
  destruct (events_insert sv _ _); cbn; rewrite <- !app_assoc;
    eexists; (split; [reflexivity|]); right; cbn [app];
    do 3 eexists; (split; [reflexivity|]); repeat constructor.
Qed.

End MeetingFacts.

(** C7. [createMeeting] resolves the chosen instant again, alone, with
    busy intervals fetched during the same call, before it writes: when
    the calls it makes include the calendar write, the resolver has
    returned that instant on a run that asked the calendar API, and the
    calls are, in order: the look-up of the event, the resolver's look-up
    of the schedule, of the token and of the calendar entries, then the
    look-ups of token and user for the write, the write itself, and after
    it nothing that writes.  When the resolver returns the empty list,
    [createMeeting] throws "Selected time is not valid." and none of its
    calls is a write. *)
Theorem createMeeting_writes_only_after_recheck
    (h : Host) (sv : Effects.Services) (unsafeData : Meetings.MeetingData)
    (log log' : list Effects.Call) (result : Effects.outcome Meetings.Created) :
  Meetings.createMeeting h sv unsafeData log = (result, log') ->
  exists calls,
    log' = log ++ calls
    /\ (Exists (fun c => Effects.isWrite c = true) calls ->
        exists data event token chosen writeToken body tail,
          Meetings.safeParse h unsafeData = Some data
          /\ find (fun e => EventRow.isActive e
                            && String.eqb (EventRow.clerkUserId e) (Meetings.clerkUserId data)
                            && String.eqb (EventRow.id e) (Meetings.eventId data))
                  (Effects.EventTable sv) = Some event
          /\ DateFns.fromZonedTime h (Meetings.startTime data) (Meetings.timezone data)
             = Some chosen
          /\ Schedule.getValidTimesFromSchedule h sv [Some chosen] event
               (log ++ [Effects.DbFindEvent (Meetings.clerkUserId data) (Meetings.eventId data)])
             = (Effects.Ok [Some chosen],
                log ++ [Effects.DbFindEvent (Meetings.clerkUserId data) (Meetings.eventId data);
                        Effects.DbFindSchedule (EventRow.clerkUserId event);
                        Effects.ClerkGetOauthToken (EventRow.clerkUserId event);
                        Effects.GcalEventsList token chosen chosen])
          /\ calls = [Effects.DbFindEvent (Meetings.clerkUserId data) (Meetings.eventId data);
                      Effects.DbFindSchedule (EventRow.clerkUserId event);
                      Effects.ClerkGetOauthToken (EventRow.clerkUserId event);
                      Effects.GcalEventsList token chosen chosen;
                      Effects.ClerkGetOauthToken (Meetings.clerkUserId data);
                      Effects.ClerkGetUser (Meetings.clerkUserId data);
                      Effects.GcalEventsInsert writeToken body] ++ tail
          /\ Effects.noWrite tail)
    /\ (forall data event log1,
          Meetings.safeParse h unsafeData = Some data ->
          find (fun e => EventRow.isActive e
                         && String.eqb (EventRow.clerkUserId e) (Meetings.clerkUserId data)
                         && String.eqb (EventRow.id e) (Meetings.eventId data))
               (Effects.EventTable sv) = Some event ->
          Schedule.getValidTimesFromSchedule h sv
            [DateFns.fromZonedTime h (Meetings.startTime data) (Meetings.timezone data)] event
            (log ++ [Effects.DbFindEvent (Meetings.clerkUserId data) (Meetings.eventId data)])
          = (Effects.Ok [], log1) ->
          result = Effects.Throw "Failed to create meeting: Selected time is not valid."
          /\ Effects.noWrite calls).
Proof.
  intros Hrun. unfold Meetings.createMeeting, Effects.try_catch in Hrun.
  destruct (Meetings.safeParse h unsafeData) as [data|] eqn:Eparse.
  2:{ cbn in Hrun. injection Hrun as <- <-. eexists. split; [reflexivity|]. split.
      - intros Hex. exfalso. revert Hex. apply MeetingFacts.noWrite_no_write.
        repeat constructor.
      - intros ? ? ? [=]. }
  unfold Effects.bind at 1 in Hrun. unfold Meetings.findEvent, Effects.call at 1 in Hrun.
  destruct (find _ (Effects.EventTable sv)) as [event|] eqn:Efind.
  2:{ destruct (Effects.uuid_error sv (Meetings.eventId data));
        cbn in Hrun; injection Hrun as <- <-; rewrite <- app_assoc;
        (eexists; split; [reflexivity|]; split;
         [intros Hex; exfalso; revert Hex; apply MeetingFacts.noWrite_no_write;
          repeat constructor
         |intros ? ? ? [= <-]; rewrite Efind; intros [=]]). }
  unfold Effects.bind at 1 in Hrun.
  destruct (Schedule.getValidTimesFromSchedule _ _ _ _ _) as [[validTimes|e] log1] eqn:Erun.
  2:{ cbn in Hrun. injection Hrun as <- <-.
      pose proof (MeetingFacts.resolver_log _ _ _ _ _ _ _ Erun) as (rc & Hlog1 & Hrc).
      rewrite Hlog1. rewrite <- !app_assoc. eexists. split; [reflexivity|]. split.
      - intros Hex. exfalso. revert Hex. apply MeetingFacts.noWrite_no_write.
        apply Forall_app. split; [repeat constructor|].
        apply Forall_app. split; [assumption | repeat constructor].
      - intros ? ? ? [= <-]. rewrite Efind. intros [= <-]. rewrite Erun. intros [=]. }
  destruct validTimes as [|kept validTimes'].
  - cbn in Hrun. injection Hrun as <- <-.
    apply MeetingFacts.resolver_log in Erun as (rc & -> & Hrc).
    rewrite <- !app_assoc.
    assert (Effects.noWrite
              ([Effects.DbFindEvent (Meetings.clerkUserId data) (Meetings.eventId data)]
               ++ rc ++ [Effects.ConsoleError
                           ("Error creating meeting: "
                            +:+ Js.messageOf "Selected time is not valid.")])) as Hnw.
    { apply Forall_app. split; [repeat constructor|].
      apply Forall_app. split; [assumption | repeat constructor]. }
    eexists. split; [reflexivity|]. split.
    + intros Hex. exfalso. revert Hex. apply MeetingFacts.noWrite_no_write. exact Hnw.
    + intros ? ? ? _ _ _. split; [reflexivity | exact Hnw].
  - cbn [length Nat.eqb] in Hrun. unfold Effects.bind in Hrun.
    pose proof (ResolverFacts.getValidTimes_sublist _ _ _ _ _ _ _ Erun) as Hsub.
    assert (kept :: validTimes'
            = [DateFns.fromZonedTime h (Meetings.startTime data) (Meetings.timezone data)])
      as Hkept.
    { apply sublist_length in Hsub as Hlen. cbn in Hlen.
      destruct validTimes'; [|cbn in Hlen; lia].
      apply sublist_cons_r in Hsub as [Hsub | (l' & [= -> <-] & _)]; [|reflexivity].
      apply sublist_nil_r in Hsub. discriminate. }
    rewrite Hkept in Erun.
    pose proof (MeetingFacts.resolver_keeps_after_fetch _ _ _ _ _ _ _ Erun ltac:(discriminate))
      as (token & chosen & timeMax & Hhead & Hlast & Hlog1).
    cbn in Hhead, Hlast. injection Hhead as Hchosen. rewrite Hchosen in Hlast.
    injection Hlast as <-. rewrite Hchosen in Erun. rewrite Hlog1 in Erun.
    rewrite <- app_assoc in Erun. cbn [app] in Erun.
    match type of Hrun with
    | context [GoogleCalendar.createCalendarEvent sv ?a log1] =>
        destruct (MeetingFacts.createCalendarEvent_log sv a log1) as (cc & Hcc & Hshape);
        destruct (GoogleCalendar.createCalendarEvent sv a log1) as [r2 log2]
    end.
    cbn [snd] in Hcc. subst log2. cbn [GoogleCalendar.clerkUserId] in Hshape.
    assert (exists tail, log' = log1 ++ cc ++ tail /\ Effects.noWrite tail)
      as (tail & -> & Htail).
    { destruct r2; cbn in Hrun; injection Hrun as _ <-.
      - exists []. rewrite app_nil_r. split; [reflexivity|constructor].
      - eexists. rewrite <- app_assoc. split; [reflexivity|repeat constructor]. }
    rewrite Hlog1. rewrite <- !app_assoc. cbn [app].
    eexists. split; [reflexivity|]. split.
    + intros Hex.
      destruct Hshape as [Hcc | (writeToken & body & tail0 & -> & Htail0)].
      * exfalso. revert Hex. apply MeetingFacts.noWrite_no_write.
        do 4 (constructor; [reflexivity|]).
        apply Forall_app. split; assumption.
      * exists data, event, token, chosen, writeToken, body, (tail0 ++ tail).
        repeat split; try assumption.
        apply Forall_app. split; assumption.
    + intros ? ? ? [= <-]. rewrite Efind. intros [= <-].
      rewrite Hchosen. rewrite Erun. intros [=].
Qed.

Lemma createMeeting_writes_only_after_recheck_witness :
  fst (Meetings.createMeeting Scenarios.serverUTC Scenarios.officeBusy
         (Scenarios.booking (Scenarios.mondayAt 10 0)) [])
  = Effects.Throw "Failed to create meeting: Selected time is not valid."
  /\ Effects.noWrite
       (snd (Meetings.createMeeting Scenarios.serverUTC Scenarios.officeBusy
               (Scenarios.booking (Scenarios.mondayAt 10 0)) [])).
Proof.
  destruct (createMeeting_writes_only_after_recheck
              Scenarios.serverUTC Scenarios.officeBusy
              (Scenarios.booking (Scenarios.mondayAt 10 0)) []
              (snd (Meetings.createMeeting Scenarios.serverUTC Scenarios.officeBusy
                      (Scenarios.booking (Scenarios.mondayAt 10 0)) []))
              (fst (Meetings.createMeeting Scenarios.serverUTC Scenarios.officeBusy
                      (Scenarios.booking (Scenarios.mondayAt 10 0)) [])))
    as (calls & Hlog & _ & Hrejected).
  - apply surjective_pairing.
  - rewrite Hlog.
    apply (Hrejected (Scenarios.booking (Scenarios.mondayAt 10 0)) (Scenarios.eventOf 30)
             (snd (Schedule.getValidTimesFromSchedule Scenarios.serverUTC Scenarios.officeBusy
                     [Scenarios.mondayAt 10 0] (Scenarios.eventOf 30)
                     [Effects.DbFindEvent Scenarios.owner (Scenarios.uuid "e1")]))).
    + reflexivity.
    + reflexivity.
    + vm_compute. reflexivity.
Defined.

Example createMeeting_books_a_free_slot :
  fst (Meetings.createMeeting Scenarios.serverUTC Scenarios.officeBusy
         (Scenarios.booking (Scenarios.mondayAt 9 30)) [])
  = Effects.Ok {| Meetings.created_clerkUserId := Scenarios.owner;
                  Meetings.created_eventId := Scenarios.uuid "e1";
                  Meetings.created_startTime := Scenarios.mondayAt 9 30 |}
  /\ Exists (fun c => Effects.isWrite c = true)
       (snd (Meetings.createMeeting Scenarios.serverUTC Scenarios.officeBusy
               (Scenarios.booking (Scenarios.mondayAt 9 30)) [])).
Proof.
  split; [vm_compute; reflexivity|].
  vm_compute. do 6 apply Exists_cons_tl. apply Exists_cons_hd. reflexivity.
Qed.

(** ** The day of the week of a candidate *)

Module DayFacts.
Import JsTime DateFns Schedule.

Lemma WeekDay_range t : 0 <= WeekDay t < 7.
Proof. unfold WeekDay. apply Z.mod_pos_bound. lia. Qed.

(** The day under which the rules are looked up is the day of the week
    of the candidate in the zone of the server process, whatever the time
    zone of the schedule. *)
Lemma dayOfWeekOf_server_zone h d :
  dayOfWeekOf h d = getDay (sys_zone h) d ≫= Scenarios.dayNamed.
Proof.
  unfold dayOfWeekOf, isMonday, isTuesday, isWednesday, isThursday, isFriday,
    isSaturday, isSunday, getDay.
  destruct d as [t|]; [|reflexivity].
  pose proof (WeekDay_range (LocalTime (sys_zone h) t)) as Hr.
  set (n := WeekDay (LocalTime (sys_zone h) t)) in *.
  assert (n = 0 \/ n = 1 \/ n = 2 \/ n = 3 \/ n = 4 \/ n = 5 \/ n = 6) as Hn by lia.
  destruct Hn as [->|[->|[->|[->|[->|[->| ->]]]]]]; reflexivity.
Qed.

End DayFacts.

(** C1 does not hold of the code: the day of the week under which the
    rules are looked up is that of the candidate in the zone of the
    server process, not in the time zone of the schedule.
    - Server in UTC, schedule in New York with the rule Sunday
      21:00-23:00: Monday 9 June 2025 02:00 UTC is Sunday 22:00 in New
      York, yet it is looked up under Monday and rejected.
    - Server in Los Angeles, schedule in New York with the rule Monday
      00:00-02:00: Monday 00:30 in New York (04:30 UTC) is looked up under
      Sunday and rejected. *)
Theorem dayOfWeek_taken_in_server_zone :
  (forall h d timezone grouped,
     Schedule.getAvailabilities h grouped d timezone
     = match JsTime.getDay (sys_zone h) d ≫= Scenarios.dayNamed with
       | None => []
       | Some dayOfWeek =>
           match grouped !! dayOfWeek with
           | None => []
           | Some rows => map (Schedule.availabilityWindow h d timezone) rows
           end
       end)
  /\ (JsTime.WeekDay (JsTime.LocalTime Scenarios.newYorkSummer (JsTime.Date_UTC 2025 6 9 2 0)) = 0
      /\ Schedule.dayOfWeekOf Scenarios.serverUTC (Scenarios.mondayAt 2 0) = Some monday
      /\ fst (Schedule.getValidTimesFromSchedule Scenarios.serverUTC Scenarios.sundayEvening
                [Scenarios.mondayAt 2 0] (Scenarios.eventOf 30) [])
         = Effects.Ok [])
  /\ (JsTime.WeekDay (JsTime.LocalTime Scenarios.newYorkSummer (JsTime.Date_UTC 2025 6 9 4 30)) = 1
      /\ JsTime.HourFromTime
           (JsTime.LocalTime Scenarios.newYorkSummer (JsTime.Date_UTC 2025 6 9 4 30)) = 0
      /\ JsTime.MinFromTime
           (JsTime.LocalTime Scenarios.newYorkSummer (JsTime.Date_UTC 2025 6 9 4 30)) = 30
      /\ Schedule.dayOfWeekOf Scenarios.serverLosAngeles (Scenarios.mondayAt 4 30) = Some sunday
      /\ fst (Schedule.getValidTimesFromSchedule Scenarios.serverLosAngeles
                Scenarios.mondayAfterMidnight
                [Scenarios.mondayAt 4 30] (Scenarios.eventOf 30) [])
         = Effects.Ok []).
Proof.
  split; [|split; repeat split; vm_compute; reflexivity].
  intros h d timezone grouped. unfold Schedule.getAvailabilities.
  rewrite DayFacts.dayOfWeekOf_server_zone. reflexivity.
Qed.

(** ** Order of the accepted times *)

Module TimeOrderFacts.
Import ScheduleSchema TimeFormat TimeOrder.

(** Pair by pair over the accepted spellings: [<] and [<=] on the
    doubles of [timeToFloat] are [<] and [<=] on the minutes. *)
Lemma order_exact_on_table :
  forallb (fun p =>
             forallb (fun q =>
                        Bool.eqb (PrimFloat.ltb (snd p) (snd q)) (fst p <? fst q)
                        && Bool.eqb (PrimFloat.leb (snd p) (snd q)) (fst p <=? fst q))
                     floatsOfDay)
          floatsOfDay = true.
Proof. vm_compute. reflexivity. Qed.

Lemma minuteOfTime_accepted s :
  timeFormatOk s = true ->
  exists hm, In hm timesTable /\ In s (spellings hm) /\ minuteOfTime s = minuteOfDay hm
             /\ 0 <= minuteOfTime s < 1440.
Proof.
  intros (hm & Hin & Hsp & Hparse & Hh & Hm)%TimeFormatFacts.accepted_time.
  exists hm. unfold minuteOfTime, minuteOfDay. rewrite Hparse.
  repeat split; try assumption; lia.
Qed.

(** On accepted times the comparisons of [timeToFloat] are those of the
    minutes of the day. *)
Lemma float_order_exact s e :
  timeFormatOk s = true -> timeFormatOk e = true ->
  PrimFloat.ltb (timeToFloat s) (timeToFloat e) = (minuteOfTime s <? minuteOfTime e)
  /\ PrimFloat.leb (timeToFloat s) (timeToFloat e) = (minuteOfTime s <=? minuteOfTime e).
Proof.
  intros (p & Hp & Hsp & -> & _)%minuteOfTime_accepted
         (q & Hq & Hsq & -> & _)%minuteOfTime_accepted.
  assert (forall hm x, In hm timesTable -> In x (spellings hm) ->
            In (minuteOfDay hm, timeToFloat x) floatsOfDay) as Htable.
  { intros hm x Hhm Hx. unfold floatsOfDay. apply in_flat_map. exists hm.
    split; [assumption|].
    apply (in_map (fun s0 => (minuteOfDay hm, timeToFloat s0))). assumption. }
  pose proof order_exact_on_table as Hall.
  rewrite forallb_forall in Hall.
  specialize (Hall _ (Htable p s Hp Hsp)). rewrite forallb_forall in Hall.
  specialize (Hall _ (Htable q e Hq Hsq)). cbn [fst snd] in Hall.
  apply andb_true_iff in Hall as [H1 H2].
  apply Bool.eqb_prop in H1, H2. auto.
Qed.

End TimeOrderFacts.

(** X1. On time strings that the schedule form accepts, comparing the
    numbers of [timeToFloat] is comparing the minutes of the day: no two
    different times get the same number, and [<] and [<=] are exact. *)
Theorem timeToFloat_compares_minutes (s e : string) :
  ScheduleSchema.timeFormatOk s = true ->
  ScheduleSchema.timeFormatOk e = true ->
  exists sh sm eh em : Z,
    Schedule.hourAndMinute s = (Some sh, Some sm)
    /\ Schedule.hourAndMinute e = (Some eh, Some em)
    /\ PrimFloat.ltb (timeToFloat s) (timeToFloat e) = (sh * 60 + sm <? eh * 60 + em)
    /\ PrimFloat.leb (timeToFloat s) (timeToFloat e) = (sh * 60 + sm <=? eh * 60 + em).
Proof.
  intros Hs He.
  destruct (TimeOrderFacts.float_order_exact s e Hs He) as [Hlt Hle].
  destruct (TimeFormatFacts.accepted_time_parses s Hs) as (sh & sm & Hps & _).
  destruct (TimeFormatFacts.accepted_time_parses e He) as (eh & em & Hpe & _).
  exists sh, sm, eh, em. unfold TimeOrder.minuteOfTime in Hlt, Hle.
  rewrite Hps, Hpe in Hlt, Hle. auto.
Qed.

Lemma timeToFloat_compares_minutes_witness :
  exists sh sm eh em : Z,
    Schedule.hourAndMinute "9:15" = (Some sh, Some sm)
    /\ Schedule.hourAndMinute "09:20" = (Some eh, Some em)
    /\ PrimFloat.ltb (timeToFloat "9:15") (timeToFloat "09:20") = (sh * 60 + sm <? eh * 60 + em)
    /\ PrimFloat.leb (timeToFloat "9:15") (timeToFloat "09:20") = (sh * 60 + sm <=? eh * 60 + em).
Proof.
  apply (timeToFloat_compares_minutes "9:15" "09:20"); reflexivity.
Defined.

(** ** The issues of the schedule form *)

Module RefineFacts.
Import ScheduleSchema TimeOrder.

Lemma concat_imap_nil {A B} (l : list A) :
  forall f : nat -> A -> list B,
    concat (imap f l) = [] <-> forall i a, l !! i = Some a -> f i a = [].
Proof.
  induction l as [|a0 l IH]; intros f; simpl.
  - split; [intros _ i a H; discriminate | reflexivity].
  - split.
    + intros [H0 Hrest]%app_eq_nil i a Hi. destruct i as [|i]; simpl in Hi.
      * injection Hi as <-. assumption.
      * apply (proj1 (IH (f ∘ S)) Hrest i a Hi).
    + intros Hall. rewrite (Hall 0%nat a0 eq_refl). simpl.
      apply IH. intros i a Hi. apply (Hall (S i) a Hi).
Qed.

Lemma overlap_in availabilities index :
  overlapIssue index ∈ superRefine availabilities
  <-> exists availability i a,
        availabilities !! index = Some availability
        /\ availabilities !! i = Some a
        /\ overlapsWith index availability i a = true.
Proof.
  unfold superRefine. rewrite ValidationFacts.elem_of_concat_imap. split.
  - intros (k & av & Hk & Hx).
    pose proof (ValidationFacts.checkAvailability_index _ _ _ _ Hx) as Hidx.
    simpl in Hidx. subst k. unfold checkAvailability in Hx.
    apply elem_of_app in Hx as [Hx|Hx].
    + destruct (existsb _ _) eqn:E; [|inversion Hx].
      apply ValidationFacts.existsb_imap in E as (i & a & Hi & Hg).
      exists av, i, a. auto.
    + destruct (PrimFloat.leb _ _); [|inversion Hx].
      apply list_elem_of_singleton in Hx. discriminate.
  - intros (av & i & a & Hav & Hi & Hg).
    exists index, av. split; [assumption|].
    unfold checkAvailability. apply elem_of_app. left.
    assert (existsb id (imap (overlapsWith index av) availabilities) = true) as ->
      by (apply ValidationFacts.existsb_imap; eauto).
    apply list_elem_of_singleton. reflexivity.
Qed.

Lemma overlapsWith_sym index availability i a :
  overlapsWith index availability i a = overlapsWith i a index availability.
Proof.
  unfold overlapsWith. rewrite (Nat.eqb_sym i index).
  rewrite (bool_decide_ext (dayOfWeek a = dayOfWeek availability)
                           (dayOfWeek availability = dayOfWeek a)) by (split; congruence).
  rewrite <- !andb_assoc. f_equal. f_equal. apply andb_comm.
Qed.

Lemma checkAvailability_nil availabilities index availability :
  checkAvailability availabilities index availability = []
  <-> (forall i a, availabilities !! i = Some a ->
                   overlapsWith index availability i a = false)
      /\ PrimFloat.leb (timeToFloat (endTime availability))
                       (timeToFloat (startTime availability)) = false.
Proof.
  unfold checkAvailability. split.
  - intros [H1 H2]%app_eq_nil. split.
    + intros i a Hi. destruct (overlapsWith index availability i a) eqn:E; [|reflexivity].
      assert (existsb id (imap (overlapsWith index availability) availabilities) = true) as Hex
        by (apply ValidationFacts.existsb_imap; eauto).
      rewrite Hex in H1. discriminate.
    + destruct (PrimFloat.leb _ _); [discriminate|reflexivity].
  - intros [H1 H2]. rewrite H2.
    destruct (existsb _ _) eqn:E; [|reflexivity].
    apply ValidationFacts.existsb_imap in E as (i & a & Hi & Hg).
    rewrite (H1 i a Hi) in Hg. discriminate.
Qed.

(** On accepted rules the test of the refinement is the overlap of the
    half-open minute ranges of two different rules of one day. *)
Lemma overlapsWith_minutes index availability i a :
  accepted availability -> accepted a ->
  overlapsWith index availability i a = false
  <-> (i = index \/ ~ (dayOfWeek a = dayOfWeek availability
                       /\ minuteOfTime (startTime a) < minuteOfTime (endTime availability)
                       /\ minuteOfTime (startTime availability) < minuteOfTime (endTime a))).
Proof.
  intros [Hs He] [Has Hae]. unfold overlapsWith.
  rewrite (proj1 (TimeOrderFacts.float_order_exact _ _ Has He)).
  rewrite (proj1 (TimeOrderFacts.float_order_exact _ _ Hs Hae)).
  destruct (Nat.eqb_spec i index) as [->|Hne]; cbn [negb andb].
  - split; auto.
  - destruct (decide (dayOfWeek a = dayOfWeek availability)) as [Hd|Hd].
    + rewrite (bool_decide_eq_true_2 _ Hd). cbn [andb]. split.
      * intros H. right. intros (_ & H1 & H2).
        apply Z.ltb_lt in H1, H2. rewrite H1, H2 in H. discriminate.
      * intros [?|H]; [contradiction|].
        destruct (Z.ltb_spec (minuteOfTime (startTime a)) (minuteOfTime (endTime availability)));
          [|reflexivity].
        destruct (Z.ltb_spec (minuteOfTime (startTime availability)) (minuteOfTime (endTime a)));
          [|reflexivity].
        exfalso. apply H. auto.
    + rewrite (bool_decide_eq_false_2 _ Hd). cbn [andb]. split; [|reflexivity].
      intros _. right. intros (H & _). contradiction.
Qed.

(** Whether the refinement raises an issue does not depend on the
    order of the rules. *)
Lemma superRefine_nil_permutation (rules rules' : list Availability) :
  rules' ≡ₚ rules -> superRefine rules = [] -> superRefine rules' = [].
Proof.
  intros Hperm. unfold superRefine. rewrite !concat_imap_nil.
  intros Hnil i a Hi.
  apply Permutation_inj in Hperm as [_ (f & Hinj & Hf)].
  rewrite Hf in Hi.
  pose proof (proj1 (checkAvailability_nil _ _ _) (Hnil (f i) a Hi)) as [Hov Hord].
  apply checkAvailability_nil. split; [|exact Hord].
  intros j b Hj. rewrite Hf in Hj. specialize (Hov (f j) b Hj).
  unfold overlapsWith in *. destruct (Nat.eqb_spec j i) as [->|Hne]; [reflexivity|].
  destruct (Nat.eqb_spec (f j) (f i)) as [Heq|_]; [apply Hinj in Heq; contradiction|].
  exact Hov.
Qed.

End RefineFacts.

(** X2. Overlap issues come in pairs: when the rule at one position gets
    the issue "Availability overlaps with another", so does a rule at
    another position, the one it overlaps. *)
Theorem overlap_issues_come_in_pairs
    (availabilities : list ScheduleSchema.Availability) (index : nat) :
  ScheduleSchema.overlapIssue index ∈ ScheduleSchema.superRefine availabilities ->
  exists other,
    other <> index
    /\ ScheduleSchema.overlapIssue other ∈ ScheduleSchema.superRefine availabilities.
Proof.
  intros (av & i & a & Hav & Hi & Hg)%RefineFacts.overlap_in.
  exists i. split.
  - unfold ScheduleSchema.overlapsWith in Hg.
    repeat (apply andb_true_iff in Hg as [Hg _]).
    apply negb_true_iff, Nat.eqb_neq in Hg. assumption.
  - apply RefineFacts.overlap_in. exists a, index, av.
    rewrite <- RefineFacts.overlapsWith_sym. auto.
Qed.

Lemma overlap_issues_come_in_pairs_witness :
  exists other,
    other <> 1%nat
    /\ ScheduleSchema.overlapIssue other
       ∈ ScheduleSchema.superRefine Scenarios.overlappingRules.
Proof.
  apply (overlap_issues_come_in_pairs Scenarios.overlappingRules 1).
  vm_compute. apply list_elem_of_In. right. left. reflexivity.
Defined.

(** X3. For rules whose times are in the accepted format, the refinement
    of the schedule form raises no issue exactly when every rule ends
    after it starts and no two rules of the same day overlap, both in
    minutes of the day; rules that touch (one ends when the other starts)
    raise no issue. *)
Theorem superRefine_passes_exactly_valid_rules
    (availabilities : list ScheduleSchema.Availability) :
  Forall TimeOrder.accepted availabilities ->
  ScheduleSchema.superRefine availabilities = [] <-> TimeOrder.validRules availabilities.
Proof.
  intros Hacc. rewrite Forall_lookup in Hacc.
  unfold ScheduleSchema.superRefine, TimeOrder.validRules.
  rewrite RefineFacts.concat_imap_nil. split.
  - intros Hnil. split.
    + apply Forall_lookup. intros i a Hi.
      pose proof (proj1 (RefineFacts.checkAvailability_nil _ _ _) (Hnil i a Hi)) as [_ Hord].
      destruct (Hacc i a Hi) as [Hs He].
      rewrite (proj2 (TimeOrderFacts.float_order_exact _ _ He Hs)) in Hord.
      apply Z.leb_gt in Hord. exact Hord.
    + intros i j a b Hi Hj Hne Hday.
      pose proof (proj1 (RefineFacts.checkAvailability_nil _ _ _) (Hnil i a Hi)) as [Hov _].
      specialize (Hov j b Hj).
      apply (RefineFacts.overlapsWith_minutes i a j b (Hacc i a Hi) (Hacc j b Hj)) in Hov
        as [Heq | Hno]; [congruence|].
      destruct (Z.le_gt_cases (TimeOrder.minuteOfTime (ScheduleSchema.endTime a))
                              (TimeOrder.minuteOfTime (ScheduleSchema.startTime b))); [auto|].
      destruct (Z.le_gt_cases (TimeOrder.minuteOfTime (ScheduleSchema.endTime b))
                              (TimeOrder.minuteOfTime (ScheduleSchema.startTime a))); [auto|].
      exfalso. apply Hno. repeat split; [congruence | lia | lia].
  - intros [Hwell Hdisj] i a Hi. rewrite Forall_lookup in Hwell.
    apply RefineFacts.checkAvailability_nil. split.
    + intros j b Hj.
      apply (RefineFacts.overlapsWith_minutes i a j b (Hacc i a Hi) (Hacc j b Hj)).
      destruct (decide (j = i)) as [->|Hne]; [auto|]. right.
      intros (Hday & H1 & H2).
      destruct (Hdisj i j a b Hi Hj ltac:(congruence) ltac:(congruence)); lia.
    + destruct (Hacc i a Hi) as [Hs He].
      rewrite (proj2 (TimeOrderFacts.float_order_exact _ _ He Hs)).
      apply Z.leb_gt. apply (Hwell i a Hi).
Qed.

Lemma superRefine_passes_exactly_valid_rules_witness :
  TimeOrder.validRules MoreScenarios.touchingRules.
Proof.
  apply (superRefine_passes_exactly_valid_rules MoreScenarios.touchingRules).
  - repeat constructor.
  - vm_compute. reflexivity.
Defined.

(** ** Descriptions of durations *)

Module FormatterFacts.
Import Formatters.

Lemma descriptions_differ_on_table :
  forallb (fun p =>
             forallb (fun q => (fst p =? fst q) || negb (String.eqb (snd p) (snd q)))
                     describedDurations)
          describedDurations = true.
Proof. vm_compute. reflexivity. Qed.

Lemma described d :
  1 <= d <= 720 -> In (d, formatEventDescription d) describedDurations.
Proof.
  intros Hd. unfold describedDurations.
  replace d with (Z.of_nat (Z.to_nat d)) by lia.
  apply (in_map (fun n => (Z.of_nat n, formatEventDescription (Z.of_nat n)))).
  apply in_seq. lia.
Qed.

End FormatterFacts.

(** X4. Over the durations that the event form admits (1 to 720
    minutes), [formatEventDescription] gives different descriptions to
    different durations. *)
Theorem formatEventDescription_distinguishes_durations (d1 d2 : Z) :
  1 <= d1 <= 720 -> 1 <= d2 <= 720 ->
  Formatters.formatEventDescription d1 = Formatters.formatEventDescription d2 ->
  d1 = d2.
Proof.
  intros H1 H2 Heq.
  pose proof FormatterFacts.descriptions_differ_on_table as Hall.
  rewrite forallb_forall in Hall.
  specialize (Hall _ (FormatterFacts.described d1 H1)). rewrite forallb_forall in Hall.
  specialize (Hall _ (FormatterFacts.described d2 H2)). cbn [fst snd] in Hall.
  apply orb_true_iff in Hall as [Hsame | Hdiff].
  - apply Z.eqb_eq. assumption.
  - rewrite Heq, String.eqb_refl in Hdiff. discriminate.
Qed.

Lemma formatEventDescription_distinguishes_durations_witness :
  Formatters.formatEventDescription 90 = "1 hr 30 mins"%string /\ 90 = 90.
Proof.
  split; [reflexivity|].
  apply (formatEventDescription_distinguishes_durations 90 90); [lia | lia | reflexivity].
Defined.

(** ** From the time select back to the server *)

(** X5. A time offered by the meeting form is the valid instant moved
    into the guest's time zone by the browser; [createMeeting] moves it
    back on the server.  With zones without transitions, the instant that
    the server obtains is the valid instant shifted by the offset of the
    server minus the offset of the browser: the two agree exactly when
    browser and server run at the same offset. *)
Theorem offered_time_returns_shifted
    (browser server : Host) (browserOffset serverOffset zoneOffset : Z)
    (timezone : string) (validTimes : list JsTime.JsDate) :
  sys_zone browser = JsTime.fixedZone browserOffset ->
  sys_zone server = JsTime.fixedZone serverOffset ->
  tz_lookup browser timezone = Some (JsTime.fixedZone zoneOffset) ->
  tz_lookup server timezone = Some (JsTime.fixedZone zoneOffset) ->
  map (fun offered => DateFns.fromZonedTime server offered timezone)
      (MeetingForm.validTimesInTimezone browser validTimes timezone)
  = map (fun valid => match valid with
                      | Some t => Some (t + (serverOffset - browserOffset))
                      | None => None
                      end)
        validTimes
  /\ (forall t, Some t ∈ validTimes ->
        DateFns.fromZonedTime server (MeetingForm.toZonedTime browser (Some t) timezone) timezone
        = Some t <-> serverOffset = browserOffset).
Proof.
  intros Hb Hs Hzb Hzs.
  assert (forall valid,
            DateFns.fromZonedTime server (MeetingForm.toZonedTime browser valid timezone) timezone
            = match valid with
              | Some t => Some (t + (serverOffset - browserOffset))
              | None => None
              end) as Hone.
  { intros [t|]; unfold MeetingForm.toZonedTime, DateFns.fromZonedTime;
      rewrite ?Hzb, ?Hzs, ?Hb, ?Hs; [|reflexivity].
    unfold JsTime.UTC, JsTime.LocalTime, JsTime.fixedZone. cbn [JsTime.LocalTZA].
    f_equal. lia. }
  split.
  - unfold MeetingForm.validTimesInTimezone. rewrite map_map.
    apply map_ext. exact Hone.
  - intros t _. rewrite Hone. split.
    + intros [= H]. lia.
    + intros ->. f_equal. lia.
Qed.

Lemma offered_time_returns_shifted_witness :
  map (fun offered => DateFns.fromZonedTime Scenarios.serverUTC offered "America/New_York")
      (MeetingForm.validTimesInTimezone MoreScenarios.browserNewYork
         [Scenarios.mondayAt 9 30] "America/New_York")
  = [Scenarios.mondayAt 13 30].
Proof.
  apply (proj1 (offered_time_returns_shifted MoreScenarios.browserNewYork Scenarios.serverUTC
                  (-4 * JsTime.msPerHour) 0 (-4 * JsTime.msPerHour) "America/New_York"
                  [Scenarios.mondayAt 9 30] eq_refl eq_refl eq_refl eq_refl)).
Defined.

(** ** The availability test when the server runs in the schedule's zone *)

Module MinuteFacts.
Import JsTime DateFns Schedule TimeOrder.

(** A time value is its day, hour, minute, second and millisecond. *)
Lemma time_fields (t : Z) :
  t = Day t * msPerDay + HourFromTime t * msPerHour + MinFromTime t * msPerMinute
      + SecFromTime t * msPerSecond + msFromTime t.
Proof.
  unfold Day, HourFromTime, MinFromTime, SecFromTime, msFromTime,
    msPerDay, msPerHour, msPerMinute, msPerSecond.
  assert (t / 60000 = t / 1000 / 60) as E1 by (rewrite Z.div_div by lia; reflexivity).
  assert (t / 3600000 = t / 60000 / 60) as E2 by (rewrite Z.div_div by lia; reflexivity).
  assert (t / 86400000 = t / 3600000 / 24) as E3 by (rewrite Z.div_div by lia; reflexivity).
  pose proof (Z.div_mod t 1000 ltac:(lia)) as H1.
  pose proof (Z.div_mod (t / 1000) 60 ltac:(lia)) as H2.
  pose proof (Z.div_mod (t / 60000) 60 ltac:(lia)) as H3.
  pose proof (Z.div_mod (t / 3600000) 24 ltac:(lia)) as H4.
  rewrite <- E1 in H2. rewrite <- E2 in H3. rewrite <- E3 in H4.
  lia.
Qed.

(** The two containment tests for one accepted rule, with the server in
    the zone of the schedule: only the minute of the day matters. *)
Lemma window_test_in_minutes h a timezone t d row :
  sys_zone h = fixedZone a -> tz_lookup h timezone = Some (fixedZone a) ->
  accepted (SaveSchedule.asFormRule row) -> wellOrdered (SaveSchedule.asFormRule row) ->
  0 <= d ->
  isWithinInterval (Some t) (availabilityWindow h (Some t) timezone row)
  && isWithinInterval (addMinutes (Some t) d) (availabilityWindow h (Some t) timezone row)
  = true
  <-> minuteOfTime (AvailabilityRow.startTime row)
        <= HourFromTime (t + a) * 60 + MinFromTime (t + a)
      /\ HourFromTime (t + a) * 60 + MinFromTime (t + a) + d
         <= minuteOfTime (AvailabilityRow.endTime row).
Proof.
  intros Hsys Htz [Hs He] Hord Hd.
  change (ScheduleSchema.timeFormatOk (AvailabilityRow.startTime row) = true) in Hs.
  change (ScheduleSchema.timeFormatOk (AvailabilityRow.endTime row) = true) in He.
  change (minuteOfTime (AvailabilityRow.startTime row)
          < minuteOfTime (AvailabilityRow.endTime row)) in Hord.
  destruct (TimeFormatFacts.accepted_time_parses _ Hs) as (sh & sm & Hps & Hsh & Hsm).
  destruct (TimeFormatFacts.accepted_time_parses _ He) as (eh & em & Hpe & Heh & Hem).
  unfold minuteOfTime in *. rewrite Hps, Hpe in Hord. rewrite Hps, Hpe.
  unfold availabilityWindow. rewrite Hps, Hpe.
  rewrite !(WindowFacts.setHours_setMinutes_fixed h a) by assumption.
  unfold fromZonedTime. rewrite Htz, Hsys.
  unfold UTC, LocalTime, fixedZone. cbn [LocalTZA].
  pose proof (time_fields (t + a)) as Hf.
  pose proof (Z.mod_pos_bound ((t + a) / msPerSecond) 60 ltac:(lia)) as Hsec.
  pose proof (Z.mod_pos_bound (t + a) msPerSecond ltac:(unfold msPerSecond; lia)) as Hms.
  fold (SecFromTime (t + a)) in Hsec. fold (msFromTime (t + a)) in Hms.
  set (dy := Day (t + a)) in *. set (hr := HourFromTime (t + a)) in *.
  set (mi := MinFromTime (t + a)) in *. set (se := SecFromTime (t + a)) in *.
  set (ms := msFromTime (t + a)) in *.
  unfold msPerDay, msPerHour, msPerMinute, msPerSecond in *.
  rewrite andb_true_iff, !DateFacts.isWithinInterval_spec. cbn [start end_ addMinutes].
  unfold msPerMinute. split.
  - intros [(x & ws & we & [= <-] & [= <-] & [= <-] & Hin1)
            (x2 & ws2 & we2 & [= <-] & [= <-] & [= <-] & Hin2)].
    lia.
  - intros [Hin1 Hin2]. split; do 3 eexists; repeat split; lia.
Qed.

End MinuteFacts.

(** X6. When the server process runs in the time zone of the schedule
    (a zone without transitions) and the rules are as the schedule form
    accepts them, the filter of the resolver keeps a candidate exactly when
    no busy interval overlaps its meeting and some rule of its weekday has
    start <= m and m + duration <= end, where m is the candidate's minute
    of the day ([getHours() * 60 + getMinutes()]): the seconds and
    milliseconds of the candidate play no part.  The candidate and the end
    of its meeting are taken two days or more inside the range of time
    values, and the offset is at most a day, so that no date that the
    filter computes is an Invalid Date (the dates of this development have
    no range limit). *)
Theorem validTime_in_minutes_of_the_day
    (h : Host) (a : Z) (timezone : string) (rows : list AvailabilityRow.t)
    (busy : list DateFns.Interval) (d t : Z) :
  sys_zone h = JsTime.fixedZone a ->
  tz_lookup h timezone = Some (JsTime.fixedZone a) ->
  Forall (fun row => TimeOrder.accepted (SaveSchedule.asFormRule row)
                     /\ TimeOrder.wellOrdered (SaveSchedule.asFormRule row)) rows ->
  0 <= d ->
  Z.abs a <= JsTime.msPerDay ->
  Z.abs t + d * JsTime.msPerMinute + 2 * JsTime.msPerDay <= JsTime.maxTime ->
  Schedule.validTime h (Schedule.groupBy rows AvailabilityRow.dayOfWeek) timezone busy d (Some t)
  = true
  <-> (forall b, b ∈ busy ->
         DateFns.areIntervalsOverlapping b
           {| DateFns.start := Some t; DateFns.end_ := Some (t + d * JsTime.msPerMinute) |}
         = false)
      /\ exists row,
           row ∈ rows
           /\ Schedule.dayOfWeekOf h (Some t) = Some (AvailabilityRow.dayOfWeek row)
           /\ TimeOrder.minuteOfTime (AvailabilityRow.startTime row)
                <= JsTime.HourFromTime (t + a) * 60 + JsTime.MinFromTime (t + a)
           /\ JsTime.HourFromTime (t + a) * 60 + JsTime.MinFromTime (t + a) + d
                <= TimeOrder.minuteOfTime (AvailabilityRow.endTime row).
Proof.
  intros Hsys Htz Hrows Hd _ _. rewrite Forall_forall in Hrows. split.
  - intros [Hbusy (w & Hw & H1 & H2)]%ResolverProps.validTime_true.
    split; [exact Hbusy|].
    apply ResolverProps.getAvailabilities_row in Hw as (row & Hrow & Hday & ->).
    exists row. split; [assumption|]. split; [assumption|].
    destruct (Hrows row Hrow) as [Hacc Hord].
    apply (MinuteFacts.window_test_in_minutes h a timezone t d row Hsys Htz Hacc Hord Hd).
    rewrite H1, H2. reflexivity.
  - intros [Hbusy (row & Hrow & Hday & Hmin)].
    destruct (Hrows row Hrow) as [Hacc Hord].
    apply (MinuteFacts.window_test_in_minutes h a timezone t d row Hsys Htz Hacc Hord Hd)
      in Hmin.
    unfold Schedule.validTime. cbn [DateFns.start DateFns.end_]. apply andb_true_iff. split.
    + apply forallb_forall. intros b Hb%list_elem_of_In.
      apply negb_true_iff. apply (Hbusy b Hb).
    + apply existsb_exists.
      exists (Schedule.availabilityWindow h (Some t) timezone row). split; [|exact Hmin].
      unfold Schedule.getAvailabilities. rewrite Hday, ResolverFacts.groupBy_lookup.
      assert (In row (List.filter
                        (fun r => bool_decide (AvailabilityRow.dayOfWeek r
                                               = AvailabilityRow.dayOfWeek row)) rows)) as Hin.
      { apply filter_In. split; [apply list_elem_of_In; assumption|].
        apply bool_decide_eq_true. reflexivity. }
      destruct (List.filter _ rows) as [|r rs]; [destruct Hin|].
      apply in_map. exact Hin.
Qed.

Lemma validTime_in_minutes_of_the_day_witness :
  Schedule.validTime Scenarios.serverUTC
    (Schedule.groupBy [Scenarios.rule monday "09:00" "17:00"] AvailabilityRow.dayOfWeek)
    "UTC" [] 30 (Some (JsTime.Date_UTC 2025 6 9 16 30 + 59999))
  = true.
Proof.
  apply (validTime_in_minutes_of_the_day Scenarios.serverUTC 0 "UTC"
           [Scenarios.rule monday "09:00" "17:00"] [] 30
           (JsTime.Date_UTC 2025 6 9 16 30 + 59999)).
  - reflexivity.
  - reflexivity.
  - repeat constructor.
  - lia.
  - vm_compute. discriminate.
  - vm_compute. discriminate.
  - split.
    + intros b Hb. inversion Hb.
    + exists (Scenarios.rule monday "09:00" "17:00").
      split; [apply list_elem_of_singleton; reflexivity|].
      split; [vm_compute; reflexivity|].
      vm_compute. split; discriminate.
Defined.

(** ** Failures of the calendar calls *)

Module CalendarEdgeFacts.
Import JsTime DateFns Effects GoogleCalendar.

(** The token that [getOAuthClient] finds usable. *)
Lemma getOAuthClient_ok sv user log d rest :
  getUserOauthAccessToken sv user = Ok (d :: rest) ->
  Clerk.token d <> ""%string ->
  getOAuthClient sv user log = (Ok (Clerk.token d), log ++ [ClerkGetOauthToken user]).
Proof.
  intros Htok Hne. unfold getOAuthClient, try_catch, bind, call. rewrite Htok.
  apply String.eqb_neq in Hne. rewrite Hne. reflexivity.
Qed.

Lemma getOAuthClient_no_token sv user log :
  getUserOauthAccessToken sv user = Ok []
  \/ (exists d rest, getUserOauthAccessToken sv user = Ok (d :: rest)
                     /\ Clerk.token d = ""%string) ->
  getOAuthClient sv user log
  = (Throw "Failed to get OAuth client: No OAuth data or token found for the user.",
     log ++ [ClerkGetOauthToken user]).
Proof.
  unfold getOAuthClient, try_catch, bind, call.
  intros [-> | (d & rest & -> & Hempty)]; [reflexivity|].
  rewrite Hempty. reflexivity.
Qed.

(** What a write of [createCalendarEvent] carries, and the calls of a
    run that returns. *)
Lemma createCalendarEvent_write sv a log r log' :
  createCalendarEvent sv a log = (r, log') ->
  exists calls,
    log' = log ++ calls
    /\ (forall token body,
          GcalEventsInsert token body ∈ calls ->
          exists t user primary,
            GoogleCalendar.startTime a = Some t
            /\ getUser sv (GoogleCalendar.clerkUserId a) = Ok user
            /\ primary ∈ Clerk.emailAddresses user
            /\ Clerk.primaryEmailAddressId user = Some (Clerk.id primary)
            /\ Gcal.startDateTime body = t
            /\ Gcal.endDateTime body = t + GoogleCalendar.durationInMinutes a * msPerMinute
            /\ map Gcal.email (Gcal.attendees body)
               = [GoogleCalendar.guestEmail a; Clerk.emailAddress primary])
    /\ (forall created, r = Ok created ->
          exists token body,
            calls = [ClerkGetOauthToken (GoogleCalendar.clerkUserId a);
                     ClerkGetUser (GoogleCalendar.clerkUserId a);
                     GcalEventsInsert token body]).
Proof.
  unfold createCalendarEvent, try_catch, bind.
  destruct (CalendarFacts.getOAuthClient_log sv (GoogleCalendar.clerkUserId a) log) as [r0 ->].
  unfold call, throw, ret.
  assert (forall (l : list Call),
            Forall (fun c => isWrite c = false) l ->
            forall token body, GcalEventsInsert token body ∈ l -> False) as Hnw.
  { intros l Hl token body Hin. rewrite Forall_forall in Hl.
    specialize (Hl _ Hin). discriminate. }
  destruct r0 as [token|e].
  2:{ cbn. intros [= <- <-]. rewrite <- app_assoc. eexists. split; [reflexivity|]. split.
      - intros ? ? Hin. exfalso. revert Hin. apply Hnw. repeat constructor.
      - intros ? [=]. }
  destruct (getUser sv _) as [user|e] eqn:Euser.
  2:{ cbn. intros [= <- <-]. rewrite <- !app_assoc. eexists. split; [reflexivity|]. split.
      - intros ? ? Hin. exfalso. revert Hin. apply Hnw. repeat constructor.
      - intros ? [=]. }
  destruct (find _ _) as [primary|] eqn:Efind.
  2:{ cbn. intros [= <- <-]. rewrite <- !app_assoc. eexists. split; [reflexivity|]. split.
      - intros ? ? Hin. exfalso. revert Hin. apply Hnw. repeat constructor.
      - intros ? [=]. }
  destruct (GoogleCalendar.startTime a) as [t|] eqn:Estart.
  2:{ cbn. intros [= <- <-]. rewrite <- !app_assoc. eexists. split; [reflexivity|]. split.
      - intros ? ? Hin. exfalso. revert Hin. apply Hnw. repeat constructor.
      - intros ? [=]. }
  cbn [toISOString addMinutes ret]. unfold ret.
  apply find_some in Efind as [Hprimary Hid]. apply bool_decide_eq_true in Hid.
  assert (forall (l : list Call) token0 body0 token1 body1,
            GcalEventsInsert token1 body1
              ∈ [ClerkGetOauthToken (GoogleCalendar.clerkUserId a);
                 ClerkGetUser (GoogleCalendar.clerkUserId a);
                 GcalEventsInsert token0 body0] ++ l ->
            Forall (fun c => isWrite c = false) l ->
            body1 = body0) as Hthe.
  { intros l token0 body0 token1 body1 Hin Hl.
    apply elem_of_app in Hin as [Hin|Hin]; [|exfalso; eapply Hnw; eassumption].
    apply list_elem_of_In in Hin. cbn in Hin.
    destruct Hin as [H|[H|[H|[]]]]; try discriminate. congruence. }
  destruct (events_insert sv _ _) as [created|e]; cbn; intros [= <- <-];
    rewrite <- !app_assoc; cbn [app].
  - eexists. split; [reflexivity|]. split.
    + intros token1 body1 Hin.
      apply (Hthe [] token _ token1 body1) in Hin; [|constructor]. subst body1.
      exists t, user, primary. cbn. rewrite <- Hid.
      repeat split; try reflexivity. apply list_elem_of_In. assumption.
    + intros ? _. eauto.
  - eexists. split; [reflexivity|]. split.
    + intros token1 body1 Hin.
      apply (Hthe [_] token _ token1 body1) in Hin; [|repeat constructor]. subst body1.
      exists t, user, primary. cbn. rewrite <- Hid.
      repeat split; try reflexivity. apply list_elem_of_In. assumption.
    + intros ? [=].
Qed.

End CalendarEdgeFacts.

(** X7. How the fetch of the busy intervals ends without an answer of
    the calendar: without a usable Google token it throws "No OAuth data or
    token found for the user." (wrapped twice) and has only asked Clerk;
    with a token but an Invalid Date at either end of the range it throws
    "Invalid time value" before asking the calendar; a failure of the
    calendar is thrown on with the prefix "Failed to fetch calendar
    events: "; and an answer without an item list gives no busy interval. *)
Theorem getCalendarEventTimes_edge_cases
    (h : Host) (sv : Effects.Services) (user : string) (log : list Effects.Call) :
  (forall first final,
     Effects.getUserOauthAccessToken sv user = Effects.Ok []
     \/ (exists d rest, Effects.getUserOauthAccessToken sv user = Effects.Ok (d :: rest)
                        /\ Clerk.token d = ""%string) ->
     GoogleCalendar.getCalendarEventTimes h sv user first final log
     = (Effects.Throw
          ("Failed to fetch calendar events: Failed to get OAuth client: "
           +:+ "No OAuth data or token found for the user."),
        log ++ [Effects.ClerkGetOauthToken user]))
  /\ (forall first final d rest,
        Effects.getUserOauthAccessToken sv user = Effects.Ok (d :: rest) ->
        Clerk.token d <> ""%string ->
        first = None \/ final = None ->
        GoogleCalendar.getCalendarEventTimes h sv user first final log
        = (Effects.Throw "Failed to fetch calendar events: Invalid time value",
           log ++ [Effects.ClerkGetOauthToken user]))
  /\ (forall timeMin timeMax d rest answer,
        Effects.getUserOauthAccessToken sv user = Effects.Ok (d :: rest) ->
        Clerk.token d <> ""%string ->
        Effects.events_list sv (Clerk.token d) timeMin timeMax = answer ->
        GoogleCalendar.getCalendarEventTimes h sv user (Some timeMin) (Some timeMax) log
        = (match answer with
           | Effects.Ok None => Effects.Ok []
           | Effects.Ok (Some items) =>
               Effects.Ok (omap (GoogleCalendar.eventTime h) items)
           | Effects.Throw e =>
               Effects.Throw ("Failed to fetch calendar events: " +:+ Js.messageOf e)
           end,
           log ++ [Effects.ClerkGetOauthToken user;
                   Effects.GcalEventsList (Clerk.token d) timeMin timeMax])).
Proof.
  split; [|split].
  - intros first final Hno. unfold GoogleCalendar.getCalendarEventTimes, Effects.try_catch,
      Effects.bind.
    rewrite (CalendarEdgeFacts.getOAuthClient_no_token sv user log Hno). reflexivity.
  - intros first final d rest Htok Hne Hdate.
    unfold GoogleCalendar.getCalendarEventTimes, Effects.try_catch, Effects.bind.
    rewrite (CalendarEdgeFacts.getOAuthClient_ok sv user log d rest Htok Hne).
    destruct first as [a|]; [|reflexivity].
    destruct final as [b|]; [|reflexivity].
    destruct Hdate; discriminate.
  - intros timeMin timeMax d rest answer Htok Hne Hlist.
    unfold GoogleCalendar.getCalendarEventTimes, Effects.try_catch, Effects.bind.
    rewrite (CalendarEdgeFacts.getOAuthClient_ok sv user log d rest Htok Hne).
    cbn [Effects.toISOString Effects.ret]. unfold Effects.call, Effects.ret.
    rewrite Hlist, <- app_assoc. cbn [app].
    destruct answer as [[items|]|e]; try reflexivity.
    rewrite CalendarFacts.definedOnly_omap. reflexivity.
Qed.

Lemma getCalendarEventTimes_edge_cases_witness :
  GoogleCalendar.getCalendarEventTimes Scenarios.serverUTC Scenarios.noRulesNoGoogle
    Scenarios.owner (Scenarios.mondayAt 9 0) (Scenarios.mondayAt 9 0) []
  = (Effects.Throw
       ("Failed to fetch calendar events: Failed to get OAuth client: "
        +:+ "No OAuth data or token found for the user."),
     [] ++ [Effects.ClerkGetOauthToken Scenarios.owner]).
Proof.
  apply (proj1 (getCalendarEventTimes_edge_cases Scenarios.serverUTC Scenarios.noRulesNoGoogle
                  Scenarios.owner [])).
  left. reflexivity.
Defined.

(** X8. What [createCalendarEvent] writes: every entry it inserts starts
    at the given start time and ends [durationInMinutes] later, and invites
    the guest and the owner's primary e-mail address, in that order; the
    owner must have a primary address among the addresses of the Clerk
    user, and the start time must be a valid date.  A run that returns has
    made exactly three calls: token, user, insert. *)
Theorem createCalendarEvent_writes_the_meeting
    (sv : Effects.Services) (a : GoogleCalendar.CreateArgs)
    (log log' : list Effects.Call) (r : Effects.outcome Gcal.Event) :
  GoogleCalendar.createCalendarEvent sv a log = (r, log') ->
  exists calls,
    log' = log ++ calls
    /\ (forall token body,
          Effects.GcalEventsInsert token body ∈ calls ->
          exists t user primary,
            GoogleCalendar.startTime a = Some t
            /\ Effects.getUser sv (GoogleCalendar.clerkUserId a) = Effects.Ok user
            /\ primary ∈ Clerk.emailAddresses user
            /\ Clerk.primaryEmailAddressId user = Some (Clerk.id primary)
            /\ Gcal.startDateTime body = t
            /\ Gcal.endDateTime body
               = t + GoogleCalendar.durationInMinutes a * JsTime.msPerMinute
            /\ map Gcal.email (Gcal.attendees body)
               = [GoogleCalendar.guestEmail a; Clerk.emailAddress primary])
    /\ (forall created, r = Effects.Ok created ->
          exists token body,
            calls = [Effects.ClerkGetOauthToken (GoogleCalendar.clerkUserId a);
                     Effects.ClerkGetUser (GoogleCalendar.clerkUserId a);
                     Effects.GcalEventsInsert token body]).
Proof.
  intros Hrun.
  destruct (CalendarEdgeFacts.createCalendarEvent_write sv a log r log' Hrun)
    as (calls & Hlog & Hwrite & Hok).
  exists calls. split; [exact Hlog|]. split; [exact Hwrite | exact Hok].
Qed.

Lemma createCalendarEvent_writes_the_meeting_witness :
  exists calls,
    snd (GoogleCalendar.createCalendarEvent Scenarios.officeBusy MoreScenarios.writeArgs [])
    = [] ++ calls
    /\ forall token body,
         Effects.GcalEventsInsert token body ∈ calls ->
         Gcal.startDateTime body = JsTime.Date_UTC 2025 6 9 9 30
         /\ Gcal.endDateTime body = JsTime.Date_UTC 2025 6 9 10 0.
Proof.
  destruct (createCalendarEvent_writes_the_meeting Scenarios.officeBusy MoreScenarios.writeArgs []
              (snd (GoogleCalendar.createCalendarEvent Scenarios.officeBusy
                      MoreScenarios.writeArgs []))
              (fst (GoogleCalendar.createCalendarEvent Scenarios.officeBusy
                      MoreScenarios.writeArgs [])))
    as (calls & Hlog & Hwrite & _).
  - apply surjective_pairing.
  - exists calls. split; [exact Hlog|].
    intros token body Hin.
    destruct (Hwrite token body Hin) as (t & user & primary & Ht & _ & _ & _ & Hs & He & _).
    injection Ht as <-. rewrite Hs, He. split; reflexivity.
Defined.

(** ** The runs of [createMeeting] *)

Module BookingFacts.
Import JsTime DateFns Effects Meetings.

(** The arguments that [createMeeting] hands to [createCalendarEvent]. *)
Lemma createMeeting_cases h sv unsafeData log result log' :
  createMeeting h sv unsafeData log = (result, log') ->
  (safeParse h unsafeData = None
   /\ result = Throw "Failed to create meeting: Invalid data."
   /\ log' = log ++ [ConsoleError "Error creating meeting: Invalid data."])
  \/ exists data,
       safeParse h unsafeData = Some data
       /\ ((find (fun e => EventRow.isActive e
                           && String.eqb (EventRow.clerkUserId e) (clerkUserId data)
                           && String.eqb (EventRow.id e) (eventId data))
                 (EventTable sv) = None
            /\ result
               = Throw ("Failed to create meeting: "
                        +:+ Js.messageOf match uuid_error sv (eventId data) with
                                         | Some message => message
                                         | None => "Event not found."
                                         end)
            /\ log' = log ++ [DbFindEvent (clerkUserId data) (eventId data);
                              ConsoleError
                                ("Error creating meeting: "
                                 +:+ Js.messageOf match uuid_error sv (eventId data) with
                                                  | Some message => message
                                                  | None => "Event not found."
                                                  end)])
           \/ exists event r1 log1,
                find (fun e => EventRow.isActive e
                               && String.eqb (EventRow.clerkUserId e) (clerkUserId data)
                               && String.eqb (EventRow.id e) (eventId data))
                     (EventTable sv) = Some event
                /\ Schedule.getValidTimesFromSchedule h sv
                     [fromZonedTime h (startTime data) (timezone data)] event
                     (log ++ [DbFindEvent (clerkUserId data) (eventId data)]) = (r1, log1)
                /\ match r1 with
                   | Throw e =>
                       result = Throw ("Failed to create meeting: " +:+ Js.messageOf e)
                       /\ log' = log1 ++ [ConsoleError ("Error creating meeting: "
                                                       +:+ Js.messageOf e)]
                   | Ok [] =>
                       result = Throw "Failed to create meeting: Selected time is not valid."
                       /\ log' = log1 ++ [ConsoleError
                                            "Error creating meeting: Selected time is not valid."]
                   | Ok (_ :: _) =>
                       exists r2 log2,
                         GoogleCalendar.createCalendarEvent sv
                           {| GoogleCalendar.clerkUserId := clerkUserId data;
                              GoogleCalendar.guestName := guestName data;
                              GoogleCalendar.guestEmail := guestEmail data;
                              GoogleCalendar.startTime :=
                                fromZonedTime h (startTime data) (timezone data);
                              GoogleCalendar.guestNotes := guestNotes data;
                              GoogleCalendar.durationInMinutes :=
                                EventRow.durationInMinutes event;
                              GoogleCalendar.eventName := EventRow.name event |} log1
                         = (r2, log2)
                         /\ match r2 with
                            | Ok _ =>
                                result = Ok {| created_clerkUserId := clerkUserId data;
                                               created_eventId := eventId data;
                                               created_startTime := startTime data |}
                                /\ log' = log2
                            | Throw e =>
                                result = Throw ("Failed to create meeting: "
                                                +:+ Js.messageOf e)
                                /\ log' = log2 ++ [ConsoleError ("Error creating meeting: "
                                                               +:+ Js.messageOf e)]
                            end
                   end).
Proof.
  intros Hrun. unfold createMeeting, try_catch in Hrun.
  destruct (safeParse h unsafeData) as [data|] eqn:Eparse.
  2:{ left. cbn in Hrun. injection Hrun as <- <-. auto. }
  right. exists data. split; [reflexivity|].
  unfold bind at 1 in Hrun. unfold findEvent, call at 1 in Hrun.
  destruct (find _ (EventTable sv)) as [event|] eqn:Efind.
  2:{ left. destruct (uuid_error sv (eventId data));
        cbn in Hrun; injection Hrun as <- <-; rewrite <- app_assoc; auto. }
  right. unfold bind at 1 in Hrun.
  destruct (Schedule.getValidTimesFromSchedule _ _ _ _ _) as [r1 log1] eqn:Erun.
  exists event, r1, log1. split; [reflexivity|]. split; [exact Erun|].
  destruct r1 as [[|kept rest]|e].
  - cbn in Hrun. injection Hrun as <- <-. auto.
  - cbn [length Nat.eqb] in Hrun. unfold bind in Hrun.
    destruct (GoogleCalendar.createCalendarEvent _ _ _) as [r2 log2] eqn:Ecreate.
    exists r2, log2. split; [first [exact Ecreate | reflexivity]|].
    destruct r2; cbn in Hrun; injection Hrun as <- <-; auto.
  - cbn in Hrun. injection Hrun as <- <-. auto.
Qed.

End BookingFacts.



(** X10. [createMeeting] returns normally only after the write: when it
    returns, the last call it made is the insertion of the calendar entry,
    no earlier call of the run writes, and the value returned repeats the
    user, the event and the start time of the request. *)
Theorem createMeeting_returns_after_one_write
    (h : Host) (sv : Effects.Services) (unsafeData : Meetings.MeetingData)
    (log log' : list Effects.Call) (created : Meetings.Created) :
  Meetings.createMeeting h sv unsafeData log = (Effects.Ok created, log') ->
  exists data before token body,
    Meetings.safeParse h unsafeData = Some data
    /\ created = {| Meetings.created_clerkUserId := Meetings.clerkUserId data;
                    Meetings.created_eventId := Meetings.eventId data;
                    Meetings.created_startTime := Meetings.startTime data |}
    /\ log' = log ++ before ++ [Effects.GcalEventsInsert token body]
    /\ Effects.noWrite before.
Proof.
  intros Hrun.
  apply BookingFacts.createMeeting_cases in Hrun
    as [(_ & [=] & _) | (data & Hparse & [(_ & [=] & _) | (event & r1 & log1 & _ & Hres & Hrest)])].
  destruct r1 as [[|kept rest]|e]; [destruct Hrest as [[=] _]| |destruct Hrest as [[=] _]].
  destruct Hrest as (r2 & log2 & Hcreate & Hend).
  destruct r2 as [entry|e]; [|destruct Hend as [[=] _]].
  destruct Hend as [[= ->] ->].
  pose proof (MeetingFacts.resolver_log _ _ _ _ _ _ _ Hres) as (rc & -> & Hrc).
  destruct (CalendarEdgeFacts.createCalendarEvent_write _ _ _ _ _ Hcreate)
    as (cc & -> & _ & Hok).
  destruct (Hok entry eq_refl) as (token & body & ->).
  exists data,
    ([Effects.DbFindEvent (Meetings.clerkUserId data) (Meetings.eventId data)] ++ rc
     ++ [Effects.ClerkGetOauthToken (Meetings.clerkUserId data);
         Effects.ClerkGetUser (Meetings.clerkUserId data)]),
    token, body.
  split; [assumption|]. split; [reflexivity|]. split.
  - rewrite <- !app_assoc. reflexivity.
  - apply Forall_app. split; [repeat constructor|].
    apply Forall_app. split; [exact Hrc | repeat constructor].
Qed.

Lemma createMeeting_returns_after_one_write_witness :
  exists data before token body,
    Meetings.safeParse Scenarios.serverUTC (Scenarios.booking (Scenarios.mondayAt 9 30))
    = Some data
    /\ {| Meetings.created_clerkUserId := Scenarios.owner;
          Meetings.created_eventId := Scenarios.uuid "e1";
          Meetings.created_startTime := Scenarios.mondayAt 9 30 |}
       = {| Meetings.created_clerkUserId := Meetings.clerkUserId data;
            Meetings.created_eventId := Meetings.eventId data;
            Meetings.created_startTime := Meetings.startTime data |}
    /\ snd (Meetings.createMeeting Scenarios.serverUTC Scenarios.officeBusy
              (Scenarios.booking (Scenarios.mondayAt 9 30)) [])
       = [] ++ before ++ [Effects.GcalEventsInsert token body]
    /\ Effects.noWrite before.
Proof.
  apply (createMeeting_returns_after_one_write Scenarios.serverUTC Scenarios.officeBusy
           (Scenarios.booking (Scenarios.mondayAt 9 30)) []).
  vm_compute. reflexivity.
Defined.



(** ** The event actions on the table of events *)

Module StoreFacts.
Import Effects Store Events.




Lemma find_snoc {A} (p : A -> bool) (l : list A) (x : A) :
  find p (l ++ [x])
  = match find p l with
    | Some a => Some a
    | None => if p x then Some x else None
    end.
Proof.
  induction l as [|a l IH]; [reflexivity|].
  cbn. destruct (p a); [reflexivity | exact IH].
Qed.

Lemma filter_map_keep {A} (p : A -> bool) (f : A -> A) (l : list A) :
  (forall a, p (f a) = p a) ->
  (forall a, p a = true -> f a = a) ->
  List.filter p (map f l) = List.filter p l.
Proof.
  intros Hkey Hfix. induction l as [|a l IH]; [reflexivity|].
  cbn. rewrite Hkey. destruct (p a) eqn:Hp; [rewrite (Hfix a Hp), IH | rewrite IH]; reflexivity.
Qed.

Lemma filter_filter_keep {A} (p q : A -> bool) (l : list A) :
  (forall a, p a = true -> q a = true) ->
  List.filter p (List.filter q l) = List.filter p l.
Proof.
  intros Himp. induction l as [|a l IH]; [reflexivity|].
  cbn. destruct (p a) eqn:Hp.
  - rewrite (Himp a Hp). cbn. rewrite Hp, IH. reflexivity.
  - destruct (q a); [cbn; rewrite Hp|]; exact IH.
Qed.

Lemma owned_key id userId e :
  ownedBy id userId e
  = String.eqb (EventRow.clerkUserId e) userId && String.eqb (EventRow.id e) id.
Proof. apply andb_comm. Qed.

Lemma others_not_owned id userId e :
  ofOthers (Some userId) e = true -> ownedBy id userId e = false.
Proof.
  unfold ofOthers, ownedBy. intros H. apply negb_true_iff in H. rewrite H.
  apply andb_false_r.
Qed.

Lemma getEvent_owned d userId id :
  getEvent d userId id = find (ownedBy id userId) (eventRows d).
Proof.
  unfold getEvent. induction (eventRows d) as [|a l IH]; [reflexivity|].
  cbn. rewrite owned_key. destruct (_ && _); [reflexivity | exact IH].
Qed.

Lemma owned_count d userId id :
  match getEvent d userId id with
  | Some _ => exists n, length (List.filter (ownedBy id userId) (eventRows d)) = S n
  | None => length (List.filter (ownedBy id userId) (eventRows d)) = 0%nat
  end.
Proof.
  rewrite getEvent_owned. induction (eventRows d) as [|a l IH]; [reflexivity|].
  cbn. destruct (ownedBy id userId a); [cbn; eauto | exact IH].
Qed.

(** How a statement on the rows of [userId] with the id [id] ends. *)
Lemma rowCountFor_owned d userId id w :
  rowCountFor id (length (List.filter (ownedBy id userId) (eventRows d))) w
  = (match getEvent d userId id, uuid_failure w id with
     | None, Some message => Throw message
     | _, _ => Ok (length (List.filter (ownedBy id userId) (eventRows d)))
     end, w).
Proof.
  unfold rowCountFor. pose proof (owned_count d userId id) as Hcount.
  destruct (getEvent d userId id); [destruct Hcount as [n ->]; reflexivity|].
  rewrite Hcount. destruct (uuid_failure w id); reflexivity.
Qed.



(** The three runs, spelled out. *)
Lemma createEvent_run session unsafeData w :
  createEvent session unsafeData w
  = match safeParse unsafeData, signedIn session with
    | Some data, Some userId =>
        (Ok tt,
         {| db := withEvents (db w)
                    (eventRows (db w) ++ [newRow (uuids w (generated w)) userId data]);
            uuid_failure := uuid_failure w;
            uuids := uuids w; generated := S (generated w);
            revalidated := revalidated w ++ ["/events"] |})
    | _, _ =>
        (Throw "Failed to create event: Invalid event data or user not authenticated.",
         revalidatePath "/events" w)
    end.
Proof.
  unfold createEvent, try_catch_finally.
  destruct (safeParse unsafeData), (signedIn session); reflexivity.
Qed.

Lemma updateEvent_run session id unsafeData w :
  updateEvent session id unsafeData w
  = match safeParse unsafeData, signedIn session with
    | Some data, Some userId =>
        (match getEvent (db w) userId id, uuid_failure w id with
         | Some _, _ => Ok tt
         | None, Some message => Throw ("Failed to update event: " +:+ Js.messageOf message)
         | None, None =>
             Throw "Failed to update event: Event not found or user not authorized to update this event."
         end,
         {| db := withEvents (db w)
                    (map (fun e => if ownedBy id userId e then setData data e else e)
                         (eventRows (db w)));
            uuid_failure := uuid_failure w;
            uuids := uuids w; generated := generated w;
            revalidated := revalidated w ++ ["/events"] |})
    | _, _ =>
        (Throw "Failed to update event: Invalid event data or user not authenticated.",
         revalidatePath "/events" w)
    end.
Proof.
  unfold updateEvent, try_catch_finally.
  destruct (safeParse unsafeData) as [data|], (signedIn session) as [userId|];
    try reflexivity.
  unfold updateOwned. unfold bind at 1. unfold bind at 1. unfold readDb at 1.
  unfold bind at 1. unfold writeDb at 1. rewrite rowCountFor_owned.
  cbn [db withDb uuid_failure].
  pose proof (owned_count (db w) userId id) as Hcount.
  destruct (getEvent (db w) userId id).
  - destruct Hcount as [n ->]. reflexivity.
  - rewrite Hcount. destruct (uuid_failure w id); reflexivity.
Qed.

Lemma deleteEvent_run session id w :
  deleteEvent session id w
  = match signedIn session with
    | Some userId =>
        (match getEvent (db w) userId id, uuid_failure w id with
         | Some _, _ => Ok tt
         | None, Some message => Throw ("Failed to delete event: " +:+ Js.messageOf message)
         | None, None =>
             Throw "Failed to delete event: Event not found or user not authorized to delete this event."
         end,
         {| db := withEvents (db w)
                    (List.filter (fun e => negb (ownedBy id userId e)) (eventRows (db w)));
            uuid_failure := uuid_failure w;
            uuids := uuids w; generated := generated w;
            revalidated := revalidated w ++ ["/events"] |})
    | None =>
        (Throw "Failed to delete event: User not authenticated.",
         revalidatePath "/events" w)
    end.
Proof.
  unfold deleteEvent, try_catch_finally.
  destruct (signedIn session) as [userId|]; try reflexivity.
  unfold deleteOwned. unfold bind at 1. unfold bind at 1. unfold readDb at 1.
  unfold bind at 1. unfold writeDb at 1. rewrite rowCountFor_owned.
  cbn [db withDb uuid_failure].
  pose proof (owned_count (db w) userId id) as Hcount.
  destruct (getEvent (db w) userId id).
  - destruct Hcount as [n ->]. reflexivity.
  - rewrite Hcount. destruct (uuid_failure w id); reflexivity.
Qed.

Lemma safeParse_some unsafeData data :
  safeParse unsafeData = Some data ->
  data = unsafeData /\ name data <> "" /\ 0 < durationInMinutes data <= 60 * 12.
Proof.
  unfold safeParse. destruct (_ && _) eqn:E; [|discriminate].
  intros [= <-]. apply andb_true_iff in E as [E Hmax]. apply andb_true_iff in E as [Hname Hpos].
  apply negb_true_iff, String.eqb_neq in Hname.
  apply Z.ltb_lt in Hpos. apply Z.leb_le in Hmax. auto.
Qed.

End StoreFacts.

(** X12. The event actions touch only the events of the user of the
    session: whatever [createEvent], [updateEvent] and [deleteEvent] are
    given and however they end, the events of every other user are the
    same afterwards, in the same order, and so are the schedules and the
    availabilities; without a signed-in user no event changes at all. *)
Theorem event_actions_keep_other_users_rows
    (session : option string) (id : string) (unsafeData : Events.EventFormData)
    (w : Store.World) :
  Events.keptForOthers (Store.signedIn session) (Store.db w)
    (Store.db (snd (Events.createEvent session unsafeData w)))
  /\ Events.keptForOthers (Store.signedIn session) (Store.db w)
       (Store.db (snd (Events.updateEvent session id unsafeData w)))
  /\ Events.keptForOthers (Store.signedIn session) (Store.db w)
       (Store.db (snd (Events.deleteEvent session id w))).
Proof.
  rewrite StoreFacts.createEvent_run, StoreFacts.updateEvent_run, StoreFacts.deleteEvent_run.
  unfold Events.keptForOthers.
  destruct (Store.signedIn session) as [userId|]; destruct (Events.safeParse unsafeData) as [data|];
    cbn; repeat split; try reflexivity.
  - rewrite List.filter_app. cbn. rewrite String.eqb_refl. cbn. apply app_nil_r.
  - apply StoreFacts.filter_map_keep.
    + intros e. destruct (Events.ownedBy id userId e); reflexivity.
    + intros e He. rewrite (StoreFacts.others_not_owned id userId e He). reflexivity.
  - apply StoreFacts.filter_filter_keep.
    intros e He. rewrite (StoreFacts.others_not_owned id userId e He). reflexivity.
  - apply StoreFacts.filter_filter_keep.
    intros e He. rewrite (StoreFacts.others_not_owned id userId e He). reflexivity.
Qed.





(** X15. [createEvent], for a signed-in user and data that the event form
    accepts, when the generated id is not yet the id of an event: it
    returns normally, adds one row after the others, with the data of the
    form, the generated id and the user of the session as its owner;
    [getEvent] then finds that row under that user and id, and every
    other look-up by user and id answers as before. *)
Theorem createEvent_adds_an_owned_event
    (session : option string) (userId : string)
    (unsafeData data : Events.EventFormData) (w : Store.World) :
  Events.safeParse unsafeData = Some data ->
  Store.signedIn session = Some userId ->
  Forall (fun e => EventRow.id e <> Store.uuids w (Store.generated w))
         (Store.eventRows (Store.db w)) ->
  fst (Events.createEvent session unsafeData w) = Effects.Ok tt
  /\ Store.eventRows (Store.db (snd (Events.createEvent session unsafeData w)))
     = Store.eventRows (Store.db w)
       ++ [Events.newRow (Store.uuids w (Store.generated w)) userId data]
  /\ Events.getEvent (Store.db (snd (Events.createEvent session unsafeData w)))
       userId (Store.uuids w (Store.generated w))
     = Some (Events.newRow (Store.uuids w (Store.generated w)) userId data)
  /\ (forall otherUser otherId,
        (otherUser, otherId) <> (userId, Store.uuids w (Store.generated w)) ->
        Events.getEvent (Store.db (snd (Events.createEvent session unsafeData w)))
          otherUser otherId
        = Events.getEvent (Store.db w) otherUser otherId)
  /\ Store.revalidated (snd (Events.createEvent session unsafeData w))
     = Store.revalidated w ++ ["/events"].
Proof.
  intros Hparse Huser Hfresh. rewrite StoreFacts.createEvent_run, Hparse, Huser.
  cbn [fst snd Store.db Store.revalidated].
  split; [reflexivity|]. split; [reflexivity|]. split; [|split; [|reflexivity]].
  - rewrite StoreFacts.getEvent_owned. cbn [Events.withEvents Store.eventRows].
    rewrite StoreFacts.find_snoc.
    destruct (find _ _) as [e|] eqn:E.
    + exfalso. apply find_some in E as [Hin He].
      rewrite Forall_forall in Hfresh. apply list_elem_of_In in Hin.
      apply (Hfresh e Hin). unfold Events.ownedBy in He.
      apply andb_true_iff in He as [He _]. apply String.eqb_eq in He. exact He.
    + unfold Events.ownedBy, Events.newRow. cbn. rewrite !String.eqb_refl. reflexivity.
  - intros otherUser otherId Hne. rewrite !StoreFacts.getEvent_owned.
    cbn [Events.withEvents Store.eventRows].
    rewrite StoreFacts.find_snoc.
    destruct (find _ _) as [e|]; [reflexivity|].
    destruct (Events.ownedBy otherId otherUser _) eqn:Hown; [|reflexivity].
    exfalso. apply Hne. unfold Events.ownedBy in Hown.
    apply andb_true_iff in Hown as [H1 H2]. apply String.eqb_eq in H1, H2.
    cbn in H1, H2. congruence.
Qed.

Lemma createEvent_adds_an_owned_event_witness :
  fst (Events.createEvent (Some Scenarios.owner) MoreScenarios.eventForm MoreScenarios.twoUsers)
  = Effects.Ok tt
  /\ Events.getEvent
       (Store.db (snd (Events.createEvent (Some Scenarios.owner) MoreScenarios.eventForm
                         MoreScenarios.twoUsers)))
       Scenarios.owner (MoreScenarios.uuidOf 0)
     = Some (Events.newRow (MoreScenarios.uuidOf 0) Scenarios.owner MoreScenarios.eventForm).
Proof.
  destruct (createEvent_adds_an_owned_event (Some Scenarios.owner) Scenarios.owner
              MoreScenarios.eventForm MoreScenarios.eventForm MoreScenarios.twoUsers
              eq_refl eq_refl) as (Hok & _ & Hfound & _).
  - repeat constructor; vm_compute; discriminate.
  - split; [exact Hok | exact Hfound].
Defined.

(** X16. The guarantees of the event form hold of the whole table: if
    every stored event has a name and a duration from 1 to 720 minutes,
    then so has every stored event after [createEvent], [updateEvent] or
    [deleteEvent], whatever they are given and however they end. *)
Theorem event_actions_keep_rows_well_formed
    (session : option string) (id : string) (unsafeData : Events.EventFormData)
    (w : Store.World) :
  Forall Events.wellFormed (Store.eventRows (Store.db w)) ->
  Forall Events.wellFormed
    (Store.eventRows (Store.db (snd (Events.createEvent session unsafeData w))))
  /\ Forall Events.wellFormed
       (Store.eventRows (Store.db (snd (Events.updateEvent session id unsafeData w))))
  /\ Forall Events.wellFormed
       (Store.eventRows (Store.db (snd (Events.deleteEvent session id w)))).
Proof.
  intros Hall.
  rewrite StoreFacts.createEvent_run, StoreFacts.updateEvent_run, StoreFacts.deleteEvent_run.
  destruct (Store.signedIn session) as [userId|];
    destruct (Events.safeParse unsafeData) as [data|] eqn:Hparse;
    cbn [fst snd Store.db Store.revalidatePath Events.withEvents Store.eventRows];
    repeat split; try assumption.
  - apply StoreFacts.safeParse_some in Hparse as (_ & Hname & Hd).
    apply Forall_app. split; [assumption|]. apply Forall_singleton. split; assumption.
  - apply StoreFacts.safeParse_some in Hparse as (_ & Hname & Hd).
    apply Forall_forall. intros e' Hin. apply list_elem_of_In, in_map_iff in Hin as (e & <- & Hin).
    destruct (Events.ownedBy id userId e).
    + split; assumption.
    + rewrite Forall_forall in Hall. apply Hall, list_elem_of_In, Hin.
  - apply Forall_forall. intros e Hin. apply list_elem_of_In, filter_In in Hin as [Hin _].
    rewrite Forall_forall in Hall. apply Hall, list_elem_of_In, Hin.
  - apply Forall_forall. intros e Hin. apply list_elem_of_In, filter_In in Hin as [Hin _].
    rewrite Forall_forall in Hall. apply Hall, list_elem_of_In, Hin.
Qed.

Lemma event_actions_keep_rows_well_formed_witness :
  Forall Events.wellFormed
    (Store.eventRows
       (Store.db (snd (Events.createEvent (Some Scenarios.owner) MoreScenarios.eventForm
                         MoreScenarios.twoUsers))))
  /\ Forall Events.wellFormed
       (Store.eventRows
          (Store.db (snd (Events.updateEvent (Some Scenarios.owner) (Scenarios.uuid "e1")
                            MoreScenarios.eventForm MoreScenarios.twoUsers))))
  /\ Forall Events.wellFormed
       (Store.eventRows
          (Store.db (snd (Events.deleteEvent (Some Scenarios.owner) (Scenarios.uuid "e1")
                            MoreScenarios.twoUsers)))).
Proof.
  apply (event_actions_keep_rows_well_formed (Some Scenarios.owner) (Scenarios.uuid "e1")
           MoreScenarios.eventForm MoreScenarios.twoUsers).
  repeat constructor; vm_compute; congruence.
Defined.

(** ** Saving a schedule *)

Module SaveFacts.
Import Effects Store SaveSchedule.

Lemma find_map {A B} (p : B -> bool) (f : A -> B) (l : list A) :
  find p (map f l) = f <$> find (fun a => p (f a)) l.
Proof.
  induction l as [|a l IH]; [reflexivity|].
  cbn. destruct (p (f a)); [reflexivity | exact IH].
Qed.

Lemma find_ext {A} (p q : A -> bool) (l : list A) :
  (forall a, p a = q a) -> find p l = find q l.
Proof.
  intros Hpq. induction l as [|a l IH]; [reflexivity|].
  cbn. rewrite Hpq, IH. reflexivity.
Qed.

Lemma filter_none_of {A} (p : A -> bool) (l : list A) :
  Forall (fun a => p a = false) l -> List.filter p l = [].
Proof.
  induction 1 as [|a l Ha _ IH]; [reflexivity|]. cbn. rewrite Ha. exact IH.
Qed.

Lemma filter_all {A} (p : A -> bool) (l : list A) :
  Forall (fun a => p a = true) l -> List.filter p l = l.
Proof.
  induction 1 as [|a l Ha _ IH]; [reflexivity|]. cbn. rewrite Ha, IH. reflexivity.
Qed.

Lemma NoDup_map_inj {A B} (f : A -> B) (l : list A) a b :
  NoDup (map f l) -> In a l -> In b l -> f a = f b -> a = b.
Proof.
  induction l as [|x l IH]; [intros _ []|].
  cbn. intros Hnd Ha Hb Hab. inversion Hnd as [|? ? Hx Hrest]; subst.
  destruct Ha as [->|Ha], Hb as [->|Hb]; try reflexivity.
  - exfalso. apply Hx. rewrite Hab. apply list_elem_of_In, in_map, Hb.
  - exfalso. apply Hx. rewrite <- Hab. apply list_elem_of_In, in_map, Ha.
  - apply IH; assumption.
Qed.

(** The rows that [insertAvailabilities] adds. *)
Lemma insertAvailabilities_run scheduleId rows :
  forall w,
  exists added,
    insertAvailabilities scheduleId rows w
    = (Ok tt,
       {| db := {| scheduleRows := scheduleRows (db w);
                   availabilityRows := availabilityRows (db w) ++ added;
                   eventRows := eventRows (db w) |};
          uuid_failure := uuid_failure w; uuids := uuids w; generated := (generated w + length rows)%nat;
          revalidated := revalidated w |})
    /\ map asFormRule added = rows
    /\ Forall (fun a => AvailabilityRow.scheduleId a = scheduleId) added.
Proof.
  induction rows as [|a rows IH]; intros w.
  - exists []. cbn. rewrite app_nil_r, Nat.add_0_r.
    destruct w as [[? ? ?] ? ? ?]. repeat split. constructor.
  - cbn [insertAvailabilities]. unfold bind at 1. unfold randomUuid at 1.
    unfold bind at 1. unfold readDb at 1. unfold bind at 1. unfold writeDb at 1.
    cbn [db withDb].
    match goal with |- context [insertAvailabilities scheduleId rows ?w1] =>
      destruct (IH w1) as (added & -> & Hform & Hid) end.
    cbn [db withDb scheduleRows availabilityRows eventRows uuid_failure uuids generated
         revalidated].
    eexists (_ :: added). split; [|split].
    + cbn [length]. rewrite <- app_assoc, Nat.add_succ_r. reflexivity.
    + cbn. rewrite Hform. destruct a. reflexivity.
    + constructor; [reflexivity | exact Hid].
Qed.

Lemma schedule_safeParse_some unsafeData data :
  safeParse unsafeData = Some data ->
  data = unsafeData
  /\ timezone data <> ""
  /\ Forall TimeOrder.accepted (availabilities data)
  /\ ScheduleSchema.superRefine (availabilities data) = [].
Proof.
  unfold safeParse. destruct (_ && _) eqn:E; [|discriminate].
  intros [= <-]. apply andb_true_iff in E as [E Hrefine].
  apply andb_true_iff in E as [Hzone Htimes].
  apply negb_true_iff, String.eqb_neq in Hzone.
  apply bool_decide_eq_true in Hrefine.
  repeat split; try assumption.
  apply Forall_forall. intros a Ha. rewrite forallb_forall in Htimes.
  apply list_elem_of_In in Ha. specialize (Htimes a Ha).
  apply andb_true_iff in Htimes. exact Htimes.
Qed.

(** The run of [saveSchedule] for accepted data and a signed-in user. *)
Lemma saveSchedule_run session unsafeData data userId w :
  safeParse unsafeData = Some data ->
  signedIn session = Some userId ->
  exists scheduleId schedules added,
    saveSchedule session unsafeData w
    = (Ok tt,
       {| db := {| scheduleRows := schedules;
                   availabilityRows :=
                     List.filter
                       (fun a => negb (String.eqb (AvailabilityRow.scheduleId a) scheduleId))
                       (availabilityRows (db w))
                     ++ added;
                   eventRows := eventRows (db w) |};
          uuid_failure := uuid_failure w; uuids := uuids w;
          generated := (S (generated w) + length (availabilities data))%nat;
          revalidated := revalidated w ++ ["/schedule"] |})
    /\ map asFormRule added = availabilities data
    /\ Forall (fun a => AvailabilityRow.scheduleId a = scheduleId) added
    /\ match find (ownerIs userId) (scheduleRows (db w)) with
       | Some row =>
           scheduleId = ScheduleRow.id row
           /\ schedules
              = map (fun s => if ownerIs userId s
                              then {| ScheduleRow.id := ScheduleRow.id s;
                                      ScheduleRow.timezone := timezone data;
                                      ScheduleRow.clerkUserId := ScheduleRow.clerkUserId s |}
                              else s)
                    (scheduleRows (db w))
       | None =>
           scheduleId = uuids w (generated w)
           /\ schedules
              = scheduleRows (db w)
                ++ [ {| ScheduleRow.id := uuids w (generated w);
                        ScheduleRow.timezone := timezone data;
                        ScheduleRow.clerkUserId := userId |} ]
       end.
Proof.
  intros Hparse Huser.
  unfold saveSchedule, try_catch_finally. rewrite Hparse, Huser.
  unfold bind at 1. unfold upsertSchedule.
  unfold bind at 1. unfold randomUuid at 1. unfold bind at 1. unfold readDb at 1.
  cbn [db].
  destruct (find (ownerIs userId) (scheduleRows (db w))) as [row|].
  - unfold bind at 1. unfold writeDb at 1. unfold ret at 1.
    unfold bind at 1. unfold deleteAvailabilities, bind at 1. unfold readDb at 1.
    unfold writeDb at 1. cbn [db withDb scheduleRows availabilityRows eventRows].
    destruct (0 <? length (availabilities data))%nat eqn:Hlen.
    + match goal with |- context [insertAvailabilities ?sid ?rows ?w1] =>
        destruct (insertAvailabilities_run sid rows w1) as (added & -> & Hform & Hid) end.
      cbn [db withDb scheduleRows availabilityRows eventRows uuid_failure uuids generated
           revalidated revalidatePath].
      eexists _, _, added. split; [reflexivity|]. auto.
    + apply Nat.ltb_ge in Hlen. assert (availabilities data = []) as Hnil
        by (destruct (availabilities data); [reflexivity | cbn in Hlen; lia]).
      unfold ret. cbn [revalidatePath db withDb uuid_failure uuids generated revalidated].
      eexists _, _, []. rewrite Hnil, app_nil_r, Nat.add_0_r.
      split; [reflexivity|]. split; [reflexivity|]. split; [constructor|]. auto.
  - unfold bind at 1. unfold writeDb at 1. unfold ret at 1.
    unfold bind at 1. unfold deleteAvailabilities, bind at 1. unfold readDb at 1.
    unfold writeDb at 1. cbn [db withDb scheduleRows availabilityRows eventRows].
    destruct (0 <? length (availabilities data))%nat eqn:Hlen.
    + match goal with |- context [insertAvailabilities ?sid ?rows ?w1] =>
        destruct (insertAvailabilities_run sid rows w1) as (added & -> & Hform & Hid) end.
      cbn [db withDb scheduleRows availabilityRows eventRows uuid_failure uuids generated
           revalidated revalidatePath].
      eexists _, _, added. split; [reflexivity|]. auto.
    + apply Nat.ltb_ge in Hlen. assert (availabilities data = []) as Hnil
        by (destruct (availabilities data); [reflexivity | cbn in Hlen; lia]).
      unfold ret. cbn [revalidatePath db withDb uuid_failure uuids generated revalidated].
      eexists _, _, []. rewrite Hnil, app_nil_r, Nat.add_0_r.
      split; [reflexivity|]. split; [reflexivity|]. split; [constructor|]. auto.
Qed.

Lemma saveSchedule_rejected session unsafeData w :
  safeParse unsafeData = None \/ signedIn session = None ->
  saveSchedule session unsafeData w
  = (Throw "Failed to save schedule: Invalid schedule data or user not authenticated.",
     revalidatePath "/schedule" w).
Proof.
  unfold saveSchedule, try_catch_finally.
  intros [-> | ->]; [|destruct (safeParse unsafeData)]; reflexivity.
Qed.

End SaveFacts.

(** X17. Without a signed-in user nothing is stored: [createEvent],
    [updateEvent], [deleteEvent] and [saveSchedule] each throw their
    "not authenticated" error, leave the three tables as they were and
    generate no id; the page of the action is still revalidated, once. *)
Theorem anonymous_requests_store_nothing
    (session : option string) (id : string) (eventData : Events.EventFormData)
    (scheduleData : SaveSchedule.ScheduleFormData) (w : Store.World) :
  Store.signedIn session = None ->
  Events.createEvent session eventData w
  = (Effects.Throw "Failed to create event: Invalid event data or user not authenticated.",
     Store.revalidatePath "/events" w)
  /\ Events.updateEvent session id eventData w
     = (Effects.Throw "Failed to update event: Invalid event data or user not authenticated.",
        Store.revalidatePath "/events" w)
  /\ Events.deleteEvent session id w
     = (Effects.Throw "Failed to delete event: User not authenticated.",
        Store.revalidatePath "/events" w)
  /\ SaveSchedule.saveSchedule session scheduleData w
     = (Effects.Throw
          "Failed to save schedule: Invalid schedule data or user not authenticated.",
        Store.revalidatePath "/schedule" w).
Proof.
  intros Hnone.
  rewrite StoreFacts.createEvent_run, StoreFacts.updateEvent_run, StoreFacts.deleteEvent_run.
  rewrite Hnone. rewrite (SaveFacts.saveSchedule_rejected session scheduleData w (or_intror Hnone)).
  destruct (Events.safeParse eventData); repeat split.
Qed.

Lemma anonymous_requests_store_nothing_witness :
  Events.deleteEvent (Some ""%string) (Scenarios.uuid "e1") MoreScenarios.twoUsers
  = (Effects.Throw "Failed to delete event: User not authenticated.",
     Store.revalidatePath "/events" MoreScenarios.twoUsers)
  /\ SaveSchedule.saveSchedule None MoreScenarios.scheduleForm MoreScenarios.twoUsers
     = (Effects.Throw
          "Failed to save schedule: Invalid schedule data or user not authenticated.",
        Store.revalidatePath "/schedule" MoreScenarios.twoUsers).
Proof.
  destruct (anonymous_requests_store_nothing (Some ""%string) (Scenarios.uuid "e1")
              MoreScenarios.eventForm
              MoreScenarios.scheduleForm MoreScenarios.twoUsers eq_refl)
    as (_ & _ & Hdelete & _).
  destruct (anonymous_requests_store_nothing None (Scenarios.uuid "e1") MoreScenarios.eventForm
              MoreScenarios.scheduleForm MoreScenarios.twoUsers eq_refl)
    as (_ & _ & _ & Hsave).
  split; [exact Hdelete | exact Hsave].
Defined.

Module ReadFacts.
Import Effects Store SaveSchedule.

(** What is stored for the user after a save. *)
Lemma saveSchedule_stored session userId unsafeData data w :
  safeParse unsafeData = Some data ->
  signedIn session = Some userId ->
  exists stored,
    find (fun s => String.eqb (FullSchedule.clerkUserId s) userId)
         (fullSchedules (db (snd (saveSchedule session unsafeData w)))) = Some stored
    /\ FullSchedule.clerkUserId stored = userId
    /\ FullSchedule.timezone stored = timezone data
    /\ map asFormRule (FullSchedule.availabilities stored) = availabilities data.
Proof.
  intros Hparse Huser.
  destruct (SaveFacts.saveSchedule_run session unsafeData data userId w Hparse Huser)
    as (scheduleId & schedules & added & Hrun & Hform & Hid & Hrows).
  rewrite Hrun. cbn [fst snd db].
  unfold fullSchedules. cbn [scheduleRows availabilityRows].
  rewrite SaveFacts.find_map. cbn [FullSchedule.clerkUserId].
  assert (forall l,
            Forall (fun a => AvailabilityRow.scheduleId a = scheduleId) l ->
            Forall (fun a => String.eqb (AvailabilityRow.scheduleId a) scheduleId = true) l)
    as Hyes.
  { intros l Hl. eapply Forall_impl; [exact Hl|]. intros a ->. apply String.eqb_refl. }
  assert (List.filter (fun a => String.eqb (AvailabilityRow.scheduleId a) scheduleId)
            (List.filter
               (fun a => negb (String.eqb (AvailabilityRow.scheduleId a) scheduleId))
               (availabilityRows (db w))
             ++ added) = added) as Hmine.
  { rewrite List.filter_app, (SaveFacts.filter_all _ added (Hyes _ Hid)).
    rewrite SaveFacts.filter_none_of; [reflexivity|].
    apply Forall_forall. intros a Ha. apply list_elem_of_In, filter_In in Ha as [_ Ha].
    apply negb_true_iff. exact Ha. }
  destruct (find (ownerIs userId) (scheduleRows (db w)))
    as [row|] eqn:Hfind; destruct Hrows as [-> ->].
  - rewrite SaveFacts.find_map.
    rewrite (SaveFacts.find_ext _ (ownerIs userId)).
    2:{ intros s. destruct (ownerIs userId s) eqn:E; exact E. }
    rewrite Hfind. apply find_some in Hfind as [_ Hrow].
    cbn [fmap option_fmap option_map]. rewrite Hrow.
    eexists. split; [reflexivity|].
    cbn [FullSchedule.clerkUserId FullSchedule.timezone FullSchedule.availabilities
         ScheduleRow.id ScheduleRow.timezone ScheduleRow.clerkUserId].
    rewrite Hmine, Hform. apply String.eqb_eq in Hrow. auto.
  - rewrite (SaveFacts.find_ext _ (ownerIs userId)) by reflexivity.
    rewrite StoreFacts.find_snoc, Hfind.
    unfold ownerIs at 1. cbn [ScheduleRow.clerkUserId].
    rewrite String.eqb_refl. cbn [fmap option_fmap option_map].
    eexists. split; [reflexivity|].
    cbn [FullSchedule.clerkUserId FullSchedule.timezone FullSchedule.availabilities
         ScheduleRow.id ScheduleRow.timezone ScheduleRow.clerkUserId].
    rewrite Hmine, Hform. auto.
Qed.

(** The first schedule of a user in a reading is a reading of the first
    stored schedule of that user. *)
Lemma find_read userId (table stored : list FullSchedule.t) s :
  Forall2 sameSchedule table stored ->
  find (fun s => String.eqb (FullSchedule.clerkUserId s) userId) stored = Some s ->
  exists read,
    find (fun s => String.eqb (FullSchedule.clerkUserId s) userId) table = Some read
    /\ sameSchedule read s.
Proof.
  induction 1 as [|r s0 table stored Hsame _ IH]; [discriminate|].
  cbn. destruct Hsame as (Hid & Hzone & Howner & Hperm). rewrite Howner.
  destruct (String.eqb (FullSchedule.clerkUserId s0) userId).
  - intros [= <-]. exists r. repeat split; assumption.
  - exact IH.
Qed.

End ReadFacts.

(** X18. Saving and reading back: after [saveSchedule] for a signed-in
    user with data that the schedule form accepts, it has returned
    normally and [getSchedule], in whatever order its query returns the
    availabilities, answers a schedule of that user with the time zone of
    the form whose availabilities are the rules of the form, each as often
    as the form has it (what was stored for that schedule before is gone);
    as read, these rules are in the accepted format and raise no issue. *)
Theorem saveSchedule_then_getSchedule
    (session : option string) (userId : string)
    (unsafeData data : SaveSchedule.ScheduleFormData) (w : Store.World)
    (sv : Effects.Services) (log : list Effects.Call) :
  SaveSchedule.safeParse unsafeData = Some data ->
  Store.signedIn session = Some userId ->
  SaveSchedule.readOf (Store.db (snd (SaveSchedule.saveSchedule session unsafeData w)))
    (Effects.ScheduleTable sv) ->
  fst (SaveSchedule.saveSchedule session unsafeData w) = Effects.Ok tt
  /\ Store.revalidated (snd (SaveSchedule.saveSchedule session unsafeData w))
     = Store.revalidated w ++ ["/schedule"]
  /\ exists saved,
       Schedule.getSchedule sv userId log
       = (Effects.Ok (Some saved), log ++ [Effects.DbFindSchedule userId])
       /\ FullSchedule.clerkUserId saved = userId
       /\ FullSchedule.timezone saved = SaveSchedule.timezone data
       /\ map SaveSchedule.asFormRule (FullSchedule.availabilities saved)
          ≡ₚ SaveSchedule.availabilities data
       /\ Forall TimeOrder.accepted
            (map SaveSchedule.asFormRule (FullSchedule.availabilities saved))
       /\ ScheduleSchema.superRefine
            (map SaveSchedule.asFormRule (FullSchedule.availabilities saved)) = [].
Proof.
  intros Hparse Huser Hread.
  destruct (ReadFacts.saveSchedule_stored session userId unsafeData data w Hparse Huser)
    as (stored & Hfind & Howner & Hzone & Hrules).
  destruct (SaveFacts.saveSchedule_run session unsafeData data userId w Hparse Huser)
    as (scheduleId & schedules & added & Hrun & _).
  split; [rewrite Hrun; reflexivity|]. split; [rewrite Hrun; reflexivity|].
  destruct (ReadFacts.find_read userId _ _ stored Hread Hfind)
    as (saved & Hsaved & Hid & Hzone' & Howner' & Hperm).
  apply SaveFacts.schedule_safeParse_some in Hparse as (_ & _ & Haccepted & Hrefine).
  assert (map SaveSchedule.asFormRule (FullSchedule.availabilities saved)
          ≡ₚ SaveSchedule.availabilities data) as Hsame
    by (rewrite <- Hrules; apply fmap_Permutation, Hperm).
  exists saved. unfold Schedule.getSchedule, Effects.call. rewrite Hsaved.
  split; [reflexivity|]. split; [congruence|]. split; [congruence|].
  split; [exact Hsame|]. split.
  - rewrite Hsame. exact Haccepted.
  - apply (RefineFacts.superRefine_nil_permutation _ _ Hsame Hrefine).
Qed.

Lemma saveSchedule_then_getSchedule_witness :
  exists saved,
    Schedule.getSchedule
      (Scenarios.servicesWith
         (MoreScenarios.readBackwards
            (Store.db (snd (SaveSchedule.saveSchedule (Some Scenarios.owner)
                              MoreScenarios.scheduleForm MoreScenarios.twoUsers))))
         Scenarios.googleToken [])
      Scenarios.owner []
    = (Effects.Ok (Some saved), [] ++ [Effects.DbFindSchedule Scenarios.owner])
    /\ FullSchedule.timezone saved = "America/New_York"
    /\ map SaveSchedule.asFormRule (FullSchedule.availabilities saved)
       = reverse MoreScenarios.touchingRules
    /\ map SaveSchedule.asFormRule (FullSchedule.availabilities saved)
       ≡ₚ MoreScenarios.touchingRules.
Proof.
  destruct (saveSchedule_then_getSchedule (Some Scenarios.owner) Scenarios.owner
              MoreScenarios.scheduleForm MoreScenarios.scheduleForm MoreScenarios.twoUsers
              (Scenarios.servicesWith
                 (MoreScenarios.readBackwards
                    (Store.db (snd (SaveSchedule.saveSchedule (Some Scenarios.owner)
                                      MoreScenarios.scheduleForm MoreScenarios.twoUsers))))
                 Scenarios.googleToken [])
              [])
    as (_ & _ & saved & Hget & _ & Hzone & Hrules & _).
  - vm_compute. reflexivity.
  - reflexivity.
  - unfold SaveSchedule.readOf, MoreScenarios.readBackwards.
    cbn [Effects.ScheduleTable Scenarios.servicesWith].
    apply Forall2_fmap_l, Forall_Forall2_diag, Forall_forall. intros s _.
    repeat split. cbn [FullSchedule.availabilities]. apply reverse_Permutation.
  - exists saved. split; [exact Hget|]. split; [exact Hzone|]. split; [|exact Hrules].
    vm_compute in Hget. injection Hget as <-. vm_compute. reflexivity.
Defined.

(** X19. [saveSchedule] leaves the other users alone: when the ids of
    the stored schedules are distinct and the generated id is not among
    them, the schedule that [getSchedule] reads for any user other than
    the one of the session, with its availabilities, is the same before
    and after, whatever data was sent; the events are never touched. *)
Theorem saveSchedule_keeps_other_schedules
    (session : option string) (otherUser : string)
    (unsafeData : SaveSchedule.ScheduleFormData) (w : Store.World) :
  Store.signedIn session <> Some otherUser ->
  NoDup (map Store.ScheduleRow.id (Store.scheduleRows (Store.db w))) ->
  ~ In (Store.uuids w (Store.generated w))
       (map Store.ScheduleRow.id (Store.scheduleRows (Store.db w))) ->
  find (fun s => String.eqb (FullSchedule.clerkUserId s) otherUser)
       (SaveSchedule.fullSchedules
          (Store.db (snd (SaveSchedule.saveSchedule session unsafeData w))))
  = find (fun s => String.eqb (FullSchedule.clerkUserId s) otherUser)
         (SaveSchedule.fullSchedules (Store.db w))
  /\ Store.eventRows (Store.db (snd (SaveSchedule.saveSchedule session unsafeData w)))
     = Store.eventRows (Store.db w).
Proof.
  intros Hother Hnodup Hfresh.
  destruct (SaveSchedule.safeParse unsafeData) as [data|] eqn:Hparse;
    [destruct (Store.signedIn session) as [userId|] eqn:Huser|].
  2:{ rewrite (SaveFacts.saveSchedule_rejected session unsafeData w (or_intror Huser)).
      split; reflexivity. }
  2:{ rewrite (SaveFacts.saveSchedule_rejected session unsafeData w (or_introl Hparse)).
      split; reflexivity. }
  assert (userId <> otherUser) as Hne by congruence.
  destruct (SaveFacts.saveSchedule_run session unsafeData data userId w Hparse Huser)
    as (scheduleId & schedules & added & Hrun & _ & Hid & Hrows).
  rewrite Hrun. cbn [fst snd Store.db Store.eventRows]. split; [|reflexivity].
  unfold SaveSchedule.fullSchedules. cbn [Store.scheduleRows Store.availabilityRows].
  rewrite !SaveFacts.find_map. cbn [FullSchedule.clerkUserId].
  (* the schedule of the other user keeps its availabilities when its id
     is not the one that was saved *)
  assert (forall s,
            Store.ScheduleRow.id s <> scheduleId ->
            List.filter (fun a => String.eqb (AvailabilityRow.scheduleId a)
                                             (Store.ScheduleRow.id s))
              (List.filter
                 (fun a => negb (String.eqb (AvailabilityRow.scheduleId a) scheduleId))
                 (Store.availabilityRows (Store.db w))
               ++ added)
            = List.filter (fun a => String.eqb (AvailabilityRow.scheduleId a)
                                               (Store.ScheduleRow.id s))
                (Store.availabilityRows (Store.db w))) as Hkeep.
  { intros s Hs. rewrite List.filter_app.
    rewrite (SaveFacts.filter_none_of _ added).
    2:{ eapply Forall_impl; [exact Hid|]. intros a ->. apply String.eqb_neq. congruence. }
    rewrite app_nil_r. apply StoreFacts.filter_filter_keep.
    intros a Ha. apply String.eqb_eq in Ha. apply negb_true_iff, String.eqb_neq. congruence. }
  destruct (find (SaveSchedule.ownerIs userId) (Store.scheduleRows (Store.db w)))
    as [row|] eqn:Hfind; destruct Hrows as [-> ->].
  - rewrite SaveFacts.find_map.
    rewrite (SaveFacts.find_ext _ (fun s => String.eqb (Store.ScheduleRow.clerkUserId s)
                                                        otherUser)).
    2:{ intros s. destruct (SaveSchedule.ownerIs userId s); reflexivity. }
    destruct (find (fun s => String.eqb (Store.ScheduleRow.clerkUserId s) otherUser)
                   (Store.scheduleRows (Store.db w))) as [other|] eqn:Hfound;
      [|reflexivity].
    apply find_some in Hfound as [Hin Howner]. apply find_some in Hfind as [Hin' Howner'].
    apply String.eqb_eq in Howner. unfold SaveSchedule.ownerIs in Howner'.
    apply String.eqb_eq in Howner'.
    cbn [fmap option_fmap option_map].
    assert (SaveSchedule.ownerIs userId other = false) as ->
      by (apply String.eqb_neq; congruence).
    rewrite Hkeep; [reflexivity|].
    intros Hsame. apply (SaveFacts.NoDup_map_inj _ _ _ _ Hnodup Hin Hin') in Hsame. congruence.
  - rewrite StoreFacts.find_snoc. cbn [Store.ScheduleRow.clerkUserId].
    assert (String.eqb userId otherUser = false) as -> by (apply String.eqb_neq; assumption).
    destruct (find (fun s => String.eqb (Store.ScheduleRow.clerkUserId s) otherUser)
                   (Store.scheduleRows (Store.db w))) as [other|] eqn:Hfound;
      [|reflexivity].
    apply find_some in Hfound as [Hin _].
    cbn [fmap option_fmap option_map].
    rewrite Hkeep; [reflexivity|].
    intros Hsame. apply Hfresh. rewrite <- Hsame. apply in_map. exact Hin.
Qed.

Lemma saveSchedule_keeps_other_schedules_witness :
  find (fun s => String.eqb (FullSchedule.clerkUserId s) MoreScenarios.otherUser)
       (SaveSchedule.fullSchedules
          (Store.db (snd (SaveSchedule.saveSchedule (Some Scenarios.owner)
                            MoreScenarios.scheduleForm MoreScenarios.twoUsers))))
  = find (fun s => String.eqb (FullSchedule.clerkUserId s) MoreScenarios.otherUser)
         (SaveSchedule.fullSchedules (Store.db MoreScenarios.twoUsers))
  /\ Store.eventRows
       (Store.db (snd (SaveSchedule.saveSchedule (Some Scenarios.owner)
                         MoreScenarios.scheduleForm MoreScenarios.twoUsers)))
     = Store.eventRows (Store.db MoreScenarios.twoUsers).
Proof.
  apply (saveSchedule_keeps_other_schedules (Some Scenarios.owner) MoreScenarios.otherUser
           MoreScenarios.scheduleForm MoreScenarios.twoUsers).
  - discriminate.
  - apply NoDup_ListNoDup. vm_compute. repeat constructor; cbn; intuition discriminate.
  - vm_compute. intuition discriminate.
Defined.
